(** * TaskFlow Pro: the task hierarchy, its completion bookkeeping and its
    deletion cascade

    A shallow embedding of the models ([app/models/task.py],
    [app/models/project.py]) and of the request handlers that mutate or
    list tasks ([app/views/tasks.py], [app/views/api.py]), followed by the
    properties of the specification that concern them.

    Conventions of the embedding.
    - A Python [str] is the list of its Unicode code points.
    - A Python [int] is a [Z]; a [float] is an IEEE-754 binary64 value of
      the standard library's [SpecFloat], with round-to-nearest-even.
    - A [datetime] is a [Z] (a point on the time line); [None] is the
      [None] of an [option].
    - The database rows live in finite maps keyed by primary key.  The
      objects a request has loaded are the rows of the session's view, so
      two Python names for the same row are the same key of that map. *)

From Stdlib Require Import ZArith NArith String Ascii SpecFloat.
From stdpp Require Import gmap list sorting strings.

Local Open Scope Z_scope.

(** * Python values *)

Module Py.

(** A literal of the source, read as code points. *)
Definition lit (s : string) : list N :=
  List.map N_of_ascii (list_ascii_of_string s).

(** [str.isspace] on one code point: the code points Python's [str.strip]
    removes. *)
Definition isspace (c : N) : bool :=
  (((9 <=? c) && (c <=? 13)) || ((28 <=? c) && (c <=? 32))
   || (c =? 133) || (c =? 160) || (c =? 5760)
   || ((8192 <=? c) && (c <=? 8202))
   || (c =? 8232) || (c =? 8233) || (c =? 8239) || (c =? 8287)
   || (c =? 12288))%N.

Definition comma : N := 44%N.

Fixpoint lstrip (s : list N) : list N :=
  match s with
  | [] => []
  | c :: s' => if isspace c then lstrip s' else s
  end.

Definition rstrip (s : list N) : list N := reverse (lstrip (reverse s)).

(** [s.strip()] *)
Definition strip (s : list N) : list N := rstrip (lstrip s).

(** [s.split(sep)] for a one-character separator: never the empty list. *)
Fixpoint split (sep : N) (s : list N) : list (list N) :=
  match s with
  | [] => [[]]
  | c :: s' =>
      if decide (c = sep) then [] :: split sep s'
      else match split sep s' with
           | w :: ws => (c :: w) :: ws
           | [] => [[c]]
           end
  end.

(** [sep.join(l)] for a one-character separator. *)
Fixpoint join (sep : N) (l : list (list N)) : list N :=
  match l with
  | [] => []
  | [w] => w
  | w :: ws => w ++ sep :: join sep ws
  end.

(** Truth value of a [str]: non-empty. *)
Definition truthy (s : list N) : bool :=
  match s with [] => false | _ => true end.

(** [s.replace(old, new)] for a one-character [old]. *)
Definition replace (old : N) (new : list N) (s : list N) : list N :=
  flat_map (fun c => if decide (c = old) then new else [c]) s.

(** Numbers as the handlers produce them: [0] is an [int], a ratio is a
    [float]. *)
Inductive num :=
| Int (z : Z)
| Float (f : spec_float).

Global Instance spec_float_eq_dec : EqDecision spec_float.
Proof. solve_decision. Defined.

Definition prec : Z := 53.
Definition emax : Z := 1024.

(** [float(z)] for an [int] *)
Definition float_of_int (z : Z) : spec_float :=
  binary_normalize prec emax z 0 false.

Definition fmul : spec_float -> spec_float -> spec_float := SFmul prec emax.

(** Exceptions the handlers tell apart: [except ValueError] comes before
    [except Exception] in the API.  [CircularDependencyError] is what the
    unit of work raises when the operations of a flush cannot be put in
    an order. *)
Inductive exn :=
| ValueError
| ZeroDivisionError
| OverflowError
| RecursionError
| DatabaseError
| CircularDependencyError.

(** [a / b] on two [int]s: true division, [ZeroDivisionError] on a zero
    divisor. *)
Definition truediv (a b : Z) : exn + spec_float :=
  if decide (b = 0) then inl ZeroDivisionError
  else inr (SFdiv prec emax (float_of_int a) (float_of_int b)).

(** [int(x)] on a [float]: truncation towards zero; infinities and NaN
    raise. *)
Definition int_of_float (f : spec_float) : exn + Z :=
  match f with
  | S754_zero _ => inr 0
  | S754_finite s m e =>
      let v := match e with
               | Z0 => Zpos m
               | Zpos p => Zpos m * 2 ^ Zpos p
               | Zneg p => Zpos m / 2 ^ Zpos p
               end in
      inr (if s then - v else v)
  | S754_infinity _ => inl OverflowError
  | S754_nan => inl ValueError
  end.

End Py.

(** * Models: [app/models/task.py] *)

Inductive TaskPriority := LOW | MEDIUM | HIGH | URGENT.

Inductive TaskStatus := TODO | IN_PROGRESS | REVIEW | DONE.

Global Instance TaskPriority_eq_dec : EqDecision TaskPriority.
Proof. solve_decision. Defined.

Global Instance TaskStatus_eq_dec : EqDecision TaskStatus.
Proof. solve_decision. Defined.

(** [TaskPriority(value)]: the member with that value, [ValueError]
    otherwise. *)
Definition TaskPriority_of_value (v : list N) : Py.exn + TaskPriority :=
  if decide (v = Py.lit "low") then inr LOW
  else if decide (v = Py.lit "medium") then inr MEDIUM
  else if decide (v = Py.lit "high") then inr HIGH
  else if decide (v = Py.lit "urgent") then inr URGENT
  else inl Py.ValueError.

(** [TaskStatus(value)] *)
Definition TaskStatus_of_value (v : list N) : Py.exn + TaskStatus :=
  if decide (v = Py.lit "todo") then inr TODO
  else if decide (v = Py.lit "in_progress") then inr IN_PROGRESS
  else if decide (v = Py.lit "review") then inr REVIEW
  else if decide (v = Py.lit "done") then inr DONE
  else inl Py.ValueError.


(** [p.value] and [st.value] *)
Definition TaskPriority_value (p : TaskPriority) : list N :=
  match p with
  | LOW => Py.lit "low"
  | MEDIUM => Py.lit "medium"
  | HIGH => Py.lit "high"
  | URGENT => Py.lit "urgent"
  end.

Definition TaskStatus_value (st : TaskStatus) : list N :=
  match st with
  | TODO => Py.lit "todo"
  | IN_PROGRESS => Py.lit "in_progress"
  | REVIEW => Py.lit "review"
  | DONE => Py.lit "done"
  end.

Module Task.

(** A row of [tasks].  The primary key [id] is the key under which the row
    sits in the table (see [Store]); the other columns are the fields. *)
Record t := mk {
  title : list N;
  description : option (list N);
  priority : TaskPriority;
  status : TaskStatus;
  is_completed : bool;
  created_at : Z;
  updated_at : Z;
  due_date : option Z;
  completed_at : option Z;
  estimated_hours : spec_float;
  actual_hours : spec_float;
  tags : option (list N);
  category : option (list N);
  user_id : Z;
  project_id : option Z;
  parent_task_id : option Z
}.

Global Instance eq_dec : EqDecision t.
Proof. solve_decision. Defined.

(** Attribute assignment [x.f = v], one function per column written by the
    code. *)
Definition with_title (v : list N) (x : t) : t :=
  mk v (description x) (priority x) (status x) (is_completed x)
     (created_at x) (updated_at x) (due_date x) (completed_at x)
     (estimated_hours x) (actual_hours x) (tags x) (category x) (user_id x)
     (project_id x) (parent_task_id x).

Definition with_description (v : option (list N)) (x : t) : t :=
  mk (title x) v (priority x) (status x) (is_completed x) (created_at x)
     (updated_at x) (due_date x) (completed_at x) (estimated_hours x)
     (actual_hours x) (tags x) (category x) (user_id x) (project_id x)
     (parent_task_id x).

Definition with_priority (v : TaskPriority) (x : t) : t :=
  mk (title x) (description x) v (status x) (is_completed x) (created_at x)
     (updated_at x) (due_date x) (completed_at x) (estimated_hours x)
     (actual_hours x) (tags x) (category x) (user_id x) (project_id x)
     (parent_task_id x).

Definition with_status (v : TaskStatus) (x : t) : t :=
  mk (title x) (description x) (priority x) v (is_completed x)
     (created_at x) (updated_at x) (due_date x) (completed_at x)
     (estimated_hours x) (actual_hours x) (tags x) (category x) (user_id x)
     (project_id x) (parent_task_id x).

Definition with_is_completed (v : bool) (x : t) : t :=
  mk (title x) (description x) (priority x) (status x) v (created_at x)
     (updated_at x) (due_date x) (completed_at x) (estimated_hours x)
     (actual_hours x) (tags x) (category x) (user_id x) (project_id x)
     (parent_task_id x).

Definition with_updated_at (v : Z) (x : t) : t :=
  mk (title x) (description x) (priority x) (status x) (is_completed x)
     (created_at x) v (due_date x) (completed_at x) (estimated_hours x)
     (actual_hours x) (tags x) (category x) (user_id x) (project_id x)
     (parent_task_id x).

Definition with_due_date (v : option Z) (x : t) : t :=
  mk (title x) (description x) (priority x) (status x) (is_completed x)
     (created_at x) (updated_at x) v (completed_at x) (estimated_hours x)
     (actual_hours x) (tags x) (category x) (user_id x) (project_id x)
     (parent_task_id x).

Definition with_completed_at (v : option Z) (x : t) : t :=
  mk (title x) (description x) (priority x) (status x) (is_completed x)
     (created_at x) (updated_at x) (due_date x) v (estimated_hours x)
     (actual_hours x) (tags x) (category x) (user_id x) (project_id x)
     (parent_task_id x).

Definition with_estimated_hours (v : spec_float) (x : t) : t :=
  mk (title x) (description x) (priority x) (status x) (is_completed x)
     (created_at x) (updated_at x) (due_date x) (completed_at x) v
     (actual_hours x) (tags x) (category x) (user_id x) (project_id x)
     (parent_task_id x).

Definition with_actual_hours (v : spec_float) (x : t) : t :=
  mk (title x) (description x) (priority x) (status x) (is_completed x)
     (created_at x) (updated_at x) (due_date x) (completed_at x)
     (estimated_hours x) v (tags x) (category x) (user_id x) (project_id x)
     (parent_task_id x).

Definition with_tags (v : option (list N)) (x : t) : t :=
  mk (title x) (description x) (priority x) (status x) (is_completed x)
     (created_at x) (updated_at x) (due_date x) (completed_at x)
     (estimated_hours x) (actual_hours x) v (category x) (user_id x)
     (project_id x) (parent_task_id x).

Definition with_category (v : option (list N)) (x : t) : t :=
  mk (title x) (description x) (priority x) (status x) (is_completed x)
     (created_at x) (updated_at x) (due_date x) (completed_at x)
     (estimated_hours x) (actual_hours x) (tags x) v (user_id x)
     (project_id x) (parent_task_id x).

Definition with_project_id (v : option Z) (x : t) : t :=
  mk (title x) (description x) (priority x) (status x) (is_completed x)
     (created_at x) (updated_at x) (due_date x) (completed_at x)
     (estimated_hours x) (actual_hours x) (tags x) (category x) (user_id x)
     v (parent_task_id x).

Definition with_parent_task_id (v : option Z) (x : t) : t :=
  mk (title x) (description x) (priority x) (status x) (is_completed x)
     (created_at x) (updated_at x) (due_date x) (completed_at x)
     (estimated_hours x) (actual_hours x) (tags x) (category x) (user_id x)
     (project_id x) v.

(** [task_completion_listener], the listener of the 'set' event of
    [Task.is_completed].  [datetime.utcnow()] is read as [now], the instant
    of the call. *)
Definition task_completion_listener (now : Z) (target : t)
    (value oldvalue : bool) : t :=
  if value && negb oldvalue then
    with_status DONE (with_completed_at (Some now) target)
  else if negb value && oldvalue then
    with_status TODO (with_completed_at None target)
  else target.

(** The assignment [x.is_completed = value]: the event runs the listener
    with the value the attribute holds, then the attribute takes the new
    value. *)
Definition assign_is_completed (now : Z) (value : bool) (x : t) : t :=
  with_is_completed value
    (task_completion_listener now x value (is_completed x)).

(** The four assignments that open [mark_completed]. *)
Definition complete_self (now : Z) (x : t) : t :=
  with_updated_at now
    (with_completed_at (Some now)
       (with_status DONE (assign_is_completed now true x))).

(** [self.subtasks]: the rows whose [parent_task_id] is the key [self], as
    (key, row) pairs. *)
Definition subtasks (tasks : gmap Z t) (self : Z) : list (Z * t) :=
  filter (fun kv => parent_task_id kv.2 = Some self) (map_to_list tasks).

(** A [for] loop whose body may raise: the first exception ends it. *)
Fixpoint for_each {A S : Type} (body : A -> S -> Py.exn + S) (l : list A)
    (s : S) : Py.exn + S :=
  match l with
  | [] => inr s
  | a :: l' =>
      match body a s with
      | inl e => inl e
      | inr s' => for_each body l' s'
      end
  end.

(** The body of the loop of [mark_completed]:
    [if not subtask.is_completed: subtask.mark_completed()].  The objects
    are shared with the session, so [subtask.is_completed] is read in the
    table as the earlier iterations left it. *)
Definition visit_subtask (recur : Z -> gmap Z t -> Py.exn + gmap Z t)
    (subtask : Z * t) (ts : gmap Z t) : Py.exn + gmap Z t :=
  match ts !! subtask.1 with
  | Some cur => if is_completed cur then inr ts else recur subtask.1 ts
  | None => inr ts
  end.

(** [mark_completed].  [depth] is the number of nested calls the
    interpreter still allows (its recursion limit). *)
Fixpoint mark_completed (depth : nat) (now : Z) (self : Z)
    (tasks : gmap Z t) : Py.exn + gmap Z t :=
  match depth with
  | O => inl Py.RecursionError
  | S depth' =>
      let tasks1 := alter (complete_self now) self tasks in
      for_each (visit_subtask (mark_completed depth' now))
        (subtasks tasks1 self) tasks1
  end.

(** [mark_incomplete] *)
Definition mark_incomplete (now : Z) (x : t) : t :=
  with_updated_at now
    (with_completed_at None
       (with_status TODO (assign_is_completed now false x))).

(** [get_tags_list] *)
Definition get_tags_list (x : t) : list (list N) :=
  match tags x with
  | None => []
  | Some s =>
      if Py.truthy s then
        Py.strip <$>
          filter (fun tag => Py.truthy (Py.strip tag) = true)
            (Py.split Py.comma s)
      else []
  end.

(** [set_tags]; [tags_list] is [None] for Python's [None]. *)
Definition set_tags (tags_list : option (list (list N))) (x : t) : t :=
  match tags_list with
  | Some ((_ :: _) as l) =>
      with_tags
        (Some (Py.join Py.comma
                 (Py.strip <$>
                    filter (fun tag => Py.truthy (Py.strip tag) = true) l)))
        x
  | _ => with_tags (Some []) x
  end.

(** [get_progress_percentage].  Both counts are exact as floats (they are
    far below 2^53), so [/] is the correctly rounded quotient. *)
Definition get_progress_percentage (tasks : gmap Z t) (self : Z) (x : t)
    : Py.exn + Z :=
  let total_subtasks := Z.of_nat (length (subtasks tasks self)) in
  if decide (total_subtasks = 0) then
    inr (if is_completed x then 100 else 0)
  else
    let completed_subtasks :=
      Z.of_nat
        (length (filter (fun kv => is_completed kv.2 = true)
                   (subtasks tasks self))) in
    match Py.truediv completed_subtasks total_subtasks with
    | inl e => inl e
    | inr q => Py.int_of_float (Py.fmul q (Py.float_of_int 100))
    end.

(** [Task(title, description, user_id, priority, due_date)], with the
    column defaults the insert fills in for what the code leaves unset. *)
Definition init (now : Z) (title : list N) (description : option (list N))
    (user_id : Z) (priority : TaskPriority) (due_date : option Z) : t :=
  mk title description priority TODO false now now due_date None
     (S754_zero false) (S754_zero false) None None user_id None None.

(** [to_dict], cut down to the entries the properties below speak about:
    the key, the columns, and the [subtasks] entry when it is asked for (a
    subtask is serialised without its own subtasks).  The other entries
    of the dictionary are not represented: the labels and the tag list,
    [is_overdue] and [days_until_due], which read the clock when the
    dictionary is built, and [progress_percentage], [comments_count] and
    [subtasks_count], which read other rows.  Two dictionaries that agree
    here agree on the key and on the columns, and may differ in those
    entries. *)
Record dict := mk_dict {
  dict_id : Z;
  dict_row : t;
  dict_subtasks : option (list (Z * t))
}.

Definition to_dict (tasks : gmap Z t) (include_subtasks : bool)
    (self : Z * t) : dict :=
  mk_dict self.1 self.2
    (if include_subtasks then Some (subtasks tasks self.1) else None).

(** [get_status_label] *)
Definition get_status_label (x : t) : list N :=
  match status x with
  | TODO => Py.lit "To Do"
  | IN_PROGRESS => Py.lit "In Progress"
  | REVIEW => Py.lit "Review"
  | DONE => Py.lit "Done"
  end.

(** [is_overdue]: the value of
    [self.due_date and self.due_date < utcnow() and not self.is_completed],
    which is [None] for a task without a due date. *)
Definition is_overdue (now : Z) (x : t) : option bool :=
  match due_date x with
  | None => None
  | Some d => Some (if d <? now then negb (is_completed x) else false)
  end.

(** The microseconds of a day; a [datetime] counts microseconds. *)
Definition day : Z := 86400000000.

(** [days_until_due]: [(self.due_date - utcnow()).days], the difference
    in whole days, rounded down. *)
Definition days_until_due (now : Z) (x : t) : option Z :=
  match due_date x with
  | None => None
  | Some d => Some ((d - now) / day)
  end.

End Task.

Module TaskComment.

(** A row of [task_comments]; the primary key is the key of the table. *)
Record t := mk {
  content : list N;
  created_at : Z;
  updated_at : Z;
  task_id : Z;
  user_id : Z
}.

End TaskComment.

Module TaskAttachment.

(** A row of [task_attachments]; the primary key is the key of the table. *)
Record t := mk {
  filename : list N;
  original_filename : list N;
  file_size : option Z;
  mime_type : option (list N);
  upload_path : list N;
  created_at : Z;
  task_id : Z;
  uploaded_by : Z
}.

End TaskAttachment.

(** * Models: [app/models/project.py] *)

Module Project.

(** The dictionary [get_task_stats] returns. *)
Record task_stats := mk_stats {
  total_tasks : Z;
  completed_tasks : Z;
  pending_tasks : Z;
  completion_rate : Py.num
}.

(** [self.tasks]: the rows whose [project_id] is the key [self]. *)
Definition tasks (all : gmap Z Task.t) (self : Z) : list (Z * Task.t) :=
  filter (fun kv => Task.project_id kv.2 = Some self) (map_to_list all).

Section Stats.

(** The builtin [round(x, ndigits)] on a [float]. *)
Variable round_float : spec_float -> Z -> spec_float.

(** [round(x, ndigits)]: an [int] is returned as it is for a non-negative
    [ndigits]. *)
Definition round (x : Py.num) (ndigits : Z) : Py.num :=
  match x with
  | Py.Int z => Py.Int z
  | Py.Float f => Py.Float (round_float f ndigits)
  end.

(** [get_task_stats] *)
Definition get_task_stats (all : gmap Z Task.t) (self : Z)
    : Py.exn + task_stats :=
  let total_tasks := Z.of_nat (length (tasks all self)) in
  let completed_tasks :=
    Z.of_nat
      (length (filter (fun kv => Task.is_completed kv.2 = true)
                 (tasks all self))) in
  let pending_tasks := total_tasks - completed_tasks in
  let completion_rate :=
    if 0 <? total_tasks then
      match Py.truediv completed_tasks total_tasks with
      | inl e => inl e
      | inr q => inr (Py.Float (Py.fmul q (Py.float_of_int 100)))
      end
    else inr (Py.Int 0) in
  match completion_rate with
  | inl e => inl e
  | inr rate =>
      inr (mk_stats total_tasks completed_tasks pending_tasks (round rate 2))
  end.

End Stats.

(** [is_completed] *)
Definition is_completed (all : gmap Z Task.t) (self : Z) : bool :=
  let total_tasks := Z.of_nat (length (tasks all self)) in
  if decide (total_tasks = 0) then false
  else
    let completed_tasks :=
      Z.of_nat
        (length (filter (fun kv => Task.is_completed kv.2 = true)
                   (tasks all self))) in
    bool_decide (total_tasks = completed_tasks).

(** [is_overdue]; [end_date] is the column of the project. *)
Definition is_overdue (now : Z) (end_date : option Z) (all : gmap Z Task.t)
    (self : Z) : option bool :=
  match end_date with
  | None => None
  | Some d => Some (if d <? now then negb (is_completed all self) else false)
  end.

End Project.

(** * The database and the ORM session *)

Module Orm.

(** The tables the handlers below touch. *)
Record Store := mkStore {
  tasks : gmap Z Task.t;
  task_comments : gmap Z TaskComment.t;
  task_attachments : gmap Z TaskAttachment.t
}.

(** [db.session] during one request: [committed] is what the database
    holds durably, [view] is what the open transaction sees (the loaded
    objects with their pending changes), [roundtrips] counts the
    statements sent so far. *)
Record Session := mkSession {
  committed : Store;
  view : Store;
  roundtrips : nat
}.

(** A request starts on a fresh transaction. *)
Definition begin (s : Store) : Session := mkSession s s 0.

(** A computation of a handler: it runs in the session and returns a
    value or raises. *)
Definition orm (A : Type) : Type := Session -> (Py.exn + A) * Session.

Definition ret {A : Type} (a : A) : orm A :=
  fun σ => (inr a, σ).

Definition bind {A B : Type} (m : orm A) (k : A -> orm B) : orm B :=
  fun σ =>
    match m σ with
    | (inl e, σ') => (inl e, σ')
    | (inr a, σ') => k a σ'
    end.

Declare Scope orm_scope.
Delimit Scope orm_scope with orm.
Bind Scope orm_scope with orm.

Notation "'let*' x ':=' m 'in' k" := (bind m (fun x => k))
  (at level 10, x name, m at level 100, k at level 200) : orm_scope.
Notation "m >> k" := (bind m (fun _ => k))
  (at level 100, k at level 200, right associativity) : orm_scope.

Local Open Scope orm_scope.

Definition raise {A : Type} (e : Py.exn) : orm A :=
  fun σ => (inl e, σ).

(** [try: body except Exception as e: handler e] *)
Definition try_except {A : Type} (body : orm A) (handler : Py.exn -> orm A)
    : orm A :=
  fun σ =>
    match body σ with
    | (inl e, σ') => handler e σ'
    | (inr a, σ') => (inr a, σ')
    end.

(** A [for] loop over the rows a query returned. *)
Fixpoint for_ {A : Type} (l : list A) (body : A -> orm unit) : orm unit :=
  match l with
  | [] => ret tt
  | a :: l' => body a >> for_ l' body
  end.

(** Attribute writes on loaded objects and [session.add]: they change the
    session's view and send nothing. *)
Definition update (f : Store -> Store) : orm unit :=
  fun σ => (inr tt, mkSession (committed σ) (f (view σ)) (roundtrips σ)).

(** [db.session.rollback()] *)
Definition rollback : orm unit :=
  fun σ => (inr tt, mkSession (committed σ) (committed σ) (roundtrips σ)).

Section Faults.

(** Whether the [n]-th statement of the request fails (connection lost,
    lock timeout, constraint violation): the database raises there. *)
Variable fault : nat -> bool.

Definition roundtrip : orm unit :=
  fun σ =>
    (if fault (roundtrips σ) then inl Py.DatabaseError else inr tt,
     mkSession (committed σ) (view σ) (S (roundtrips σ))).

(** A query: one statement, answered from the transaction's view. *)
Definition query {A : Type} (q : Store -> A) : orm A :=
  roundtrip >> fun σ => (inr (q (view σ)), σ).

(** [db.session.commit()] *)
Definition commit : orm unit :=
  roundtrip >>
  fun σ => (inr tt, mkSession (view σ) (view σ) (roundtrips σ)).

(** [db.session.delete(comment)] *)
Definition delete_comment (k : Z) : orm unit :=
  roundtrip >>
  update (fun s =>
    mkStore (tasks s) (delete k (task_comments s)) (task_attachments s)).

(** [db.session.delete(attachment)] *)
Definition delete_attachment (k : Z) : orm unit :=
  roundtrip >>
  update (fun s =>
    mkStore (tasks s) (task_comments s) (delete k (task_attachments s))).

(** The UPDATE that sets the [parent_task_id] of a row to NULL:
    [updated_at] is declared with [onupdate=datetime.utcnow], so the
    statement stamps it with the instant of the flush. *)
Definition detach_row (now : Z) (x : Task.t) : Task.t :=
  Task.with_updated_at now (Task.with_parent_task_id None x).

(** ... applied to the children of [k]. *)
Definition detach (now k : Z) (x : Task.t) : Task.t :=
  if decide (Task.parent_task_id x = Some k) then detach_row now x else x.

(** What the unit of work does with the dependents of a deleted [Task],
    as the relationships of the model declare it:
    - [comments] and [attachments] are declared with
      [cascade='all, delete-orphan']: their rows are deleted with the
      task;
    - [subtasks] is declared without a delete cascade: the children stay
      and their [parent_task_id] is set to NULL. *)
Definition delete_task_row (now k : Z) (s : Store) : Store :=
  mkStore (delete k (detach now k <$> tasks s))
    (filter (fun kv => TaskComment.task_id kv.2 ≠ k) (task_comments s))
    (filter (fun kv => TaskAttachment.task_id kv.2 ≠ k) (task_attachments s)).

(** The task [k] is its own parent in [s]. *)
Definition own_parent (k : Z) (s : Store) : Prop :=
  ∃ x, tasks s !! k = Some x ∧ Task.parent_task_id x = Some k.

Global Instance own_parent_dec (k : Z) (s : Store) : Decision (own_parent k s).
Proof.
  unfold own_parent. destruct (tasks s !! k) as [x|].
  - destruct (decide (Task.parent_task_id x = Some k)) as [Hp|Hp].
    + left. by exists x.
    + right. intros (y & [= <-] & Hy). by destruct Hp.
  - right. by intros (y & Hy & _).
Defined.

(** [db.session.delete(task)] and the flush of the deletion.  The unit of
    work deletes a row after it has detached the children of the row; a
    task that is still its own parent is its own child, the two
    operations wait for each other, and the flush raises
    [CircularDependencyError] before it sends anything. *)
Definition delete_task (now k : Z) : orm unit :=
  roundtrip >>
  fun σ =>
    if decide (own_parent k (view σ))
    then (inl Py.CircularDependencyError, σ)
    else update (delete_task_row now k) σ.

(** The key the database gives the next row of [tasks]. *)
Definition next_id (m : gmap Z Task.t) : Z :=
  1 + map_fold (fun k _ acc => Z.max k acc) 0 m.

(** [db.session.add(task)]; the key is known once the row is flushed. *)
Definition add_task (x : Task.t) : orm Z :=
  fun σ =>
    let k := next_id (tasks (view σ)) in
    (inr k,
     mkSession (committed σ)
       (mkStore (<[k := x]> (tasks (view σ))) (task_comments (view σ))
          (task_attachments (view σ)))
       (roundtrips σ)).

End Faults.

(** The key the database gives the next row of [task_comments]. *)
Definition next_comment_id (m : gmap Z TaskComment.t) : Z :=
  1 + map_fold (fun k _ acc => Z.max k acc) 0 m.

(** [db.session.add(comment)] *)
Definition add_comment (c : TaskComment.t) : orm Z :=
  fun σ =>
    let k := next_comment_id (task_comments (view σ)) in
    (inr k,
     mkSession (committed σ)
       (mkStore (tasks (view σ)) (<[k := c]> (task_comments (view σ)))
          (task_attachments (view σ)))
       (roundtrips σ)).

(** A method of the models that rewrites loaded tasks, or raises. *)
Definition call (method : gmap Z Task.t -> Py.exn + gmap Z Task.t)
    : orm unit :=
  fun σ =>
    match method (tasks (view σ)) with
    | inl e => (inl e, σ)
    | inr ts =>
        (inr tt,
         mkSession (committed σ)
           (mkStore ts (task_comments (view σ)) (task_attachments (view σ)))
           (roundtrips σ))
    end.

(** No statement sent so far has failed. *)
Definition clean (fault : nat -> bool) (σ : Session) : Prop :=
  ∀ n, (n < roundtrips σ)%nat → fault n = false.

(** A statement sent so far has failed. *)
Definition failed (fault : nat -> bool) (σ : Session) : Prop :=
  ∃ n, (n < roundtrips σ)%nat ∧ fault n = true.

(** From a session in [pre], [m] returns in [post] or raises in
    [epost]. *)
Definition triple {A : Type} (pre : Session -> Prop) (m : orm A)
    (post : A -> Session -> Prop) (epost : Py.exn -> Session -> Prop)
    : Prop :=
  ∀ σ, pre σ →
       match m σ with
       | (inr a, σ') => post a σ'
       | (inl e, σ') => epost e σ'
       end.

(** What the request leaves in the database: the session is discarded
    with the request, and with it whatever was not committed. *)
Definition persisted {A : Type} (r : (Py.exn + A) * Session) : Store :=
  committed r.2.

End Orm.

(** * Handlers *)

Module Http.

Inductive method := GET | POST.

Inductive category := success | error.

(** The JSON body of a task request, decoded; an absent key is [None].
    The values are taken to have the types the handlers expect. *)
Record task_json := mk_task_json {
  json_title : option (list N);
  json_description : option (list N);
  json_priority : option (list N);
  json_status : option (list N);
  json_is_completed : option bool;
  json_estimated_hours : option Py.num;
  json_actual_hours : option Py.num;
  json_category : option (list N);
  json_project_id : option Z;
  json_parent_task_id : option Z;
  json_tags : option (list (list N));
  json_due_date : option (list N)
}.

(** The [pagination] entry of the list response. *)
Record pagination := mk_pagination {
  page : Z;
  per_page : Z;
  total : Z
}.

Inductive data :=
| no_data
| task_data (d : Task.dict)
| tasks_data (l : list Task.dict) (p : pagination).

(** What a handler answers. *)
Inductive response :=
| redirect (endpoint : string) (id : option Z) (flash : category)
| render_template (template : string) (flash : option category)
| abort (status : Z)
| api_response (d : data) (status : Z) (success : bool).

(** [float(x)] on a number of the body. *)
Definition float (x : Py.num) : Py.exn + spec_float :=
  match x with
  | Py.Float f => inr f
  | Py.Int z =>
      match Py.float_of_int z with
      | S754_infinity _ => inl Py.OverflowError
      | f => inr f
      end
  end.

(** Truth value of a number. *)
Definition num_truthy (x : Py.num) : bool :=
  match x with
  | Py.Int z => negb (z =? 0)
  | Py.Float (S754_zero _) => false
  | Py.Float _ => true
  end.

(** A result of a pure computation, run inside a handler. *)
Definition lift {A : Type} (r : Py.exn + A) : Orm.orm A :=
  fun σ => (r, σ).

End Http.

(** ** [app/views/tasks.py] *)

Module TasksView.

Import Orm Http.
Local Open Scope orm_scope.

(** [Task.query.filter_by(id=id, user_id=current_user.id).first()] *)
Definition owned_task (current_user id : Z) (s : Store) : option Task.t :=
  match tasks s !! id with
  | Some x => if decide (Task.user_id x = current_user) then Some x else None
  | None => None
  end.

(** [task.comments] and [task.attachments] *)
Definition comments (id : Z) (s : Store) : list (Z * TaskComment.t) :=
  filter (fun kv => TaskComment.task_id kv.2 = id)
    (map_to_list (task_comments s)).

Definition attachments (id : Z) (s : Store) : list (Z * TaskAttachment.t) :=
  filter (fun kv => TaskAttachment.task_id kv.2 = id)
    (map_to_list (task_attachments s)).

(** An attribute write on the loaded task [id]. *)
Definition setattr (id : Z) (f : Task.t -> Task.t) : orm unit :=
  update (fun s =>
    mkStore (alter f id (tasks s)) (task_comments s) (task_attachments s)).

(** [v if v else None] on an optional integer *)
Definition or_None (v : option Z) : option Z :=
  match v with
  | Some z => if decide (z = 0) then None else Some z
  | None => None
  end.

(** What [toggle_complete] answers: the JSON object of a request sent as
    JSON (with [success] true, or false and status 500), or the redirect
    to the task page. *)
Inductive toggle_answer :=
| toggled (is_completed : bool) (status_label : list N)
| toggle_error
| toggle_redirect (flash : category)
| toggle_abort (status : Z).

(** The object [dashboard_stats] serialises. *)
Record dashboard := mk_dashboard {
  total_tasks : Z;
  completed_tasks : Z;
  pending_tasks : Z;
  overdue_tasks : Z;
  due_this_week : Z;
  completion_rate : Py.num
}.

(** [Task.query.filter(...).count()] *)
Definition count (all : gmap Z Task.t) (P : Task.t -> bool) : Z :=
  Z.of_nat (length (filter (fun kv => P kv.2 = true) (map_to_list all))).

(** [dashboard_stats]: the five counts over the tasks of the user and the
    completion rate; a task without due date satisfies no comparison on
    it. *)
Definition dashboard_stats (round_float : spec_float -> Z -> spec_float)
    (now current_user : Z) (all : gmap Z Task.t) : Py.exn + dashboard :=
  let mine (x : Task.t) := bool_decide (Task.user_id x = current_user) in
  let total_tasks := count all mine in
  let completed_tasks := count all (fun x => mine x && Task.is_completed x) in
  let pending_tasks := total_tasks - completed_tasks in
  let overdue_tasks :=
    count all (fun x =>
      mine x
      && match Task.due_date x with Some d => d <? now | None => false end
      && negb (Task.is_completed x)) in
  let week_end := now + 7 * Task.day in
  let due_this_week :=
    count all (fun x =>
      mine x
      && match Task.due_date x with
         | Some d => (now <=? d) && (d <=? week_end)
         | None => false
         end
      && negb (Task.is_completed x)) in
  let completion_rate :=
    if 0 <? total_tasks then
      match Py.truediv completed_tasks total_tasks with
      | inl e => inl e
      | inr q => inr (Py.Float (Py.fmul q (Py.float_of_int 100)))
      end
    else inr (Py.Int 0) in
  match completion_rate with
  | inl e => inl e
  | inr rate =>
      inr (mk_dashboard total_tasks completed_tasks pending_tasks
             overdue_tasks due_this_week (Project.round round_float rate 2))
  end.

Section Handlers.

Variable fault : nat -> bool.

(** [float(s)] and [int(s)] on a string, [None] where they raise
    [ValueError]; [datetime.strptime(s, '%Y-%m-%d')] likewise. *)
Variable float_of_str : list N -> option spec_float.
Variable int_of_str : list N -> option Z.
Variable strptime_ymd : list N -> option Z.

(** [request.form.get(key, default)] *)
Definition form_get (form : gmap string (list N)) (key : string)
    (default : list N) : list N :=
  match form !! key with Some v => v | None => default end.

(** [request.form.get(key, type=int)] *)
Definition form_get_int (form : gmap string (list N)) (key : string)
    : option Z :=
  match form !! key with Some v => int_of_str v | None => None end.

(** [request.form.get(key, 0, type=float)]; the default [0] is stored as
    the float zero. *)
Definition form_get_float (form : gmap string (list N)) (key : string)
    : spec_float :=
  match form !! key with
  | Some v =>
      match float_of_str v with Some f => f | None => S754_zero false end
  | None => S754_zero false
  end.

(** The end of [create_task]: the form page, with the projects and the
    top-level tasks of the user. *)
Definition create_form (current_user : Z) (flash : option category)
    : orm response :=
  let* projects := query fault (fun _ => tt) in
  let* parent_tasks :=
    query fault (fun s =>
      filter (fun kv => Task.user_id kv.2 = current_user
                        ∧ Task.parent_task_id kv.2 = None)
        (map_to_list (tasks s))) in
  ret (render_template "tasks/create.html" flash).

(** [create_task].  The commit expires the new task, so [task.id] in the
    redirect reads the row again, still inside the [try] block. *)
Definition create_task (now current_user : Z) (m : method)
    (form : gmap string (list N)) : orm response :=
  match m with
  | POST =>
      let title := Py.strip (form_get form "title" []) in
      let description := Py.strip (form_get form "description" []) in
      let priority := form_get form "priority" (Py.lit "medium") in
      let due_date_str := form_get form "due_date" [] in
      let estimated_hours := form_get_float form "estimated_hours" in
      let tags := Py.strip (form_get form "tags" []) in
      let category := Py.strip (form_get form "category" []) in
      let project_id := form_get_int form "project_id" in
      let parent_task_id := form_get_int form "parent_task_id" in
      if negb (Py.truthy title) then
        ret (render_template "tasks/create.html" (Some error))
      else
        let due_date :=
          if Py.truthy due_date_str then
            match strptime_ymd due_date_str with
            | Some d => inr (Some d)
            | None => inl Py.ValueError
            end
          else inr None in
        match due_date with
        | inl _ => ret (render_template "tasks/create.html" (Some error))
        | inr due_date =>
            let* created :=
              try_except
                (let* p := lift (TaskPriority_of_value priority) in
                 let task :=
                   Task.init now title (Some description) current_user p
                     due_date in
                 let task := Task.with_estimated_hours estimated_hours task in
                 let task := Task.with_category (Some category) task in
                 let task := Task.with_project_id (or_None project_id) task in
                 let task :=
                   Task.with_parent_task_id (or_None parent_task_id) task in
                 let task :=
                   if Py.truthy tags then
                     let tag_list :=
                       Py.strip <$>
                         filter (fun tag => Py.truthy (Py.strip tag) = true)
                           (Py.split Py.comma tags) in
                     Task.set_tags (Some tag_list) task
                   else task in
                 let* id := add_task task in
                 commit fault >>
                 let* id := query fault (fun _ => id) in
                 ret (Some (redirect "tasks.view_task" (Some id) success)))
                (fun _ => rollback >> ret None) in
            match created with
            | Some r => ret r
            | None => create_form current_user (Some error)
            end
        end
  | GET => create_form current_user None
  end.

(** [delete_task].  The assignment [subtask.parent_task_id = None] is
    written to the database by the flush that precedes the next query,
    as the UPDATE of [detach_row]; [now] is the instant of that flush. *)
Definition delete_task (now current_user id : Z) : orm response :=
  let* task := query fault (owned_task current_user id) in
  match task with
  | None => ret (abort 404)
  | Some _ =>
      try_except
        (let* subtasks := query fault (fun s => Task.subtasks (tasks s) id) in
         for_ subtasks (fun subtask =>
           setattr subtask.1 (detach_row now)) >>
         let* cs := query fault (comments id) in
         for_ cs (fun comment => delete_comment fault comment.1) >>
         let* ats := query fault (attachments id) in
         for_ ats (fun attachment => delete_attachment fault attachment.1) >>
         Orm.delete_task fault now id >>
         commit fault >>
         ret (redirect "tasks.list_tasks" None success))
        (fun _ =>
           rollback >> ret (redirect "tasks.view_task" (Some id) error))
  end.

(** [toggle_complete].  The queries [mark_completed] sends for the
    subtasks are counted as one statement; after the commit the answer
    reads the task again. *)
Definition toggle_complete (depth : nat) (now current_user id : Z)
    (is_json : bool) : orm toggle_answer :=
  let* task := query fault (owned_task current_user id) in
  match task with
  | None => ret (toggle_abort 404)
  | Some x =>
      try_except
        ((if Task.is_completed x then setattr id (Task.mark_incomplete now)
          else roundtrip fault >> call (Task.mark_completed depth now id)) >>
         commit fault >>
         let* task := query fault (fun s => tasks s !! id) in
         match task with
         | Some y =>
             ret (if is_json
                  then toggled (Task.is_completed y) (Task.get_status_label y)
                  else toggle_redirect success)
         | None => raise Py.DatabaseError
         end)
        (fun _ =>
           rollback >>
           ret (if is_json then toggle_error else toggle_redirect error))
  end.

(** [add_comment] *)
Definition add_comment (now current_user id : Z)
    (form : gmap string (list N)) : orm response :=
  let* task := query fault (owned_task current_user id) in
  match task with
  | None => ret (abort 404)
  | Some _ =>
      let content := Py.strip (form_get form "content" []) in
      if negb (Py.truthy content) then
        ret (redirect "tasks.view_task" (Some id) error)
      else
        try_except
          (let* k :=
             Orm.add_comment (TaskComment.mk content now now id current_user) in
           commit fault >>
           ret (redirect "tasks.view_task" (Some id) success))
          (fun _ =>
             rollback >> ret (redirect "tasks.view_task" (Some id) error))
  end.

(** The end of [edit_task]: the form page with the projects of the
    user. *)
Definition edit_form (flash : option category) : orm response :=
  let* projects := query fault (fun _ => tt) in
  ret (render_template "tasks/edit.html" flash).

(** [edit_task].  The enumeration constructors are called outside the
    [try] block: an unknown priority or status raises out of the
    handler.  As in [create_task], [task.id] after the commit reads the
    row again inside the [try] block. *)
Definition edit_task (now current_user id : Z) (m : method)
    (form : gmap string (list N)) : orm response :=
  let* task := query fault (owned_task current_user id) in
  match task with
  | None => ret (abort 404)
  | Some _ =>
      match m with
      | POST =>
          let title := Py.strip (form_get form "title" []) in
          let due_date_str := form_get form "due_date" [] in
          let tags := Py.strip (form_get form "tags" []) in
          setattr id (Task.with_title title) >>
          setattr id
            (Task.with_description
               (Some (Py.strip (form_get form "description" [])))) >>
          let* p :=
            lift (TaskPriority_of_value
                    (form_get form "priority" (Py.lit "medium"))) in
          setattr id (Task.with_priority p) >>
          let* st :=
            lift (TaskStatus_of_value
                    (form_get form "status" (Py.lit "todo"))) in
          setattr id (Task.with_status st) >>
          setattr id
            (Task.with_due_date
               (if Py.truthy due_date_str then strptime_ymd due_date_str
                else None)) >>
          setattr id
            (Task.with_estimated_hours
               (form_get_float form "estimated_hours")) >>
          setattr id
            (Task.with_actual_hours (form_get_float form "actual_hours")) >>
          setattr id
            (Task.with_category
               (Some (Py.strip (form_get form "category" [])))) >>
          setattr id
            (Task.with_project_id (or_None (form_get_int form "project_id"))) >>
          (if Py.truthy tags then
             let tag_list :=
               Py.strip <$>
                 filter (fun tag => Py.truthy (Py.strip tag) = true)
                   (Py.split Py.comma tags) in
             setattr id (Task.set_tags (Some tag_list))
           else setattr id (Task.with_tags (Some []))) >>
          if negb (Py.truthy title) then
            ret (render_template "tasks/edit.html" (Some error))
          else
            let* saved :=
              try_except
                (setattr id (Task.with_updated_at now) >>
                 commit fault >>
                 let* id := query fault (fun _ => id) in
                 ret (Some (redirect "tasks.view_task" (Some id) success)))
                (fun _ => rollback >> ret None) in
            match saved with
            | Some r => ret r
            | None => edit_form (Some error)
            end
      | GET => edit_form None
      end
  end.

End Handlers.

End TasksView.

(** ** [app/views/api.py] *)

Module ApiView.

Import Orm Http.
Local Open Scope orm_scope.

(** [Query.paginate(page=page, per_page=per_page, error_out=False)] of
    Flask-SQLAlchemy: a page below 1 is read as 1, a page size below 1 as
    20, and the items are the rows [LIMIT per_page OFFSET (page - 1) *
    per_page] keeps. *)
Definition paginate {A : Type} (page per_page : Z) (rows : list A) : list A :=
  let page := if page <? 1 then 1 else page in
  let per_page := if per_page <? 1 then 20 else per_page in
  take (Z.to_nat per_page) (drop (Z.to_nat ((page - 1) * per_page)) rows).

(** [if 'key' in data: ...] *)
Definition when_present {A : Type} (v : option A) (body : A -> orm unit)
    : orm unit :=
  match v with
  | Some a => body a
  | None => ret tt
  end.

(** [not data]: the body has no key at all. *)
Definition no_keys (data : task_json) : bool :=
  match data with
  | mk_task_json None None None None None None None None None None None None
      => true
  | _ => false
  end.

(** [a] comes no later than [b] in the descending order of creation. *)
Definition newer (a b : Z * Task.t) : Prop :=
  Task.created_at b.2 <= Task.created_at a.2.

Global Instance newer_dec : RelDecision newer.
Proof. intros a b. unfold newer. apply _. Defined.

Section Handlers.

Variable fault : nat -> bool.

(** [int(s)] on a string, [None] where it raises [ValueError];
    [s.lower()]; [datetime.fromisoformat(s)], [None] where it raises
    [ValueError]. *)
Variable int_of_str : list N -> option Z.
Variable lower : list N -> list N.
Variable fromisoformat : list N -> option Z.

(** [request.args.get(key, default, type=int)] *)
Definition args_get_int (args : gmap string (list N)) (key : string)
    (default : Z) : Z :=
  match args !! key with
  | Some v => match int_of_str v with Some z => z | None => default end
  | None => default
  end.

(** The filters of [api_get_tasks] on one row. *)
Definition selected (current_user : Z) (status_filter : option (list N))
    (priority_filter : option (list N)) (project_id : option Z)
    (x : Task.t) : bool :=
  bool_decide (Task.user_id x = current_user)
  && match status_filter with
     | Some f =>
         if decide (f = Py.lit "completed") then Task.is_completed x
         else if decide (f = Py.lit "pending") then negb (Task.is_completed x)
         else if Py.truthy f then
           match TaskStatus_of_value f with
           | inr st => bool_decide (Task.status x = st)
           | inl _ => true
           end
         else true
     | None => true
     end
  && match priority_filter with
     | Some f =>
         if Py.truthy f then
           match TaskPriority_of_value f with
           | inr p => bool_decide (Task.priority x = p)
           | inl _ => true
           end
         else true
     | None => true
     end
  && match TasksView.or_None project_id with
     | Some p => bool_decide (Task.project_id x = Some p)
     | None => true
     end.

(** [order_by(Task.created_at.desc())] *)
Definition newest_first (rows : list (Z * Task.t)) : list (Z * Task.t) :=
  merge_sort newer rows.

(** [api_get_tasks] *)
Definition api_get_tasks (current_user : Z) (args : gmap string (list N))
    : orm response :=
  let page := args_get_int args "page" 1 in
  let per_page := Z.min (args_get_int args "per_page" 10) 100 in
  let status_filter := args !! "status" in
  let priority_filter := args !! "priority" in
  let project_id :=
    match args !! "project_id" with
    | Some v => int_of_str v
    | None => None
    end in
  let include_subtasks :=
    bool_decide
      (lower (TasksView.form_get args "include_subtasks" (Py.lit "false"))
       = Py.lit "true") in
  let* rows :=
    query fault (fun s =>
      newest_first
        (filter
           (fun kv =>
              selected current_user status_filter priority_filter project_id
                kv.2 = true)
           (map_to_list (tasks s)))) in
  let items := paginate page per_page rows in
  let* tasks_data :=
    query fault (fun s => Task.to_dict (tasks s) include_subtasks <$> items) in
  ret (api_response
         (Http.tasks_data tasks_data
            (mk_pagination page per_page (Z.of_nat (length rows))))
         200 true).

(** The [validate_json(['title'])] decorator: the checks that come before
    the handler. *)
Definition validate_json_title (is_json : bool) (data : task_json)
    (handler : orm response) : orm response :=
  if negb is_json then ret (api_response no_data 400 false)
  else
    match json_title data with
    | Some (_ :: _) => handler
    | _ => ret (api_response no_data 400 false)
    end.

(** How the API handlers end on an exception: [ValueError] answers 400
    and leaves the session alone, anything else rolls back and answers
    500. *)
Definition api_except (e : Py.exn) : orm response :=
  match e with
  | Py.ValueError => ret (api_response no_data 400 false)
  | _ => rollback >> ret (api_response no_data 500 false)
  end.

(** [datetime.fromisoformat(s.replace('Z', '+00:00'))] *)
Definition parse_due_date (s : list N) : Py.exn + Z :=
  match fromisoformat (Py.replace 90%N (Py.lit "+00:00") s) with
  | Some d => inr d
  | None => inl Py.ValueError
  end.

(** [api_create_task] *)
Definition api_create_task (now current_user : Z) (is_json : bool)
    (data : task_json) : orm response :=
  validate_json_title is_json data
    (try_except
       (let* due_date :=
          match json_due_date data with
          | Some ((_ :: _) as s) =>
              let* d := lift (parse_due_date s) in ret (Some d)
          | _ => ret None
          end in
        let* p :=
          lift (TaskPriority_of_value
                  (default (Py.lit "medium") (json_priority data))) in
        let task :=
          Task.init now (default [] (json_title data))
            (Some (default [] (json_description data))) current_user p
            due_date in
        let* task :=
          match json_estimated_hours data with
          | Some h =>
              if num_truthy h then
                let* f := lift (float h) in
                ret (Task.with_estimated_hours f task)
              else ret task
          | None => ret task
          end in
        let task :=
          match json_category data with
          | Some ((_ :: _) as c) => Task.with_category (Some c) task
          | _ => task
          end in
        let task :=
          match TasksView.or_None (json_project_id data) with
          | Some p => Task.with_project_id (Some p) task
          | None => task
          end in
        let task :=
          match TasksView.or_None (json_parent_task_id data) with
          | Some p => Task.with_parent_task_id (Some p) task
          | None => task
          end in
        let task :=
          match json_tags data with
          | Some ((_ :: _) as l) => Task.set_tags (Some l) task
          | _ => task
          end in
        let* id := add_task task in
        commit fault >>
        let* d := query fault (fun s => Task.to_dict (tasks s) false (id, task)) in
        ret (api_response (task_data d) 201 true))
       api_except).

(** [api_update_task] *)
Definition api_update_task (now current_user task_id : Z) (data : task_json)
    : orm response :=
  let* task := query fault (TasksView.owned_task current_user task_id) in
  match task with
  | None => ret (api_response no_data 404 false)
  | Some _ =>
      if no_keys data then ret (api_response no_data 400 false)
      else
        try_except
          (when_present (json_title data) (fun v =>
             TasksView.setattr task_id (Task.with_title v)) >>
           when_present (json_description data) (fun v =>
             TasksView.setattr task_id (Task.with_description (Some v))) >>
           when_present (json_priority data) (fun v =>
             let* p := lift (TaskPriority_of_value v) in
             TasksView.setattr task_id (Task.with_priority p)) >>
           when_present (json_status data) (fun v =>
             let* st := lift (TaskStatus_of_value v) in
             TasksView.setattr task_id (Task.with_status st)) >>
           when_present (json_is_completed data) (fun v =>
             TasksView.setattr task_id (Task.assign_is_completed now v)) >>
           when_present (json_estimated_hours data) (fun v =>
             let* f := lift (float v) in
             TasksView.setattr task_id (Task.with_estimated_hours f)) >>
           when_present (json_actual_hours data) (fun v =>
             let* f := lift (float v) in
             TasksView.setattr task_id (Task.with_actual_hours f)) >>
           when_present (json_category data) (fun v =>
             TasksView.setattr task_id (Task.with_category (Some v))) >>
           when_present (json_project_id data) (fun v =>
             TasksView.setattr task_id (Task.with_project_id (Some v))) >>
           when_present (json_tags data) (fun v =>
             TasksView.setattr task_id (Task.set_tags (Some v))) >>
           when_present (json_due_date data) (fun v =>
             if Py.truthy v then
               let* d := lift (parse_due_date v) in
               TasksView.setattr task_id (Task.with_due_date (Some d))
             else TasksView.setattr task_id (Task.with_due_date None)) >>
           TasksView.setattr task_id (Task.with_updated_at now) >>
           commit fault >>
           let* d :=
             query fault (fun s =>
               (fun x => Task.to_dict (tasks s) false (task_id, x)) <$>
                 tasks s !! task_id) in
           match d with
           | Some d => ret (api_response (task_data d) 200 true)
           | None => raise Py.DatabaseError
           end)
          api_except
  end.

(** [api_delete_task]; [now] is the instant of the flush. *)
Definition api_delete_task (now current_user task_id : Z) : orm response :=
  let* task := query fault (TasksView.owned_task current_user task_id) in
  match task with
  | None => ret (api_response no_data 404 false)
  | Some _ =>
      try_except
        (Orm.delete_task fault now task_id >>
         commit fault >>
         ret (api_response no_data 200 true))
        (fun _ => rollback >> ret (api_response no_data 500 false))
  end.

(** [api_get_task] *)
Definition api_get_task (current_user task_id : Z)
    (args : gmap string (list N)) : orm response :=
  let* task := query fault (TasksView.owned_task current_user task_id) in
  match task with
  | None => ret (api_response no_data 404 false)
  | Some x =>
      let include_subtasks :=
        bool_decide
          (lower (TasksView.form_get args "include_subtasks" (Py.lit "false"))
           = Py.lit "true") in
      let* d :=
        query fault (fun s =>
          Task.to_dict (tasks s) include_subtasks (task_id, x)) in
      ret (api_response (task_data d) 200 true)
  end.

End Handlers.

End ApiView.

(** * The specification's own notions, and sample data *)

Module Spec.

(** "Trimming whitespace from each entry and discarding empty entries":
    the list a tag list stands for. *)
Definition trimmed_tags (tags_list : list (list N)) : list (list N) :=
  filter (fun tag => tag ≠ []) (Py.strip <$> tags_list).

(** The rows not yet complete. *)
Definition incomplete (tasks : gmap Z Task.t) : gmap Z Task.t :=
  filter (fun kv => Task.is_completed kv.2 = false) tasks.

(** [cascades tasks a d]: [d] is [a], or is reached from [a] along
    subtask links each of which leads to a subtask that is not complete
    in [tasks]. *)
Inductive cascades (tasks : gmap Z Task.t) (a : Z) : Z -> Prop :=
| cascades_here : cascades tasks a a
| cascades_down p c y :
    cascades tasks a p ->
    tasks !! c = Some y ->
    Task.parent_task_id y = Some p ->
    Task.is_completed y = false ->
    cascades tasks a c.

(** Every subtask of [p] is complete in [tasks]. *)
Definition subtasks_done (tasks : gmap Z Task.t) (p : Z) : Prop :=
  ∀ c y, tasks !! c = Some y → Task.parent_task_id y = Some p →
         Task.is_completed y = true.

(** [b] is [a] after some rows went through the assignments of
    [mark_completed]. *)
Definition advanced (now : Z) (a b : gmap Z Task.t) : Prop :=
  ∀ k, b !! k = a !! k
       ∨ ∃ x, a !! k = Some x ∧ b !! k = Some (Task.complete_self now x).

(** [p] was not complete in [a] and is complete in [b]. *)
Definition newly_done (a b : gmap Z Task.t) (p : Z) : Prop :=
  ∃ x y, a !! p = Some x ∧ Task.is_completed x = false
         ∧ b !! p = Some y ∧ Task.is_completed y = true.

(** What a call [mark_completed] on [self] has done when it turns [a]
    into [b]. *)
Definition marked (now : Z) (a : gmap Z Task.t) (self : Z)
    (b : gmap Z Task.t) : Prop :=
  advanced now a b
  ∧ (∀ x, a !! self = Some x → b !! self = Some (Task.complete_self now x))
  ∧ (∀ p, p = self ∨ newly_done a b p → subtasks_done b p)
  ∧ (∀ k, b !! k ≠ a !! k → cascades a self k).

(** [v] is the database [s] on the way through the cascade for task
    [id]: some subtasks of [id] have been detached, some comments and
    attachments of [id] are gone, and nothing else differs. *)
Definition pruned (now id : Z) (s v : Orm.Store) : Prop :=
  (∀ k, Orm.tasks v !! k = Orm.tasks s !! k
        ∨ ∃ x, Orm.tasks s !! k = Some x
               ∧ Task.parent_task_id x = Some id
               ∧ Orm.tasks v !! k = Some (Orm.detach_row now x))
  ∧ (∀ k, Orm.task_comments v !! k = Orm.task_comments s !! k
          ∨ Orm.task_comments v !! k = None
            ∧ ∃ c, Orm.task_comments s !! k = Some c
                   ∧ TaskComment.task_id c = id)
  ∧ (∀ k, Orm.task_attachments v !! k = Orm.task_attachments s !! k
          ∨ Orm.task_attachments v !! k = None
            ∧ ∃ c, Orm.task_attachments s !! k = Some c
                   ∧ TaskAttachment.task_id c = id).

(** The session of a request on the database [s] when a statement has
    failed: nothing was committed. *)
Definition broken (fault : nat -> bool) (s : Orm.Store) (_ : Py.exn)
    (σ : Orm.Session) : Prop :=
  Orm.committed σ = s ∧ Orm.failed fault σ.

(** The cascade contract: [s'] is [s] after the deletion of task [id]
    at the instant [now] with all its dependents dealt with; the subtasks
    are kept, detached. *)
Definition cascade_complete (now id : Z) (s s' : Orm.Store) : Prop :=
  Orm.tasks s' !! id = None
  ∧ (∀ k x, Orm.tasks s !! k = Some x → Task.parent_task_id x = Some id →
            k ≠ id → Orm.tasks s' !! k = Some (Orm.detach_row now x))
  ∧ (∀ k x, Orm.tasks s' !! k = Some x → Task.parent_task_id x ≠ Some id)
  ∧ (∀ k c, Orm.task_comments s' !! k = Some c → TaskComment.task_id c ≠ id)
  ∧ (∀ k a, Orm.task_attachments s' !! k = Some a →
            TaskAttachment.task_id a ≠ id).

(** "(Count of completed subtasks / count of subtasks) × 100,
    integer-truncated". *)
Definition progress_percentage (completed_subtasks total_subtasks : Z) : Z :=
  (completed_subtasks * 100) / total_subtasks.

(** The completion flag [v] of a row and what goes with it: status DONE
    and the completion timestamp [now] for a true flag, status TODO and
    no completion timestamp for a false one. *)
Definition synchronised (now : Z) (v : bool) (y : Task.t) : Prop :=
  Task.is_completed y = v
  ∧ if v then Task.status y = DONE ∧ Task.completed_at y = Some now
    else Task.status y = TODO ∧ Task.completed_at y = None.

(** The loaded task [id] satisfies [P] in the session's view. *)
Definition viewed (id : Z) (P : Task.t -> Prop) (σ : Orm.Session) : Prop :=
  ∃ y, Orm.tasks (Orm.view σ) !! id = Some y ∧ P y.

(** The task [id] satisfies [P] in what is committed. *)
Definition stored (id : Z) (P : Task.t -> Prop) (σ : Orm.Session) : Prop :=
  ∃ y, Orm.tasks (Orm.committed σ) !! id = Some y ∧ P y.



(** The task records an answer of the list endpoint contains: its
    entries, and the subtasks nested under them. *)
Definition task_records (l : list Task.dict) : nat :=
  sum_list_with
    (fun d => S (length (default [] (Task.dict_subtasks d)))) l.

(** The session of a request that edits the task [id] of the database
    [s]: nothing is committed yet, and the view differs from [s] in the
    row [id] only, which satisfies [R]. *)
Definition editing (id : Z) (s : Orm.Store) (R : Task.t -> Prop)
    (σ : Orm.Session) : Prop :=
  Orm.committed σ = s
  ∧ ∃ y, R y
         ∧ Orm.view σ
           = Orm.mkStore (<[id := y]> (Orm.tasks s)) (Orm.task_comments s)
               (Orm.task_attachments s).

(** The session once the edit of the task [id] is committed. *)
Definition edit_stored (id : Z) (s : Orm.Store) (R : Task.t -> Prop)
    (σ : Orm.Session) : Prop :=
  ∃ y, R y
       ∧ Orm.committed σ
         = Orm.mkStore (<[id := y]> (Orm.tasks s)) (Orm.task_comments s)
             (Orm.task_attachments s).

End Spec.

Module Sample.

(** A task of user 1, as [Task('write report', user_id=1)] is inserted at
    instant 0. *)
Definition task : Task.t :=
  Task.init 0 (Py.lit "write report") None 1 MEDIUM None.

(** The tasks of the sample database: task 1 of user 1 with the
    subtasks 2 (complete) and 4, task 3 a subtask of 2, and task 5 of
    user 2. *)
Definition release : Task.t :=
  Task.init 10 (Py.lit "release") None 1 HIGH None.

Definition design : Task.t :=
  Task.with_parent_task_id (Some 1)
    (Task.complete_self 30 (Task.init 20 (Py.lit "design") None 1 MEDIUM None)).

Definition mockups : Task.t :=
  Task.with_parent_task_id (Some 2)
    (Task.init 40 (Py.lit "mockups") None 1 LOW None).

Definition build : Task.t :=
  Task.with_parent_task_id (Some 1)
    (Task.init 50 (Py.lit "build") None 1 MEDIUM None).

Definition errands : Task.t :=
  Task.init 60 (Py.lit "errands") None 2 MEDIUM None.

Definition tasks : gmap Z Task.t :=
  list_to_map
    [(1, release); (2, design); (3, mockups); (4, build); (5, errands)].

(** Two comments and an attachment on task 1, a comment on task 2. *)
Definition store : Orm.Store :=
  Orm.mkStore tasks
    (list_to_map
       [(1, TaskComment.mk (Py.lit "ship it") 11 11 1 1);
        (2, TaskComment.mk (Py.lit "on friday") 12 12 1 1);
        (3, TaskComment.mk (Py.lit "draft") 21 21 2 1)])
    (list_to_map
       [(1, TaskAttachment.mk (Py.lit "f1") (Py.lit "plan.pdf") (Some 100)
              None (Py.lit "uploads/f1") 13 1 1)]).

(** A task with a hundred subtasks, the first twenty-nine of them
    complete. *)
Definition subtask_of_big (i : nat) : Z * Task.t :=
  (Z.of_nat i,
   Task.with_parent_task_id (Some 0)
     ((if (i <=? 29)%nat then Task.complete_self 70 else fun x => x)
        (Task.init 65 (Py.lit "step") None 1 MEDIUM None))).

Definition big : Task.t :=
  Task.init 64 (Py.lit "migration") None 1 HIGH None.

Definition big_tasks : gmap Z Task.t :=
  list_to_map ((0, big) :: (subtask_of_big <$> seq 1 100)).

(** The body [{"status": "todo", "is_completed": true}]. *)
Definition reopen_but_complete : Http.task_json :=
  Http.mk_task_json None None None (Some (Py.lit "todo")) (Some true) None
    None None None None None None.

(** The body [{"status": "review", "is_completed": true}]. *)
Definition review_and_complete : Http.task_json :=
  Http.mk_task_json None None None (Some (Py.lit "review")) (Some true) None
    None None None None None None.

(** [int(s)] on the strings of ASCII digits, enough for the sample
    requests. *)
Definition int_of_str (s : list N) : option Z :=
  match s with
  | [] => None
  | _ =>
      foldl
        (fun acc c =>
           match acc with
           | Some a =>
               if ((48 <=? c) && (c <=? 57))%N
               then Some (10 * a + Z.of_N (c - 48))
               else None
           | None => None
           end)
        (Some 0) s
  end.


Definition subtask_json : Http.task_json :=
  Http.mk_task_json (Some (Py.lit "x")) None None None None None None None
    None (Some 1) None None.

(** The body [{"title": "loop", "parent_task_id": 6}]: on the sample
    database the new task gets the key 6, and is its own parent. *)
Definition own_parent_json : Http.task_json :=
  Http.mk_task_json (Some (Py.lit "loop")) None None None None None None None
    None (Some 6) None None.

(** The sample database with the tasks of [big_tasks]. *)
Definition big_store : Orm.Store := Orm.mkStore big_tasks ∅ ∅.

End Sample.

(** * Properties *)

(** ** Strings *)

Section StringFacts.

Implicit Types (s w : list N) (l : list (list N)) (sep c : N).

Lemma lstrip_suffix s : ∃ p, s = p ++ Py.lstrip s.
Proof.
  induction s as [|c s [p Hp]]; simpl.
  - by exists [].
  - destruct (Py.isspace c).
    + exists (c :: p). simpl. by f_equal.
    + by exists [].
Qed.

Lemma lstrip_fixed c s : Py.isspace c = false → Py.lstrip (c :: s) = c :: s.
Proof. intros H. simpl. by rewrite H. Qed.

Lemma lstrip_head c s w : Py.lstrip s = c :: w → Py.isspace c = false.
Proof.
  induction s as [|a s IH]; simpl; [done|].
  destruct (Py.isspace a) eqn:Ha; [done|].
  intros [= -> _]. done.
Qed.

Lemma lstrip_idem s : Py.lstrip (Py.lstrip s) = Py.lstrip s.
Proof.
  destruct (Py.lstrip s) as [|c w] eqn:E; [done|].
  apply lstrip_fixed. by eapply lstrip_head.
Qed.

Lemma rstrip_prefix s : ∃ q, s = Py.rstrip s ++ q.
Proof.
  unfold Py.rstrip. destruct (lstrip_suffix (reverse s)) as [p Hp].
  exists (reverse p).
  rewrite <- reverse_app, <- Hp. by rewrite reverse_involutive.
Qed.

Lemma rstrip_idem s : Py.rstrip (Py.rstrip s) = Py.rstrip s.
Proof.
  unfold Py.rstrip. by rewrite reverse_involutive, lstrip_idem.
Qed.

Lemma strip_idem s : Py.strip (Py.strip s) = Py.strip s.
Proof.
  unfold Py.strip.
  assert (Py.lstrip (Py.rstrip (Py.lstrip s)) = Py.rstrip (Py.lstrip s))
    as ->; [|apply rstrip_idem].
  destruct (rstrip_prefix (Py.lstrip s)) as [q Hq].
  destruct (Py.rstrip (Py.lstrip s)) as [|c w] eqn:E; [done|].
  apply lstrip_fixed. simpl in Hq. by eapply lstrip_head.
Qed.

Lemma strip_elem c s : c ∈ Py.strip s → c ∈ s.
Proof.
  unfold Py.strip. intros Hc.
  destruct (rstrip_prefix (Py.lstrip s)) as [q Hq].
  destruct (lstrip_suffix s) as [p Hp].
  rewrite Hp, Hq. set_solver.
Qed.

Lemma split_without sep w : sep ∉ w → Py.split sep w = [w].
Proof.
  induction w as [|c w IH]; simpl; [done|].
  intros Hn. apply not_elem_of_cons in Hn as [Hc Hw].
  destruct (decide (c = sep)); [congruence|]. by rewrite IH.
Qed.

Lemma split_app sep w s :
  sep ∉ w → Py.split sep (w ++ sep :: s) = w :: Py.split sep s.
Proof.
  induction w as [|c w IH]; simpl; intros Hn.
  - by destruct (decide (sep = sep)).
  - apply not_elem_of_cons in Hn as [Hc Hw].
    destruct (decide (c = sep)); [congruence|]. by rewrite IH.
Qed.

Lemma split_join sep l :
  l ≠ [] → Forall (fun w => sep ∉ w) l → Py.split sep (Py.join sep l) = l.
Proof.
  induction l as [|w l IH]; [done|]. intros _ Hall.
  apply Forall_cons in Hall as [Hw Hl].
  destruct l as [|w' l]; simpl.
  - by apply split_without.
  - rewrite split_app by done. f_equal. by apply IH.
Qed.

Lemma join_truthy sep w l : Py.truthy w = true → Py.truthy (Py.join sep (w :: l)) = true.
Proof. destruct w; [done|]. by destruct l. Qed.

(** The comprehension [[tag.strip() for tag in l if tag.strip()]] keeps
    the trimmed entries that are not empty. *)
Lemma comprehension_trimmed l :
  Py.strip <$> filter (fun tag => Py.truthy (Py.strip tag) = true) l
  = filter (fun tag => Py.truthy tag = true) (Py.strip <$> l).
Proof.
  induction l as [|w l IH]; [done|].
  rewrite fmap_cons, !filter_cons.
  destruct (decide (Py.truthy (Py.strip w) = true));
    rewrite ?fmap_cons; by rewrite IH.
Qed.

(** On a list of trimmed, non-empty entries the comprehension changes
    nothing. *)
Lemma comprehension_fixed l :
  Forall (fun w => Py.strip w = w ∧ Py.truthy w = true) l →
  Py.strip <$> filter (fun tag => Py.truthy (Py.strip tag) = true) l = l.
Proof.
  induction 1 as [|w l [Hs Ht] _ IH]; [done|].
  rewrite filter_cons, Hs. rewrite decide_True by done.
  rewrite fmap_cons, Hs. by f_equal.
Qed.

End StringFacts.

(** ** Tags *)

Lemma truthy_nonempty (w : list N) : Py.truthy w = true ↔ w ≠ [].
Proof. by destruct w. Qed.

Lemma trimmed_tags_comprehension (l : list (list N)) :
  Py.strip <$> filter (fun tag => Py.truthy (Py.strip tag) = true) l
  = Spec.trimmed_tags l.
Proof.
  rewrite comprehension_trimmed. unfold Spec.trimmed_tags.
  apply list_filter_iff. intros w. apply truthy_nonempty.
Qed.

Lemma trimmed_tags_entries (l : list (list N)) :
  Forall (fun tag => Py.comma ∉ tag) l →
  Forall (fun w => (Py.strip w = w ∧ Py.truthy w = true) ∧ Py.comma ∉ w)
    (Spec.trimmed_tags l).
Proof.
  intros Hl. apply Forall_forall. intros w Hw.
  apply list_elem_of_filter in Hw as [Hne Hw].
  apply list_elem_of_fmap in Hw as (v & -> & Hv).
  rewrite Forall_forall in Hl.
  split; [split|].
  - apply strip_idem.
  - by apply truthy_nonempty.
  - intros Hc. apply (Hl v Hv). by apply strip_elem.
Qed.

Lemma get_tags_list_with_tags (x : Task.t) (s : list N) :
  Task.get_tags_list (Task.with_tags (Some s) x)
  = if Py.truthy s then
      Py.strip <$>
        filter (fun tag => Py.truthy (Py.strip tag) = true)
          (Py.split Py.comma s)
    else [].
Proof. reflexivity. Qed.

(** C8, as amended: for a list of tag strings none of which contains a
    comma (and for [None]), [set_tags] followed by [get_tags_list] yields
    the trimmed, non-empty entries in their order; an empty or null list
    stores the empty string, which reads back as the empty list. *)
Theorem set_tags_get_tags_list (x : Task.t)
    (tags_list : option (list (list N))) :
  Forall (fun tag => Py.comma ∉ tag) (default [] tags_list) →
  Task.get_tags_list (Task.set_tags tags_list x)
  = Spec.trimmed_tags (default [] tags_list)
  ∧ (default [] tags_list = [] →
     Task.tags (Task.set_tags tags_list x) = Some []).
Proof.
  intros Hall. destruct tags_list as [[|w l]|]; try done.
  split; [|done].
  unfold Task.set_tags. cbn [default from_option id] in *.
  rewrite get_tags_list_with_tags, trimmed_tags_comprehension.
  pose proof (trimmed_tags_entries _ Hall) as Hent.
  destruct (Spec.trimmed_tags (w :: l)) as [|v r] eqn:E; [reflexivity|].
  apply Forall_and in Hent as [Hfix Hcomma].
  rewrite join_truthy by (by apply Forall_cons in Hfix as [[_ ?] _]).
  rewrite split_join by done.
  by apply comprehension_fixed.
Qed.

Lemma set_tags_get_tags_list_witness :
  Task.get_tags_list
    (Task.set_tags (Some [Py.lit " a "; Py.lit "  "; Py.lit "b"]) Sample.task)
  = [Py.lit "a"; Py.lit "b"].
Proof.
  refine (proj1
    (set_tags_get_tags_list Sample.task
       (Some [Py.lit " a "; Py.lit "  "; Py.lit "b"]) _)).
  repeat constructor; vm_compute; intros H;
    repeat (apply elem_of_cons in H as [H|H]; [discriminate H|]);
    by apply elem_of_nil in H.
Defined.

(** C8, as stated, fails on an entry that contains a comma: it is read
    back as two tags. *)
Lemma tag_with_comma_is_split :
  Task.get_tags_list (Task.set_tags (Some [Py.lit "a,b"]) Sample.task)
  ≠ Spec.trimmed_tags [Py.lit "a,b"].
Proof. vm_compute. discriminate. Qed.

(** ** Completion *)

Section Completion.

Variable now : Z.

Implicit Types (x y : Task.t) (a b ts : gmap Z Task.t) (k c p self : Z).

Lemma complete_self_fields x :
  Task.complete_self now x
  = Task.mk (Task.title x) (Task.description x) (Task.priority x) DONE true
      (Task.created_at x) now (Task.due_date x) (Some now)
      (Task.estimated_hours x) (Task.actual_hours x) (Task.tags x)
      (Task.category x) (Task.user_id x) (Task.project_id x)
      (Task.parent_task_id x).
Proof. destruct x as [? ? ? ? []]; reflexivity. Qed.

Lemma mark_incomplete_fields x :
  Task.mark_incomplete now x
  = Task.mk (Task.title x) (Task.description x) (Task.priority x) TODO false
      (Task.created_at x) now (Task.due_date x) None
      (Task.estimated_hours x) (Task.actual_hours x) (Task.tags x)
      (Task.category x) (Task.user_id x) (Task.project_id x)
      (Task.parent_task_id x).
Proof. destruct x as [? ? ? ? []]; reflexivity. Qed.

Lemma complete_self_idem x :
  Task.complete_self now (Task.complete_self now x) = Task.complete_self now x.
Proof. by rewrite !complete_self_fields. Qed.

Lemma complete_self_done x : Task.is_completed (Task.complete_self now x) = true.
Proof. by rewrite complete_self_fields. Qed.

Lemma complete_self_parent x :
  Task.parent_task_id (Task.complete_self now x) = Task.parent_task_id x.
Proof. by rewrite complete_self_fields. Qed.

Lemma advanced_refl a : Spec.advanced now a a.
Proof. intros k. by left. Qed.

Lemma advanced_trans a b ts :
  Spec.advanced now a b → Spec.advanced now b ts → Spec.advanced now a ts.
Proof.
  intros Hab Hbc k. destruct (Hab k) as [E1|(x & Ha & Hb)], (Hbc k) as [E2|(y & Hb' & Hc)].
  - left. congruence.
  - right. exists y. split; congruence.
  - right. exists x. split; congruence.
  - right. exists x. split; [done|].
    rewrite Hc. assert (y = Task.complete_self now x) as -> by congruence.
    by rewrite complete_self_idem.
Qed.

Lemma advanced_alter a self :
  Spec.advanced now a (alter (Task.complete_self now) self a).
Proof.
  intros k. destruct (decide (k = self)) as [->|Hne].
  - rewrite lookup_alter_eq. destruct (a !! self) as [x|] eqn:E; [|by left].
    right. by exists x.
  - left. by rewrite lookup_alter_ne.
Qed.

(** What is complete stays complete. *)
Lemma advanced_done a b k x :
  Spec.advanced now a b → a !! k = Some x → Task.is_completed x = true →
  ∃ y, b !! k = Some y ∧ Task.is_completed y = true.
Proof.
  intros Hab Hx Hc. destruct (Hab k) as [E|(x' & Ha & Hb)].
  - exists x. split; congruence.
  - eexists. split; [done|]. apply complete_self_done.
Qed.

(** What is still incomplete was not touched. *)
Lemma advanced_incomplete a b k y :
  Spec.advanced now a b → b !! k = Some y → Task.is_completed y = false →
  a !! k = Some y.
Proof.
  intros Hab Hy Hc. destruct (Hab k) as [E|(x' & Ha & Hb)]; [congruence|].
  rewrite Hb in Hy. injection Hy as <-. by rewrite complete_self_done in Hc.
Qed.

(** The parent links are those of the start. *)
Lemma advanced_parent a b k y :
  Spec.advanced now a b → b !! k = Some y →
  ∃ x, a !! k = Some x ∧ Task.parent_task_id x = Task.parent_task_id y.
Proof.
  intros Hab Hy. destruct (Hab k) as [E|(x' & Ha & Hb)].
  - exists y. split; congruence.
  - exists x'. split; [done|]. rewrite Hb in Hy. injection Hy as <-.
    by rewrite complete_self_parent.
Qed.

Lemma advanced_parent_fwd a b k x :
  Spec.advanced now a b → a !! k = Some x →
  ∃ y, b !! k = Some y ∧ Task.parent_task_id y = Task.parent_task_id x.
Proof.
  intros Hab Hx. destruct (Hab k) as [E|(x' & Ha & Hb)].
  - exists x. split; congruence.
  - eexists. split; [done|]. rewrite complete_self_parent. congruence.
Qed.

Lemma subtasks_done_advanced a b p :
  Spec.advanced now a b → Spec.subtasks_done a p → Spec.subtasks_done b p.
Proof.
  intros Hab Hd c y Hy Hp.
  destruct (Task.is_completed y) eqn:E; [done|].
  pose proof (advanced_incomplete _ _ _ _ Hab Hy E) as Ha.
  rewrite <- E. by eapply Hd.
Qed.

Lemma cascades_trans ts self p k :
  Spec.cascades ts self p → Spec.cascades ts p k → Spec.cascades ts self k.
Proof.
  intros Hap Hpd. induction Hpd as [|q c y _ IH Hc Hq Hi]; [done|].
  by eapply Spec.cascades_down.
Qed.

(** A chain of the cascade in a later table is one in the earlier table. *)
Lemma cascades_advanced a b c k :
  Spec.advanced now a b → Spec.cascades b c k → Spec.cascades a c k.
Proof.
  intros Hab Hcd. induction Hcd as [|q e y _ IH He Hq Hi]; [constructor|].
  eapply Spec.cascades_down; [exact IH| |done..].
  by eapply advanced_incomplete.
Qed.

Lemma newly_done_split a b ts p :
  Spec.advanced now a b → Spec.advanced now b ts →
  Spec.newly_done a ts p → Spec.newly_done a b p ∨ Spec.newly_done b ts p.
Proof.
  intros Hab Hbc (x & z & Hx & Hxi & Hz & Hzc).
  destruct (advanced_parent_fwd _ _ _ _ Hab Hx) as (y & Hy & _).
  destruct (Task.is_completed y) eqn:E.
  - left. by exists x, y.
  - right. by exists y, z.
Qed.

(** The loop of [mark_completed] over the subtasks [l] of [self]. *)
Lemma visit_subtasks_marked recur self l :
  (∀ c ts1 ts2, recur c ts1 = inr ts2 → Spec.marked now ts1 c ts2) →
  ∀ ts ts',
  (∀ kv, kv ∈ l →
     ∃ y, ts !! kv.1 = Some y ∧ Task.parent_task_id y = Some self) →
  Task.for_each (Task.visit_subtask recur) l ts = inr ts' →
  Spec.advanced now ts ts'
  ∧ (∀ kv, kv ∈ l → ∀ y, ts' !! kv.1 = Some y → Task.is_completed y = true)
  ∧ (∀ p, Spec.newly_done ts ts' p → Spec.subtasks_done ts' p)
  ∧ (∀ k, ts' !! k ≠ ts !! k →
       ∃ c y, ts !! c = Some y ∧ Task.parent_task_id y = Some self
              ∧ Task.is_completed y = false ∧ Spec.cascades ts c k).
Proof.
  intros Hrec. induction l as [|kv l IH]; intros ts ts' Hpre Hrun; simpl in Hrun.
  - injection Hrun as <-. split_and!.
    + apply advanced_refl.
    + intros kv Hkv. by apply elem_of_nil in Hkv.
    + intros p (x & y & Hx & Hxi & Hy & Hyc). congruence.
    + done.
  - destruct (Task.visit_subtask recur kv ts) as [e|ts1] eqn:Hbody; [done|].
    assert (Spec.advanced now ts ts1
            ∧ (∀ y, ts1 !! kv.1 = Some y → Task.is_completed y = true)
            ∧ (∀ p, Spec.newly_done ts ts1 p → Spec.subtasks_done ts1 p)
            ∧ (∀ k, ts1 !! k ≠ ts !! k →
                 ∃ y, ts !! kv.1 = Some y ∧ Task.is_completed y = false
                      ∧ Spec.cascades ts kv.1 k)) as (Hadv1 & Hdone1 & Hcl1 & Hch1).
    { unfold Task.visit_subtask in Hbody.
      destruct (ts !! kv.1) as [cur|] eqn:Hcur.
      - destruct (Task.is_completed cur) eqn:Hc.
        + injection Hbody as <-. split_and!.
          * apply advanced_refl.
          * intros y Hy. congruence.
          * intros p (x & y & Hx & Hxi & Hy & Hyc). congruence.
          * done.
        + destruct (Hrec _ _ _ Hbody) as (Ha & Hs & Hcl & Hch). split_and!.
          * done.
          * intros y Hy. rewrite (Hs _ Hcur) in Hy. injection Hy as <-.
            apply complete_self_done.
          * intros p Hp. apply Hcl. by right.
          * intros k Hk. exists cur. split_and!; [done..|]. by apply Hch.
      - injection Hbody as <-. split_and!.
        + apply advanced_refl.
        + intros y Hy. congruence.
        + intros p (x & y & Hx & Hxi & Hy & Hyc). congruence.
        + done. }
    destruct (IH ts1 ts') as (Hadv2 & Hdone2 & Hcl2 & Hch2); [|done|].
    { intros kv' Hkv'. destruct (Hpre kv') as (y & Hy & Hp); [by right|].
      destruct (advanced_parent_fwd _ _ _ _ Hadv1 Hy) as (y' & Hy' & Hp').
      exists y'. split; congruence. }
    split_and!.
    + by eapply advanced_trans.
    + intros kv' Hkv' y Hy. apply elem_of_cons in Hkv' as [->|Hkv'].
      * destruct (advanced_parent _ _ _ _ Hadv2 Hy) as (y1 & Hy1 & _).
        destruct (advanced_done _ _ _ _ Hadv2 Hy1 (Hdone1 _ Hy1))
          as (y2 & Hy2 & Hc2).
        congruence.
      * by eapply Hdone2.
    + intros p Hp.
      destruct (newly_done_split _ _ _ _ Hadv1 Hadv2 Hp) as [Hp1|Hp2].
      * eapply subtasks_done_advanced; [exact Hadv2|]. by apply Hcl1.
      * by apply Hcl2.
    + intros k Hk. destruct (decide (ts1 !! k = ts !! k)) as [E|Hne].
      * destruct (Hch2 k) as (c & y & Hc & Hp & Hi & Hcas); [congruence|].
        exists c, y. split_and!; [|done..|].
        -- by eapply advanced_incomplete.
        -- by eapply cascades_advanced.
      * destruct (Hch1 k Hne) as (y & Hy & Hi & Hcas).
        destruct (Hpre kv) as (y' & Hy' & Hp'); [by left|].
        exists kv.1, y. split_and!; [done| |done..]. congruence.
Qed.

Lemma elem_of_subtasks ts self kv :
  kv ∈ Task.subtasks ts self ↔
  ts !! kv.1 = Some kv.2 ∧ Task.parent_task_id kv.2 = Some self.
Proof.
  unfold Task.subtasks. rewrite list_elem_of_filter, elem_of_map_to_list'.
  tauto.
Qed.

(** What [mark_completed] has done when it returns. *)
Lemma mark_completed_marked depth :
  ∀ self a b,
  Task.mark_completed depth now self a = inr b → Spec.marked now a self b.
Proof.
  induction depth as [|depth IH]; intros self a b Hrun; [done|].
  simpl in Hrun.
  set (a1 := alter (Task.complete_self now) self a) in *.
  pose proof (advanced_alter a self) as Hadv0. fold a1 in Hadv0.
  destruct (visit_subtasks_marked _ self (Task.subtasks a1 self) IH a1 b)
    as (Hadv & Hdone & Hcl & Hch); [|done|].
  { intros kv Hkv. apply elem_of_subtasks in Hkv as [Hkv Hp]. eauto. }
  split_and!.
  - by eapply advanced_trans.
  - intros x Hx.
    assert (a1 !! self = Some (Task.complete_self now x)) as H1.
    { unfold a1. by rewrite lookup_alter_eq, Hx. }
    destruct (Hadv self) as [E|(x' & Hx' & Hb)]; [congruence|].
    rewrite Hb. f_equal.
    assert (x' = Task.complete_self now x) as -> by congruence.
    apply complete_self_idem.
  - intros p [->|Hp].
    + intros c y Hy Hpar.
      destruct (advanced_parent _ _ _ _ Hadv Hy) as (y1 & Hy1 & Hp1).
      apply (Hdone (c, y1)); [|done].
      apply elem_of_subtasks. simpl. split; congruence.
    + destruct (decide (p = self)) as [->|Hne].
      * intros c y Hy Hpar.
        destruct (advanced_parent _ _ _ _ Hadv Hy) as (y1 & Hy1 & Hp1).
        apply (Hdone (c, y1)); [|done].
        apply elem_of_subtasks. simpl. split; congruence.
      * apply Hcl. destruct Hp as (x & y & Hx & Hxi & Hy & Hyc).
        exists x, y. split_and!; [|done..].
        unfold a1. by rewrite lookup_alter_ne.
  - intros k Hk. destruct (decide (k = self)) as [->|Hne]; [constructor|].
    assert (a1 !! k = a !! k) as E by (unfold a1; by rewrite lookup_alter_ne).
    destruct (Hch k) as (c & y & Hc & Hp & Hi & Hcas); [congruence|].
    pose proof (advanced_incomplete _ _ _ _ Hadv0 Hc Hi) as Hca.
    apply cascades_trans with c.
    + eapply Spec.cascades_down; [constructor|done..].
    + by eapply cascades_advanced.
Qed.

Lemma size_incomplete_advanced a b :
  Spec.advanced now a b →
  (size (Spec.incomplete b) ≤ size (Spec.incomplete a))%nat.
Proof.
  intros Hab. apply map_subseteq_size, map_subseteq_spec. intros k y Hy.
  unfold Spec.incomplete in *.
  apply map_lookup_filter_Some in Hy as [Hy Hi]. simpl in Hi.
  apply map_lookup_filter_Some. split; [|done].
  by eapply advanced_incomplete.
Qed.

Lemma size_incomplete_alter ts c y :
  ts !! c = Some y → Task.is_completed y = false →
  (size (Spec.incomplete (alter (Task.complete_self now) c ts))
   < size (Spec.incomplete ts))%nat.
Proof.
  intros Hy Hi.
  assert (Spec.incomplete ts !! c = Some y) as Hin.
  { unfold Spec.incomplete. by apply map_lookup_filter_Some. }
  apply Nat.le_lt_trans with (size (delete c (Spec.incomplete ts))).
  - apply map_subseteq_size, map_subseteq_spec. intros k z Hz.
    unfold Spec.incomplete in Hz.
    apply map_lookup_filter_Some in Hz as [Hz Hzi]. simpl in Hzi.
    destruct (decide (k = c)) as [->|Hne].
    + rewrite lookup_alter_eq, Hy in Hz. injection Hz as <-.
      by rewrite complete_self_done in Hzi.
    + rewrite lookup_alter_ne in Hz by done.
      rewrite lookup_delete_ne by done.
      unfold Spec.incomplete. by apply map_lookup_filter_Some.
  - rewrite map_size_delete_Some by eauto.
    assert (size (Spec.incomplete ts) ≠ 0%nat); [|lia].
    apply map_size_ne_0_lookup. eauto.
Qed.

(** The loop returns when the calls it makes have enough depth left. *)
Lemma visit_subtasks_returns recur (n : nat) l :
  (∀ c ts,
     (size (Spec.incomplete (alter (Task.complete_self now) c ts)) < n)%nat →
     ∃ ts', recur c ts = inr ts') →
  (∀ c ts1 ts2, recur c ts1 = inr ts2 → Spec.marked now ts1 c ts2) →
  ∀ ts, (size (Spec.incomplete ts) ≤ n)%nat →
  ∃ ts', Task.for_each (Task.visit_subtask recur) l ts = inr ts'.
Proof.
  intros Hret Hrec. induction l as [|kv l IH]; intros ts Hsize; simpl.
  - by exists ts.
  - assert (∃ ts1, Task.visit_subtask recur kv ts = inr ts1
                   ∧ Spec.advanced now ts ts1) as (ts1 & -> & Hadv).
    { unfold Task.visit_subtask.
      destruct (ts !! kv.1) as [cur|] eqn:Hcur.
      - destruct (Task.is_completed cur) eqn:Hc.
        + exists ts. split; [done|apply advanced_refl].
        + destruct (Hret kv.1 ts) as [ts1 H1].
          { pose proof (size_incomplete_alter _ _ _ Hcur Hc). lia. }
          exists ts1. split; [done|]. by apply (Hrec _ _ _ H1).
      - exists ts. split; [done|apply advanced_refl]. }
    apply IH. pose proof (size_incomplete_advanced _ _ Hadv). lia.
Qed.

(** [mark_completed] returns when the recursion limit exceeds the number
    of tasks left incomplete once [self] is marked. *)
Lemma mark_completed_returns (depth : nat) :
  ∀ self a,
  (size (Spec.incomplete (alter (Task.complete_self now) self a)) < depth)%nat →
  ∃ b, Task.mark_completed depth now self a = inr b.
Proof.
  induction depth as [|depth IH]; intros self a Hsize; [lia|].
  simpl. apply visit_subtasks_returns with depth.
  - done.
  - apply mark_completed_marked.
  - lia.
Qed.

End Completion.

(** C3, as amended: [mark_completed] returns (the recursion limit
    exceeding the number of incomplete tasks), and then the task has its
    completion flag true, status DONE, completion and update timestamps
    [now]; every direct subtask is complete; every task the cascade
    reaches (through subtasks that were not yet complete) has gone
    through the same assignments, and every other task, the subtree of an
    already complete subtask included, is as it was. *)
Theorem mark_completed_cascade (now : Z) (depth : nat) (self : Z)
    (tasks : gmap Z Task.t) (x : Task.t) :
  tasks !! self = Some x →
  (size (Spec.incomplete tasks) < depth)%nat →
  ∃ tasks',
    Task.mark_completed depth now self tasks = inr tasks'
    ∧ (∃ x', tasks' !! self = Some x'
             ∧ Task.is_completed x' = true ∧ Task.status x' = DONE
             ∧ Task.completed_at x' = Some now ∧ Task.updated_at x' = now)
    ∧ Spec.subtasks_done tasks' self
    ∧ (∀ d, Spec.cascades tasks self d →
            tasks' !! d = Task.complete_self now <$> tasks !! d)
    ∧ (∀ d, ¬ Spec.cascades tasks self d → tasks' !! d = tasks !! d).
Proof.
  intros Hx Hsize.
  destruct (mark_completed_returns now depth self tasks) as [tasks' Hrun].
  { pose proof (size_incomplete_advanced now _ _ (advanced_alter now tasks self)).
    lia. }
  exists tasks'. split; [done|].
  destruct (mark_completed_marked now _ _ _ _ Hrun) as (Hadv & Hself & Hcl & Hch).
  split_and!.
  - exists (Task.complete_self now x). rewrite complete_self_fields.
    split_and!; [|done..]. rewrite <- complete_self_fields. by apply Hself.
  - apply Hcl. by left.
  - intros d Hd.
    assert (d = self ∨ Spec.newly_done tasks tasks' d) as [->|Hnew].
    { induction Hd as [|p c y _ IH Hc Hp Hi]; [by left|]. right.
      destruct (advanced_parent_fwd now _ _ _ _ Hadv Hc) as (y' & Hy' & Hp').
      exists y, y'. split_and!; [done..|].
      apply (Hcl p IH c y' Hy'). congruence. }
    + by rewrite Hx, (Hself _ Hx).
    + destruct Hnew as (y & y' & Hy & Hi & Hy' & Hc).
      destruct (Hadv d) as [E|(z & Hz & Hb)]; [congruence|].
      by rewrite Hb, Hz.
  - intros d Hd. destruct (decide (tasks' !! d = tasks !! d)) as [E|Hne]; [done|].
    by apply Hch in Hne.
Qed.

(** ** Reasoning about handlers *)

Section Triples.

Import Orm.
Local Open Scope orm_scope.

Lemma triple_ret {A : Type} (a : A) (post : A → Session → Prop) epost :
  triple (post a) (ret a) post epost.
Proof. by intros σ H. Qed.

Lemma triple_bind {A B : Type} pre (mid : A → Session → Prop)
    (post : B → Session → Prop) epost (m : orm A) (k : A → orm B) :
  triple pre m mid epost →
  (∀ a, triple (mid a) (k a) post epost) →
  triple pre (bind m k) post epost.
Proof.
  intros Hm Hk σ Hpre. unfold bind. specialize (Hm σ Hpre).
  destruct (m σ) as [[e|a] σ']; [done|]. by apply Hk.
Qed.

Lemma triple_try {A : Type} pre (post : A → Session → Prop) mid epost
    (body : orm A) (handler : Py.exn → orm A) :
  triple pre body post mid →
  (∀ e, triple (mid e) (handler e) post epost) →
  triple pre (try_except body handler) post epost.
Proof.
  intros Hb Hh σ Hpre. unfold try_except. specialize (Hb σ Hpre).
  destruct (body σ) as [[e|a] σ']; [by apply Hh|done].
Qed.

Lemma triple_weaken {A : Type} (pre pre' : Session → Prop)
    (post post' : A → Session → Prop) (epost epost' : Py.exn → Session → Prop)
    (m : orm A) :
  triple pre' m post' epost' →
  (∀ σ, pre σ → pre' σ) →
  (∀ a σ, post' a σ → post a σ) →
  (∀ e σ, epost' e σ → epost e σ) →
  triple pre m post epost.
Proof.
  intros Hm H1 H2 H3 σ Hpre. specialize (Hm σ (H1 _ Hpre)).
  destruct (m σ) as [[e|a] σ']; eauto.
Qed.

Lemma triple_for {A : Type} (inv : Session → Prop) epost (l : list A)
    (body : A → orm unit) :
  (∀ a, a ∈ l → triple inv (body a) (fun _ => inv) epost) →
  triple inv (for_ l body) (fun _ => inv) epost.
Proof.
  induction l as [|a l IH]; intros Hbody; simpl.
  - by intros σ H.
  - eapply triple_bind.
    + apply Hbody. by left.
    + intros ?. apply IH. intros a' Ha'. apply Hbody. by right.
Qed.

(** A fact the precondition implies may be used to verify the
    computation. *)
Lemma triple_pure {A : Type} (fact : Prop) (pre pre' : Session → Prop)
    (m : orm A) post epost :
  (∀ σ, pre σ → pre' σ ∧ fact) →
  (fact → triple pre' m post epost) →
  triple pre m post epost.
Proof. intros H1 H2 σ Hp. destruct (H1 σ Hp) as [Hp' Hf]. by apply H2. Qed.

End Triples.

(** ** The deletion cascade *)

Section Cascade.

Import Orm.
Local Open Scope orm_scope.

Variable fault : nat → bool.
Variable now : Z.
Variable s : Store.
Variable id : Z.

Lemma pruned_refl : Spec.pruned now id s s.
Proof. split_and!; intros k; by left. Qed.

Lemma clean_step (σ : Session) :
  clean fault σ → fault (roundtrips σ) = false →
  clean fault (mkSession (committed σ) (view σ) (S (roundtrips σ))).
Proof.
  intros Hc Hf n Hn. simpl in Hn.
  destruct (decide (n = roundtrips σ)) as [->|Hne]; [done|].
  apply Hc. lia.
Qed.

Lemma roundtrip_inv (P : Store → Prop) :
  triple (fun σ => committed σ = s ∧ clean fault σ ∧ P (view σ))
    (roundtrip fault)
    (fun _ σ => committed σ = s ∧ clean fault σ ∧ P (view σ)) (Spec.broken fault s).
Proof.
  intros σ (Hc & Hcl & Hp). unfold roundtrip.
  destruct (fault (roundtrips σ)) eqn:Hf.
  - split; [done|]. exists (roundtrips σ). simpl. split; [lia|done].
  - split_and!; [done| |done]. by apply clean_step.
Qed.

Lemma query_inv {A : Type} (P : Store → Prop) (q : Store → A) :
  triple (fun σ => committed σ = s ∧ clean fault σ ∧ P (view σ))
    (query fault q)
    (fun a σ => (committed σ = s ∧ clean fault σ ∧ P (view σ))
                ∧ a = q (view σ)) (Spec.broken fault s).
Proof.
  unfold query. eapply triple_bind; [apply roundtrip_inv|].
  intros _ σ H. done.
Qed.

Lemma update_inv (P Q : Store → Prop) (f : Store → Store) :
  (∀ v, P v → Q (f v)) →
  triple (fun σ => committed σ = s ∧ clean fault σ ∧ P (view σ))
    (update f)
    (fun _ σ => committed σ = s ∧ clean fault σ ∧ Q (view σ)) (Spec.broken fault s).
Proof. intros Hf σ (Hc & Hcl & Hp). simpl. split_and!; [done..|]. by apply Hf. Qed.

Lemma commit_inv (P : Store → Prop) :
  triple (fun σ => committed σ = s ∧ clean fault σ ∧ P (view σ))
    (commit fault)
    (fun _ σ => clean fault σ ∧ P (committed σ)) (Spec.broken fault s).
Proof.
  unfold commit. eapply triple_bind; [apply roundtrip_inv|].
  intros _ σ (Hc & Hcl & Hp). simpl. done.
Qed.

Lemma rollback_broken {A : Type} (e : Py.exn) (r : A) :
  triple (Spec.broken fault s e) (rollback >> ret r)
    (fun a σ => a = r ∧ committed σ = s ∧ failed fault σ)
    (fun _ _ => False).
Proof. intros σ (Hc & Hf). simpl. done. Qed.

(** The loop over the subtasks, as one step: every row it visits goes
    through the same assignment. *)
Lemma for_setattr (f : Task.t → Task.t) (l : list (Z * Task.t)) :
  ∀ σ,
    for_ l (fun subtask => TasksView.setattr subtask.1 f) σ
    = (inr tt,
       mkSession (committed σ)
         (mkStore (foldl (fun m kv => alter f kv.1 m) (tasks (view σ)) l)
            (task_comments (view σ)) (task_attachments (view σ)))
         (roundtrips σ)).
Proof.
  induction l as [|kv l IH]; intros σ; simpl.
  - unfold ret. by destruct σ as [c [] n].
  - unfold bind. simpl. by rewrite IH.
Qed.

Lemma lookup_foldl_alter (f : Task.t → Task.t) (l : list (Z * Task.t)) :
  (∀ x, f (f x) = f x) →
  ∀ (m : gmap Z Task.t) (k : Z),
    foldl (fun m kv => alter f kv.1 m) m l !! k
    = if decide (k ∈ l.*1) then f <$> m !! k else m !! k.
Proof.
  intros Hf. induction l as [|kv l IH]; intros m k.
  - case_decide as H; [by apply elem_of_nil in H|done].
  - rewrite fmap_cons. cbn [foldl]. rewrite IH.
    destruct (decide (k = kv.1)) as [->|Hne].
    + rewrite lookup_alter_eq, (decide_True (P := _ ∈ _ :: _)) by left.
      case_decide; [|done]. destruct (m !! kv.1); simpl; by rewrite ?Hf.
    + rewrite lookup_alter_ne by done.
      destruct (decide (k ∈ l.*1)) as [Hin|Hout].
      * rewrite decide_True; [done|]. by right.
      * rewrite decide_False; [done|]. rewrite not_elem_of_cons. done.
Qed.

Lemma detach_row_idem (x : Task.t) :
  detach_row now (detach_row now x) = detach_row now x.
Proof. by destruct x. Qed.

(** The loop of [delete_task] detaches all the subtasks. *)
Lemma detach_loop (ts : gmap Z Task.t) :
  foldl (fun m kv => alter (detach_row now) kv.1 m) ts (Task.subtasks ts id)
  = detach now id <$> ts.
Proof.
  apply map_eq. intros k.
  rewrite (lookup_foldl_alter _ _ detach_row_idem), lookup_fmap.
  destruct (ts !! k) as [x|] eqn:Hx; simpl.
  - unfold detach. destruct (decide (Task.parent_task_id x = Some id)) as [Hp|Hp].
    + rewrite decide_True; [done|]. apply list_elem_of_fmap.
      exists (k, x). split; [done|]. by apply elem_of_subtasks.
    + rewrite decide_False; [done|]. intros Hin.
      apply list_elem_of_fmap in Hin as (kv & -> & Hkv).
      apply elem_of_subtasks in Hkv as [Hkv Hpv]. congruence.
  - by case_decide.
Qed.

(** The database once the subtasks are detached. *)
Lemma pruned_detached :
  Spec.pruned now id s
    (mkStore (detach now id <$> tasks s) (task_comments s)
       (task_attachments s))
  ∧ ¬ own_parent id
        (mkStore (detach now id <$> tasks s) (task_comments s)
           (task_attachments s)).
Proof.
  split.
  - split_and!; [|by left..]. intros k. simpl. rewrite lookup_fmap.
    destruct (tasks s !! k) as [x|] eqn:Hx; simpl; [|by left].
    unfold detach. case_decide; [right; by exists x|by left].
  - intros (y & Hy & Hp). simpl in Hy. rewrite lookup_fmap in Hy.
    destruct (tasks s !! id) as [x|]; [|done]. simpl in Hy.
    injection Hy as <-. unfold detach in Hp.
    case_decide; [by destruct x|done].
Qed.

Lemma pruned_delete_comment (v : Store) (k : Z) (c : TaskComment.t) :
  Spec.pruned now id s v ∧ ¬ own_parent id v →
  task_comments s !! k = Some c → TaskComment.task_id c = id →
  Spec.pruned now id s
    (mkStore (tasks v) (delete k (task_comments v)) (task_attachments v))
  ∧ ¬ own_parent id
        (mkStore (tasks v) (delete k (task_comments v)) (task_attachments v)).
Proof.
  intros [(Ht & Hc & Ha) Hown] Hk Hp. split; [|done].
  split_and!; [done| |done]. intros k'. simpl.
  destruct (decide (k' = k)) as [->|Hne].
  - rewrite lookup_delete_eq. right. eauto.
  - rewrite lookup_delete_ne by done. apply Hc.
Qed.

Lemma pruned_delete_attachment (v : Store) (k : Z) (c : TaskAttachment.t) :
  Spec.pruned now id s v ∧ ¬ own_parent id v →
  task_attachments s !! k = Some c → TaskAttachment.task_id c = id →
  Spec.pruned now id s
    (mkStore (tasks v) (task_comments v) (delete k (task_attachments v)))
  ∧ ¬ own_parent id
        (mkStore (tasks v) (task_comments v) (delete k (task_attachments v))).
Proof.
  intros [(Ht & Hc & Ha) Hown] Hk Hp. split; [|done].
  split_and!; [done..|]. intros k'. simpl.
  destruct (decide (k' = k)) as [->|Hne].
  - rewrite lookup_delete_eq. right. eauto.
  - rewrite lookup_delete_ne by done. apply Ha.
Qed.

(** The rows the queries of the cascade return are dependents of [id] in
    the database. *)
Lemma pruned_comments (v : Store) (kv : Z * TaskComment.t) :
  Spec.pruned now id s v → kv ∈ TasksView.comments id v →
  ∃ c, task_comments s !! kv.1 = Some c ∧ TaskComment.task_id c = id.
Proof.
  intros (_ & Hc & _) Hkv. unfold TasksView.comments in Hkv.
  apply list_elem_of_filter in Hkv as [Hid Hkv].
  apply elem_of_map_to_list' in Hkv.
  destruct (Hc kv.1) as [E|[E _]]; [|congruence].
  exists kv.2. split; congruence.
Qed.

Lemma pruned_attachments (v : Store) (kv : Z * TaskAttachment.t) :
  Spec.pruned now id s v → kv ∈ TasksView.attachments id v →
  ∃ c, task_attachments s !! kv.1 = Some c ∧ TaskAttachment.task_id c = id.
Proof.
  intros (_ & _ & Ha) Hkv. unfold TasksView.attachments in Hkv.
  apply list_elem_of_filter in Hkv as [Hid Hkv].
  apply elem_of_map_to_list' in Hkv.
  destruct (Ha kv.1) as [E|[E _]]; [|congruence].
  exists kv.2. split; congruence.
Qed.

(** Deleting the task row after part of the cascade gives what deleting
    it at once gives. *)
Lemma pruned_delete_task_row (v : Store) :
  Spec.pruned now id s v → delete_task_row now id v = delete_task_row now id s.
Proof.
  intros (Ht & Hc & Ha). unfold delete_task_row. f_equal.
  - apply map_eq. intros k. destruct (decide (k = id)) as [->|Hne].
    + by rewrite !lookup_delete_eq.
    + rewrite !lookup_delete_ne, !lookup_fmap by done.
      destruct (Ht k) as [->|(x & Hx & Hp & ->)]; [done|].
      rewrite Hx. simpl. f_equal. unfold detach.
      rewrite (decide_True (P := Task.parent_task_id x = _)) by done.
      by destruct x.
  - apply map_eq. intros k. rewrite !map_lookup_filter.
    destruct (Hc k) as [->|(-> & c & -> & Hid)]; [done|]. simpl.
    by rewrite option_guard_False by (simpl; tauto).
  - apply map_eq. intros k. rewrite !map_lookup_filter.
    destruct (Ha k) as [->|(-> & c & -> & Hid)]; [done|]. simpl.
    by rewrite option_guard_False by (simpl; tauto).
Qed.

(** [db.session.delete(task)] followed by the commit, for a task that is
    not its own parent when the deletion is flushed. *)
Lemma delete_and_commit {A : Type} (r : A) :
  triple
    (fun σ => committed σ = s ∧ clean fault σ
              ∧ (Spec.pruned now id s (view σ) ∧ ¬ own_parent id (view σ)))
    (Orm.delete_task fault now id >> commit fault >> ret r)
    (fun a σ => a = r ∧ clean fault σ
                ∧ committed σ = delete_task_row now id s)
    (Spec.broken fault s).
Proof.
  eapply triple_bind.
  { unfold Orm.delete_task.
    eapply triple_bind;
      [apply (roundtrip_inv
                (fun v => Spec.pruned now id s v ∧ ¬ own_parent id v))|].
    intros ? σ (Hc & Hcl & Hp & Hown). rewrite decide_False by done.
    apply (update_inv (Spec.pruned now id s)
             (fun v => v = delete_task_row now id s)); [|done].
    intros v Hv. by apply pruned_delete_task_row. }
  intros ?.
  eapply triple_bind;
    [apply (commit_inv (fun v => v = delete_task_row now id s))|].
  intros ? σ [Hcl Hc]. simpl. done.
Qed.

(** The cascade of [TasksView.delete_task], from the first query of the
    [try] block to the commit. *)
Lemma delete_task_cascade :
  triple
    (fun σ => committed σ = s ∧ clean fault σ ∧ view σ = s)
    (let* subtasks := query fault (fun s => Task.subtasks (tasks s) id) in
     for_ subtasks (fun subtask =>
       TasksView.setattr subtask.1 (detach_row now)) >>
     let* cs := query fault (TasksView.comments id) in
     for_ cs (fun comment => delete_comment fault comment.1) >>
     let* ats := query fault (TasksView.attachments id) in
     for_ ats (fun attachment => delete_attachment fault attachment.1) >>
     Orm.delete_task fault now id >>
     commit fault >>
     ret (Http.redirect "tasks.list_tasks" None Http.success))
    (fun a σ => a = Http.redirect "tasks.list_tasks" None Http.success
                ∧ clean fault σ ∧ committed σ = delete_task_row now id s)
    (Spec.broken fault s).
Proof.
  set (P := fun v => Spec.pruned now id s v ∧ ¬ own_parent id v).
  set (inv := fun σ => committed σ = s ∧ clean fault σ ∧ P (view σ)).
  eapply triple_bind; [apply (query_inv (fun v => v = s))|]. intros l1.
  eapply (triple_bind _ (fun _ => inv)).
  { intros σ [(Hc & Hcl & Hv) ->]. rewrite for_setattr, Hv, detach_loop.
    split_and!; [done..|]. apply pruned_detached. }
  intros ?.
  eapply triple_bind; [apply (query_inv P)|]. intros l2.
  apply (triple_pure
    (∀ kv, kv ∈ l2 →
       ∃ c, task_comments s !! kv.1 = Some c ∧ TaskComment.task_id c = id)
    _ inv).
  { intros σ [Hinv ->]. split; [done|]. intros kv Hkv.
    eapply pruned_comments; [apply Hinv|done]. }
  intros Hl2. eapply triple_bind.
  { apply triple_for. intros kv Hkv. destruct (Hl2 kv Hkv) as (c & Hc & Hp).
    unfold delete_comment.
    eapply triple_bind; [apply (roundtrip_inv P)|].
    intros ?. apply (update_inv _ P). intros v Hv.
    by eapply pruned_delete_comment. }
  intros ?.
  eapply triple_bind; [apply (query_inv P)|]. intros l3.
  apply (triple_pure
    (∀ kv, kv ∈ l3 →
       ∃ c, task_attachments s !! kv.1 = Some c
            ∧ TaskAttachment.task_id c = id)
    _ inv).
  { intros σ [Hinv ->]. split; [done|]. intros kv Hkv.
    eapply pruned_attachments; [apply Hinv|done]. }
  intros Hl3. eapply triple_bind.
  { apply triple_for. intros kv Hkv. destruct (Hl3 kv Hkv) as (c & Hc & Hp).
    unfold delete_attachment.
    eapply triple_bind; [apply (roundtrip_inv P)|].
    intros ?. apply (update_inv _ P). intros v Hv.
    by eapply pruned_delete_attachment. }
  intros ?. apply delete_and_commit.
Qed.

(** What [TasksView.delete_task] leaves behind: the whole cascade when it
    answers with success, and otherwise the database as it was. *)
Lemma delete_task_outcome (current_user : Z) :
  let r := TasksView.delete_task fault now current_user id (begin s) in
  (is_Some (TasksView.owned_task current_user id s)
   ∧ r.1 = inr (Http.redirect "tasks.list_tasks" None Http.success)
   ∧ persisted r = delete_task_row now id s
   ∧ clean fault r.2)
  ∨ (persisted r = s
     ∧ r.1 ≠ inr (Http.redirect "tasks.list_tasks" None Http.success)
     ∧ (failed fault r.2 ∨ TasksView.owned_task current_user id s = None)).
Proof.
  assert (triple (fun σ => σ = begin s)
    (TasksView.delete_task fault now current_user id)
    (fun a σ =>
       (is_Some (TasksView.owned_task current_user id s)
        ∧ a = Http.redirect "tasks.list_tasks" None Http.success
        ∧ committed σ = delete_task_row now id s ∧ clean fault σ)
       ∨ (committed σ = s
          ∧ a ≠ Http.redirect "tasks.list_tasks" None Http.success
          ∧ (failed fault σ ∨ TasksView.owned_task current_user id s = None)))
    (Spec.broken fault s)) as Htriple.
  { unfold TasksView.delete_task. eapply triple_bind.
    { eapply triple_weaken; [apply (query_inv (fun v => v = s))| |done..].
      intros σ ->. split_and!; [done| |done]. intros n Hn. simpl in Hn. lia. }
    intros task.
    apply (triple_pure (task = TasksView.owned_task current_user id s) _
      (fun σ => committed σ = s ∧ clean fault σ ∧ view σ = s)).
    { intros σ [(Hc & Hcl & Hv) ->]. by rewrite Hv. }
    intros Htask. destruct task as [x|].
    - apply triple_try with (Spec.broken fault s).
      + eapply triple_weaken; [apply delete_task_cascade|done| |done].
        intros a σ (-> & Hcl & Hc). left. rewrite <- Htask. eauto.
      + intros e. eapply triple_weaken; [apply (rollback_broken e)|done| |done].
        intros a σ (-> & Hc & Hf). right. split_and!; [done..|by left].
    - intros σ (Hc & Hcl & Hv). simpl. right. split_and!; [done..|by right]. }
  intros r. specialize (Htriple (begin s) eq_refl). fold r in Htriple.
  unfold persisted. destruct r as [[e|a] σ]; simpl in *.
  - destruct Htriple as [Hc Hf]. right. split_and!; [done..|by left].
  - destruct Htriple as [(Ho & -> & Hc & Hcl)|(Hc & Hne & Hf)].
    + by left.
    + right. split_and!; [done| |done]. congruence.
Qed.

(** What [ApiView.api_delete_task] leaves behind: the whole cascade when
    it answers 200, which it does not for a task that is its own parent,
    and otherwise the database as it was. *)
Lemma api_delete_task_outcome (current_user : Z) :
  let r := ApiView.api_delete_task fault now current_user id (begin s) in
  (is_Some (TasksView.owned_task current_user id s)
   ∧ ¬ own_parent id s
   ∧ r.1 = inr (Http.api_response Http.no_data 200 true)
   ∧ persisted r = delete_task_row now id s
   ∧ clean fault r.2)
  ∨ (persisted r = s
     ∧ r.1 ≠ inr (Http.api_response Http.no_data 200 true)
     ∧ (failed fault r.2
        ∨ TasksView.owned_task current_user id s = None
        ∨ (own_parent id s
           ∧ (clean fault r.2 →
              r.1 = inr (Http.api_response Http.no_data 500 false))))).
Proof.
  intros r. subst r.
  unfold ApiView.api_delete_task, Orm.delete_task, query, commit, try_except,
    bind, roundtrip, update, ret, rollback, persisted, begin.
  simpl.
  destruct (fault 0%nat) eqn:F0; simpl.
  { right. split_and!; [done..|]. left. exists 0%nat. simpl. split; [lia|done]. }
  destruct (TasksView.owned_task current_user id s) as [x|] eqn:Ho; simpl;
    [|right; split_and!; [done..|]; right; by left].
  destruct (fault 1%nat) eqn:F1; simpl.
  { right. split_and!; [done..|]. left. exists 1%nat. simpl. split; [lia|done]. }
  destruct (decide (own_parent id s)) as [Hown|Hown]; simpl.
  { right. split_and!; [done..|]. right. right. done. }
  destruct (fault 2%nat) eqn:F2; simpl.
  { right. split_and!; [done..|]. left. exists 2%nat. simpl. split; [lia|done]. }
  left. split_and!; [by eexists|done..|].
  intros n Hn. simpl in Hn.
  destruct n as [|[|[|n]]]; [done..|lia].
Qed.

End Cascade.

Lemma delete_task_row_complete (now id : Z) (s : Orm.Store) :
  Spec.cascade_complete now id s (Orm.delete_task_row now id s).
Proof.
  unfold Spec.cascade_complete, Orm.delete_task_row. simpl. split_and!.
  - apply lookup_delete_eq.
  - intros k x Hx Hp Hne. rewrite lookup_delete_ne, lookup_fmap, Hx by done.
    simpl. unfold Orm.detach. by rewrite decide_True.
  - intros k x Hx Hp. destruct (decide (k = id)) as [->|Hne].
    + by rewrite lookup_delete_eq in Hx.
    + rewrite lookup_delete_ne, lookup_fmap in Hx by done.
      destruct (Orm.tasks s !! k) as [y|]; [|done]. simpl in Hx.
      injection Hx as <-. unfold Orm.detach in Hp.
      case_decide; [by destruct y|done].
  - intros k c Hc. by apply map_lookup_filter_Some in Hc as [_ ?].
  - intros k c Hc. by apply map_lookup_filter_Some in Hc as [_ ?].
Qed.

Lemma never_failed (σ : Orm.Session) : ¬ Orm.failed (fun _ => false) σ.
Proof. by intros (n & _ & ?). Qed.

(** C1 fails on the API path for a task that is its own parent.  User 2
    creates a task through the API with [parent_task_id] 6, the key the
    new row gets, and then asks the API to delete it: the flush raises
    [CircularDependencyError], the handler answers 500 and the task is
    still there, with everything else.  The web handler, which detaches
    the subtasks itself before it deletes, deletes the same task. *)
Theorem api_delete_task_fails_on_own_parent :
  let s :=
    Orm.persisted
      (ApiView.api_create_task (fun _ => false) (fun _ => None) 100 2 true
         Sample.own_parent_json (Orm.begin Sample.store)) in
  let api := ApiView.api_delete_task (fun _ => false) 200 2 6 (Orm.begin s) in
  let web := TasksView.delete_task (fun _ => false) 200 2 6 (Orm.begin s) in
  (∃ x, Orm.tasks s !! 6 = Some x
        ∧ Task.user_id x = 2 ∧ Task.parent_task_id x = Some 6)
  ∧ api.1 = inr (Http.api_response Http.no_data 500 false)
  ∧ Orm.persisted api = s
  ∧ web.1 = inr (Http.redirect "tasks.list_tasks" None Http.success)
  ∧ Orm.tasks (Orm.persisted web) !! 6 = None.
Proof.
  split; [eexists; by vm_compute|].
  split_and!; vm_compute; reflexivity.
Qed.

(** C4: if any statement of the deletion fails, whichever it is, the
    handler does not answer with success and the database is exactly as
    it was before the request: the task, the parent references of its
    subtasks, its comments and its attachments. *)
Theorem delete_cascade_atomic (fault : nat → bool) (now current_user id : Z)
    (s : Orm.Store) :
  let r := TasksView.delete_task fault now current_user id (Orm.begin s) in
  Orm.failed fault r.2 →
  Orm.persisted r = s
  ∧ r.1 ≠ inr (Http.redirect "tasks.list_tasks" None Http.success).
Proof.
  intros r Hfailed.
  destruct (delete_task_outcome fault now s id current_user)
    as [(_ & _ & _ & Hclean)|(Hp & Hr & _)].
  - destruct Hfailed as (n & Hn & Hf). by rewrite (Hclean n Hn) in Hf.
  - done.
Qed.

Lemma delete_cascade_atomic_witness :
  let r :=
    TasksView.delete_task (fun n => Nat.eqb n 3) 100 1 1
      (Orm.begin Sample.store) in
  Orm.persisted r = Sample.store
  ∧ r.1 ≠ inr (Http.redirect "tasks.list_tasks" None Http.success).
Proof.
  apply (delete_cascade_atomic (fun n => Nat.eqb n 3) 100 1 1 Sample.store).
  exists 3%nat. split; [vm_compute; lia|reflexivity].
Defined.

Lemma mark_completed_cascade_witness :
  ∃ tasks',
    Task.mark_completed 10 100 1 Sample.tasks = inr tasks'
    ∧ (∃ x', tasks' !! 1 = Some x'
             ∧ Task.is_completed x' = true ∧ Task.status x' = DONE
             ∧ Task.completed_at x' = Some 100 ∧ Task.updated_at x' = 100)
    ∧ Spec.subtasks_done tasks' 1
    ∧ (∀ d, Spec.cascades Sample.tasks 1 d →
            tasks' !! d = Task.complete_self 100 <$> Sample.tasks !! d)
    ∧ (∀ d, ¬ Spec.cascades Sample.tasks 1 d →
            tasks' !! d = Sample.tasks !! d).
Proof.
  apply (mark_completed_cascade 100 10 1 Sample.tasks Sample.release).
  - reflexivity.
  - vm_compute. lia.
Defined.

(** C3, as stated, fails below a subtask that is already complete: task 3
    is a subtask of the complete subtask 2 of task 1, and it is still
    incomplete after [mark_completed] on task 1. *)
Lemma mark_completed_skips_below_completed_subtask :
  ∃ tasks' child grandchild,
    Task.mark_completed 10 100 1 Sample.tasks = inr tasks'
    ∧ tasks' !! 2 = Some child ∧ Task.parent_task_id child = Some 1
    ∧ tasks' !! 3 = Some grandchild
    ∧ Task.parent_task_id grandchild = Some 2
    ∧ Task.is_completed grandchild = false.
Proof. by eexists _, _, _; vm_compute. Qed.

(** C5: [mark_incomplete] on the loaded task [self] rewrites that row
    alone: its completion flag is false, its status TODO, its completion
    timestamp null, its update timestamp [now], and its other columns
    are kept; every other row, so every subtask, is what it was (the
    cascade does not go down). *)
Theorem mark_incomplete_does_not_cascade (now : Z) (tasks : gmap Z Task.t)
    (self : Z) (x : Task.t) :
  tasks !! self = Some x →
  let tasks' := alter (Task.mark_incomplete now) self tasks in
  tasks' !! self
  = Some (Task.mk (Task.title x) (Task.description x) (Task.priority x) TODO
            false (Task.created_at x) now (Task.due_date x) None
            (Task.estimated_hours x) (Task.actual_hours x) (Task.tags x)
            (Task.category x) (Task.user_id x) (Task.project_id x)
            (Task.parent_task_id x))
  ∧ (∀ k, k ≠ self → tasks' !! k = tasks !! k)
  ∧ (∀ subtask, subtask ∈ Task.subtasks tasks self → subtask.1 ≠ self →
       tasks' !! subtask.1 = Some subtask.2
       ∧ subtask ∈ Task.subtasks tasks' self).
Proof.
  intros Hx tasks'. unfold tasks'. split_and!.
  - by rewrite lookup_alter_eq, Hx, <- mark_incomplete_fields.
  - intros k Hk. by rewrite lookup_alter_ne.
  - intros kv Hkv Hne. apply elem_of_subtasks in Hkv as [Hkv Hp].
    assert (alter (Task.mark_incomplete now) self tasks !! kv.1 = Some kv.2)
      by (by rewrite lookup_alter_ne).
    split; [done|]. by apply elem_of_subtasks.
Qed.

Lemma mark_incomplete_does_not_cascade_witness :
  let tasks' := alter (Task.mark_incomplete 100) 2 Sample.tasks in
  tasks' !! 2
  = Some (Task.mk (Py.lit "design") None MEDIUM TODO false 20 100 None None
            (S754_zero false) (S754_zero false) None None 1 None (Some 1))
  ∧ (∀ k, k ≠ 2 → tasks' !! k = Sample.tasks !! k)
  ∧ (∀ subtask, subtask ∈ Task.subtasks Sample.tasks 2 → subtask.1 ≠ 2 →
       tasks' !! subtask.1 = Some subtask.2
       ∧ subtask ∈ Task.subtasks tasks' 2).
Proof.
  apply (mark_incomplete_does_not_cascade 100 Sample.tasks 2 Sample.design).
  reflexivity.
Defined.

(** ** Progress and statistics *)

(** C7 fails on the code for 29 complete subtasks out of 100: the
    quotient and the product are rounded as floats, and the truncation
    gives 28 where the percentage is 29. *)
Theorem progress_percentage_29_of_100 :
  length (Task.subtasks Sample.big_tasks 0) = 100%nat
  ∧ length (filter (fun kv => Task.is_completed kv.2 = true)
              (Task.subtasks Sample.big_tasks 0)) = 29%nat
  ∧ Task.get_progress_percentage Sample.big_tasks 0 Sample.big = inr 28
  ∧ Spec.progress_percentage 29 100 = 29.
Proof. by vm_compute. Qed.

(** Without subtasks the progress is 100 for a complete task and 0
    otherwise. *)
Lemma progress_percentage_leaf (tasks : gmap Z Task.t) (self : Z) (x : Task.t) :
  Task.subtasks tasks self = [] →
  Task.get_progress_percentage tasks self x
  = inr (if Task.is_completed x then 100 else 0).
Proof. intros H. unfold Task.get_progress_percentage. by rewrite H. Qed.

(** One complete subtask out of four gives 25. *)
Lemma progress_percentage_1_of_4 :
  Task.get_progress_percentage
    (list_to_map
       [(1, Sample.release);
        (2, Sample.design);
        (3, Task.with_parent_task_id (Some 1) Sample.mockups);
        (4, Sample.build);
        (6, Sample.build)])
    1 Sample.release
  = inr 25.
Proof. by vm_compute. Qed.

(** C10: for a project without tasks [is_completed] is false and
    [get_task_stats] returns the counts 0 and the completion rate 0
    without dividing; [get_task_stats] raises for no project at all. *)
Theorem empty_project_is_defined (round_float : spec_float → Z → spec_float)
    (all : gmap Z Task.t) (self : Z) :
  Project.tasks all self = [] →
  Project.is_completed all self = false
  ∧ Project.get_task_stats round_float all self
    = inr (Project.mk_stats 0 0 0 (Py.Int 0))
  ∧ (∀ project, ∃ stats,
       Project.get_task_stats round_float all project = inr stats).
Proof.
  intros Hempty. split_and!.
  - unfold Project.is_completed. by rewrite Hempty.
  - unfold Project.get_task_stats. by rewrite Hempty.
  - intros project. unfold Project.get_task_stats, Py.truediv.
    destruct (Z.ltb_spec 0 (Z.of_nat (length (Project.tasks all project))))
      as [Hpos|Hle]; [|by eexists].
    rewrite decide_False by lia. by eexists.
Qed.

Lemma empty_project_is_defined_witness :
  Project.is_completed Sample.tasks 7 = false
  ∧ Project.get_task_stats (fun f _ => f) Sample.tasks 7
    = inr (Project.mk_stats 0 0 0 (Py.Int 0))
  ∧ (∀ project, ∃ stats,
       Project.get_task_stats (fun f _ => f) Sample.tasks project = inr stats).
Proof.
  apply (empty_project_is_defined (fun f _ => f) Sample.tasks 7).
  reflexivity.
Defined.

(** ** Pagination *)

Lemma length_paginate {A : Type} (page per_page : Z) (rows : list A) :
  per_page ≤ 100 → (length (ApiView.paginate page per_page rows) ≤ 100)%nat.
Proof.
  intros Hle. unfold ApiView.paginate. rewrite length_take.
  destruct (per_page <? 1) eqn:E; lia.
Qed.

Lemma task_records_flat (ts : gmap Z Task.t) (l : list (Z * Task.t)) :
  Spec.task_records (Task.to_dict ts false <$> l) = length l.
Proof.
  unfold Spec.task_records.
  induction l as [|kv l IH]; [done|]. rewrite fmap_cons. simpl.
  by rewrite IH.
Qed.

(** C9, as amended: whatever [api_get_tasks] is asked, the page size it
    uses is at most 100 (a larger request is cut to 100, an absent
    [per_page] is 10), and the [tasks] array of the response has at most
    100 entries; unless the request asks for the subtasks, these entries
    are all the task records of the response. *)
Theorem api_get_tasks_page_size (fault : nat → bool)
    (int_of_str : list N → option Z) (lower : list N → list N)
    (current_user : Z) (args : gmap string (list N)) (σ σ' : Orm.Session)
    (d : Http.data) (status : Z) (ok : bool) :
  ApiView.api_get_tasks fault int_of_str lower current_user args σ
  = (inr (Http.api_response d status ok), σ') →
  ∃ items p,
    d = Http.tasks_data items p
    ∧ Http.per_page p ≤ 100
    ∧ (length items ≤ 100)%nat
    ∧ (args !! "per_page" = None → Http.per_page p = 10)
    ∧ (∀ v z, args !! "per_page" = Some v → int_of_str v = Some z →
              100 < z → Http.per_page p = 100)
    ∧ (lower (TasksView.form_get args "include_subtasks" (Py.lit "false"))
       ≠ Py.lit "true" →
       Spec.task_records items = length items).
Proof.
  unfold ApiView.api_get_tasks, Orm.query, Orm.roundtrip, Orm.bind, Orm.ret.
  simpl. destruct (fault (Orm.roundtrips σ)); simpl; [done|].
  destruct (fault (S (Orm.roundtrips σ))); simpl; [done|].
  intros [= <- _ _ _]. eexists _, _. split; [done|]. simpl.
  split_and!.
  - lia.
  - rewrite length_fmap. apply length_paginate. lia.
  - intros Hnone. unfold ApiView.args_get_int. by rewrite Hnone.
  - intros v z Hv Hz Hbig. unfold ApiView.args_get_int. rewrite Hv, Hz. lia.
  - intros Hinc. rewrite bool_decide_eq_false_2 by done.
    by rewrite task_records_flat, length_fmap.
Qed.

Lemma api_get_tasks_page_size_witness :
  ∃ items p,
    Http.tasks_data
      (Task.to_dict Sample.tasks false <$>
         [(4, Sample.build); (3, Sample.mockups); (2, Sample.design);
          (1, Sample.release)])
      (Http.mk_pagination 1 100 4)
    = Http.tasks_data items p
    ∧ Http.per_page p ≤ 100
    ∧ (length items ≤ 100)%nat
    ∧ (({[ "per_page" := Py.lit "500" ]} : gmap string (list N))
         !! "per_page" = None → Http.per_page p = 10)
    ∧ (∀ v z,
         ({[ "per_page" := Py.lit "500" ]} : gmap string (list N))
           !! "per_page" = Some v →
         (fun _ : list N => Some 500) v = Some z →
         100 < z → Http.per_page p = 100)
    ∧ ((fun w : list N => w)
         (TasksView.form_get {[ "per_page" := Py.lit "500" ]}
            "include_subtasks" (Py.lit "false"))
       ≠ Py.lit "true" →
       Spec.task_records items = length items).
Proof.
  apply (api_get_tasks_page_size (fun _ => false) (fun _ => Some 500)
           (fun w => w) 1 {[ "per_page" := Py.lit "500" ]}
           (Orm.begin Sample.store)
           (Orm.mkSession Sample.store Sample.store 2) _ 200 true).
  vm_compute. reflexivity.
Defined.

(** C9, as stated, fails when the request asks for the subtasks: the
    second page of 100 of user 1's tasks holds the one task that has a
    hundred subtasks, and the response carries 101 task records. *)
Lemma list_with_subtasks_exceeds_page_size :
  ∃ l p,
    (ApiView.api_get_tasks (fun _ => false) Sample.int_of_str (fun w => w) 1
       {[ "include_subtasks" := Py.lit "true"; "per_page" := Py.lit "100";
          "page" := Py.lit "2" ]}
       (Orm.begin Sample.big_store)).1
    = inr (Http.api_response (Http.tasks_data l p) 200 true)
    ∧ Http.per_page p = 100
    ∧ length l = 1%nat
    ∧ Spec.task_records l = 101%nat.
Proof.
  eexists _, _. split; [vm_compute; reflexivity|].
  split_and!; vm_compute; reflexivity.
Qed.

(** ** The completion flag on the update endpoint *)

Section Update.

Import Orm Http.
Local Open Scope orm_scope.

Variable fault : nat → bool.
Variable id : Z.

Implicit Types (P Q : Task.t → Prop).

Lemma setattr_viewed P Q (f : Task.t → Task.t) epost :
  (∀ y, P y → Q (f y)) →
  triple (Spec.viewed id P) (TasksView.setattr id f)
    (fun _ => Spec.viewed id Q) epost.
Proof.
  intros Hf σ (y & Hy & Hp). unfold TasksView.setattr, update, Spec.viewed.
  simpl. exists (f y). rewrite lookup_alter_eq, Hy. eauto.
Qed.

Lemma lift_viewed {A : Type} P (r : Py.exn + A) :
  triple (Spec.viewed id P) (lift r) (fun _ => Spec.viewed id P)
    (fun _ _ => True).
Proof. intros σ H. unfold lift. by destruct r. Qed.

Lemma when_present_viewed {A : Type} P (v : option A) (body : A → orm unit)
    epost :
  (∀ a, triple (Spec.viewed id P) (body a) (fun _ => Spec.viewed id P) epost) →
  triple (Spec.viewed id P) (ApiView.when_present v body)
    (fun _ => Spec.viewed id P) epost.
Proof. intros Hb. destruct v as [a|]; simpl; [apply Hb|by intros σ H]. Qed.

(** A converted value assigned to a column that [P] does not read. *)
Lemma convert_setattr_viewed {A : Type} P (r : Py.exn + A)
    (f : A → Task.t → Task.t) :
  (∀ a y, P y → P (f a y)) →
  triple (Spec.viewed id P)
    (let* a := lift r in TasksView.setattr id (f a))
    (fun _ => Spec.viewed id P) (fun _ _ => True).
Proof.
  intros Hf. eapply triple_bind; [apply lift_viewed|].
  intros a. apply setattr_viewed. apply Hf.
Qed.

Lemma commit_viewed P :
  triple (Spec.viewed id P) (commit fault) (fun _ => Spec.stored id P)
    (fun _ _ => True).
Proof.
  intros σ H. unfold commit, roundtrip, bind. simpl.
  by destruct (fault (roundtrips σ)).
Qed.

Lemma query_stored {A : Type} P (q : Store → A) :
  triple (Spec.stored id P) (query fault q) (fun _ => Spec.stored id P)
    (fun _ _ => True).
Proof.
  intros σ H. unfold query, roundtrip, bind. simpl.
  by destruct (fault (roundtrips σ)).
Qed.

Lemma set_tags_completion (l : option (list (list N))) (y : Task.t) :
  Task.is_completed (Task.set_tags l y) = Task.is_completed y
  ∧ Task.status (Task.set_tags l y) = Task.status y
  ∧ Task.completed_at (Task.set_tags l y) = Task.completed_at y.
Proof. by destruct l as [[|? ?]|]. Qed.

Lemma assign_is_completed_synchronised (now : Z) (v : bool) (y : Task.t) :
  v ≠ Task.is_completed y →
  Spec.synchronised now v (Task.assign_is_completed now v y).
Proof. destruct y as [? ? ? ? []], v; done. Qed.

(** [api_update_task] with a body whose [is_completed] differs from the
    stored flag: a success answer comes with the synchronised row
    committed. *)
Lemma api_update_task_flag (fromisoformat : list N → option Z)
    (now current_user : Z) (data : task_json) (s : Store) (x : Task.t)
    (v : bool) :
  tasks s !! id = Some x →
  json_is_completed data = Some v →
  v ≠ Task.is_completed x →
  triple (fun σ => σ = begin s)
    (ApiView.api_update_task fault fromisoformat now current_user id data)
    (fun a σ => (∀ d, a ≠ api_response d 200 true)
                ∨ Spec.stored id (Spec.synchronised now v) σ)
    (fun _ _ => True).
Proof.
  intros Hx Hflag Hne. unfold ApiView.api_update_task. rewrite Hflag.
  set (P0 := fun y => Task.is_completed y = Task.is_completed x).
  set (P1 := Spec.synchronised now v).
  eapply (triple_bind _ (fun _ => Spec.viewed id P0)).
  { intros σ ->. unfold query, roundtrip, bind. simpl.
    destruct (fault 0%nat); [done|]. by exists x. }
  intros [t|]; [|by intros σ H; left].
  destruct (ApiView.no_keys data); [by intros σ H; left|].
  apply triple_try with (fun _ _ => True).
  - eapply triple_bind.
    { apply when_present_viewed. intros ?. apply setattr_viewed.
      intros y Hy. exact Hy. }
    intros ?. eapply triple_bind.
    { apply when_present_viewed. intros ?. apply setattr_viewed.
      intros y Hy. exact Hy. }
    intros ?. eapply triple_bind.
    { apply when_present_viewed. intros ?.
      apply (convert_setattr_viewed P0 _ Task.with_priority).
      intros p y Hy. exact Hy. }
    intros ?. eapply triple_bind.
    { apply when_present_viewed. intros ?.
      apply (convert_setattr_viewed P0 _ Task.with_status).
      intros p y Hy. exact Hy. }
    intros ?. eapply (triple_bind _ (fun _ => Spec.viewed id P1)).
    { simpl. apply setattr_viewed. intros y Hy.
      apply assign_is_completed_synchronised. unfold P0 in Hy. congruence. }
    intros ?. eapply triple_bind.
    { apply when_present_viewed. intros ?.
      apply (convert_setattr_viewed P1 _ Task.with_estimated_hours).
      intros p y Hy. exact Hy. }
    intros ?. eapply triple_bind.
    { apply when_present_viewed. intros ?.
      apply (convert_setattr_viewed P1 _ Task.with_actual_hours).
      intros p y Hy. exact Hy. }
    intros ?. eapply triple_bind.
    { apply when_present_viewed. intros ?. apply setattr_viewed.
      intros y Hy. exact Hy. }
    intros ?. eapply triple_bind.
    { apply when_present_viewed. intros ?. apply setattr_viewed.
      intros y Hy. exact Hy. }
    intros ?. eapply triple_bind.
    { apply when_present_viewed. intros tl. apply setattr_viewed.
      intros y Hy. unfold P1, Spec.synchronised in *.
      by destruct (set_tags_completion (Some tl) y) as (-> & -> & ->). }
    intros ?. eapply triple_bind.
    { apply when_present_viewed. intros dd. destruct (Py.truthy dd).
      - apply (convert_setattr_viewed P1 _
                 (fun d => Task.with_due_date (Some d))).
        intros p y Hy. exact Hy.
      - apply setattr_viewed. intros y Hy. exact Hy. }
    intros ?. eapply triple_bind.
    { apply (setattr_viewed P1 P1). intros y Hy. exact Hy. }
    intros ?. eapply triple_bind; [apply commit_viewed|].
    intros ?. eapply triple_bind; [apply query_stored|].
    intros [d|]; intros σ H; simpl; [by right|done].
  - intros e σ _. destruct e; simpl; left; done.
Qed.

End Update.

(** C2, as amended: the dedicated operations always leave the flag, the
    status and the completion timestamp in step; an assignment to
    [is_completed] that changes the flag, directly or through the update
    endpoint of the API, does so too (DONE and a timestamp for true, TODO
    and no timestamp for false). *)
Theorem completion_flag_synchronised_on_change (now : Z) :
  (∀ depth self tasks tasks' x,
     tasks !! self = Some x →
     Task.mark_completed depth now self tasks = inr tasks' →
     ∃ x', tasks' !! self = Some x' ∧ Spec.synchronised now true x')
  ∧ (∀ x, Spec.synchronised now false (Task.mark_incomplete now x))
  ∧ (∀ v x, v ≠ Task.is_completed x →
            Spec.synchronised now v (Task.assign_is_completed now v x))
  ∧ (∀ fault fromisoformat current_user id data s x v d σ',
       Orm.tasks s !! id = Some x →
       Http.json_is_completed data = Some v →
       v ≠ Task.is_completed x →
       ApiView.api_update_task fault fromisoformat now current_user id data
         (Orm.begin s)
       = (inr (Http.api_response d 200 true), σ') →
       ∃ x', Orm.tasks (Orm.committed σ') !! id = Some x'
             ∧ Spec.synchronised now v x').
Proof.
  split_and!.
  - intros depth self tasks tasks' x Hx Hrun.
    destruct (mark_completed_marked now _ _ _ _ Hrun) as (_ & Hself & _).
    exists (Task.complete_self now x). split; [by apply Hself|].
    by rewrite complete_self_fields.
  - intros x. by rewrite mark_incomplete_fields.
  - intros v x. apply assign_is_completed_synchronised.
  - intros fault fromisoformat current_user id data s x v d σ' Hx Hflag Hne Hrun.
    pose proof (api_update_task_flag fault id fromisoformat now current_user
                  data s x v Hx Hflag Hne (Orm.begin s) eq_refl) as H.
    rewrite Hrun in H. destruct H as [H|H]; [by destruct (H d)|done].
Qed.

Lemma completion_flag_synchronised_on_change_witness :
  ∃ x', Orm.tasks
          (Orm.persisted
             (ApiView.api_update_task (fun _ => false) (fun _ => None) 100 1
                4 Sample.review_and_complete (Orm.begin Sample.store)))
          !! 4 = Some x'
        ∧ Spec.synchronised 100 true x'.
Proof.
  refine (proj2 (proj2 (proj2 (completion_flag_synchronised_on_change 100)))
            (fun _ => false) (fun _ => None) 1 4 Sample.review_and_complete
            Sample.store Sample.build true _ _ _ _ _ _).
  - reflexivity.
  - reflexivity.
  - discriminate.
  - vm_compute. reflexivity.
Defined.

(** C2, as stated, fails on the update endpoint: the body
    [{"status": "todo", "is_completed": true}] sent for the complete task
    2 is accepted, and the task is stored with the flag true and the
    status TODO. *)
Lemma update_leaves_completed_task_todo :
  ∃ d σ' x',
    ApiView.api_update_task (fun _ => false) (fun _ => None) 100 1 2
      Sample.reopen_but_complete (Orm.begin Sample.store)
    = (inr (Http.api_response d 200 true), σ')
    ∧ Orm.tasks (Orm.committed σ') !! 2 = Some x'
    ∧ Task.is_completed x' = true
    ∧ Task.status x' = TODO.
Proof. by eexists _, _, _; vm_compute. Qed.

(** ** Creation *)

Lemma next_id_above (m : gmap Z Task.t) (k : Z) (x : Task.t) :
  m !! k = Some x → k < Orm.next_id m.
Proof.
  unfold Orm.next_id. revert k x.
  apply (map_fold_weak_ind
    (fun r (m : gmap Z Task.t) => ∀ k x, m !! k = Some x → k < 1 + r)).
  - intros k x Hk. by rewrite lookup_empty in Hk.
  - intros i y m' r Hi IH k x Hk.
    destruct (decide (k = i)) as [->|Hne]; [lia|].
    rewrite lookup_insert_ne in Hk by done. specialize (IH k x Hk). lia.
Qed.

Lemma next_id_fresh (m : gmap Z Task.t) : m !! Orm.next_id m = None.
Proof.
  destruct (m !! Orm.next_id m) as [x|] eqn:E; [|done].
  apply next_id_above in E. lia.
Qed.


Lemma set_tags_parent (l : option (list (list N))) (y : Task.t) :
  Task.parent_task_id (Task.set_tags l y) = Task.parent_task_id y
  ∧ Task.user_id (Task.set_tags l y) = Task.user_id y.
Proof. by destruct l as [[|? ?]|]. Qed.





(** * Further properties of the models *)

(** ** Tags as they are read *)

Lemma split_pieces (sep : N) (s : list N) :
  Forall (fun w => sep ∉ w) (Py.split sep s).
Proof.
  induction s as [|c s IH]; simpl.
  - repeat constructor. apply not_elem_of_nil.
  - destruct (decide (c = sep)) as [->|Hne].
    + constructor; [apply not_elem_of_nil|done].
    + destruct (Py.split sep s) as [|w ws].
      * repeat constructor. by rewrite list_elem_of_singleton.
      * apply Forall_cons in IH as [Hw Hws]. constructor; [|done].
        rewrite not_elem_of_cons. eauto.
Qed.

(** What the comprehension of [get_tags_list] keeps of a string. *)
Lemma comprehension_clean (s : list N) :
  Forall (fun tag => tag ≠ [] ∧ Py.strip tag = tag ∧ Py.comma ∉ tag)
    (Py.strip <$>
       filter (fun tag => Py.truthy (Py.strip tag) = true)
         (Py.split Py.comma s)).
Proof.
  rewrite trimmed_tags_comprehension.
  pose proof (trimmed_tags_entries _ (split_pieces Py.comma s)) as H.
  eapply Forall_impl; [exact H|]. simpl. intros w [[Hs Ht] Hc].
  split_and!; [by apply truthy_nonempty|done..].
Qed.

(** Whatever string the column holds, the tags read from it are not
    empty, carry no surrounding whitespace and contain no comma. *)
Theorem get_tags_list_entries (x : Task.t) :
  Forall (fun tag => tag ≠ [] ∧ Py.strip tag = tag ∧ Py.comma ∉ tag)
    (Task.get_tags_list x).
Proof.
  unfold Task.get_tags_list.
  destruct (Task.tags x) as [s|]; [|constructor].
  destruct (Py.truthy s); [|constructor].
  apply comprehension_clean.
Qed.

(** What [set_tags] stores for a list without commas reads back as the
    trimmed, non-empty entries. *)
Lemma tags_read_back (x : Task.t) (l : list (list N)) :
  Forall (fun tag => Py.comma ∉ tag) l →
  Task.get_tags_list (Task.set_tags (Some l) x) = Spec.trimmed_tags l.
Proof.
  intros Hall. destruct l as [|w l]; [done|].
  unfold Task.set_tags.
  rewrite get_tags_list_with_tags, trimmed_tags_comprehension.
  pose proof (trimmed_tags_entries _ Hall) as Hent.
  destruct (Spec.trimmed_tags (w :: l)) as [|v r] eqn:E; [reflexivity|].
  apply Forall_and in Hent as [Hfix Hcomma].
  rewrite join_truthy by (by apply Forall_cons in Hfix as [[_ ?] _]).
  rewrite split_join by done.
  by apply comprehension_fixed.
Qed.

(** Saving the tags that were read from a task, on that task or on
    another, changes nothing in what is read: the stored form is stable
    under [get_tags_list] followed by [set_tags]. *)
Theorem resaved_tags_are_stable (x x' : Task.t) :
  Task.get_tags_list (Task.set_tags (Some (Task.get_tags_list x)) x')
  = Task.get_tags_list x.
Proof.
  assert (Forall (fun tag => tag ≠ [] ∧ Py.strip tag = tag ∧ Py.comma ∉ tag)
            (Task.get_tags_list x)) as Hent.
  { unfold Task.get_tags_list. destruct (Task.tags x) as [s|]; [|constructor].
    destruct (Py.truthy s); [|constructor]. apply comprehension_clean. }
  rewrite tags_read_back.
  - unfold Spec.trimmed_tags.
    induction Hent as [|w l (Hne & Hs & _) _ IH]; [done|].
    rewrite fmap_cons, filter_cons, Hs, decide_True by done.
    f_equal. exact IH.
  - eapply Forall_impl; [exact Hent|]. by intros w (_ & _ & ?).
Qed.

(** ** The enumerations *)

(** The constructors of the two enumerations accept exactly the values
    of their members, and give back the member a value came from. *)
Theorem enumeration_values_round_trip :
  (∀ p, TaskPriority_of_value (TaskPriority_value p) = inr p)
  ∧ (∀ v p, TaskPriority_of_value v = inr p → v = TaskPriority_value p)
  ∧ (∀ st, TaskStatus_of_value (TaskStatus_value st) = inr st)
  ∧ (∀ v st, TaskStatus_of_value v = inr st → v = TaskStatus_value st).
Proof.
  split_and!.
  - by intros [].
  - intros v p. unfold TaskPriority_of_value.
    repeat case_decide; intros [= <-]; done.
  - by intros [].
  - intros v st. unfold TaskStatus_of_value.
    repeat case_decide; intros [= <-]; done.
Qed.

(** ** Due dates *)

(** For a task that is not complete, [is_overdue] holds exactly when
    [days_until_due] is negative: the two views of the due date agree. *)
Theorem overdue_iff_days_negative (now : Z) (x : Task.t) :
  Task.is_completed x = false →
  Task.is_overdue now x = Some true
  ↔ ∃ n, Task.days_until_due now x = Some n ∧ n < 0.
Proof.
  intros Hc. unfold Task.is_overdue, Task.days_until_due.
  destruct (Task.due_date x) as [d|]; [|split; [done|by intros (? & ? & ?)]].
  rewrite Hc. simpl.
  assert (0 < Task.day) as Hday by done.
  split.
  - intros H. exists ((d - now) / Task.day). split; [done|].
    destruct (Z.ltb_spec d now); [|done].
    apply Z.div_lt_upper_bound; lia.
  - intros (n & [= <-] & Hn). destruct (Z.ltb_spec d now) as [|Hge]; [done|].
    pose proof (Z.div_pos (d - now) Task.day). lia.
Qed.

Lemma overdue_iff_days_negative_witness :
  Task.is_overdue 100 (Task.with_due_date (Some 99) Sample.task) = Some true
  ↔ ∃ n, Task.days_until_due 100 (Task.with_due_date (Some 99) Sample.task)
         = Some n ∧ n < 0.
Proof.
  apply (overdue_iff_days_negative 100
           (Task.with_due_date (Some 99) Sample.task)).
  reflexivity.
Defined.

(** ** What [mark_completed] keeps and what it repeats *)

(** [mark_completed] adds and removes no row, never turns a complete task
    into an incomplete one, and changes no column of any row other than
    the completion flag, the status and the completion and update
    timestamps. *)
Theorem mark_completed_frame (now : Z) (depth : nat) (self : Z)
    (tasks tasks' : gmap Z Task.t) :
  Task.mark_completed depth now self tasks = inr tasks' →
  ∀ k,
    (tasks' !! k = None ↔ tasks !! k = None)
    ∧ ∀ x y, tasks !! k = Some x → tasks' !! k = Some y →
        Task.title y = Task.title x
        ∧ Task.description y = Task.description x
        ∧ Task.priority y = Task.priority x
        ∧ Task.created_at y = Task.created_at x
        ∧ Task.due_date y = Task.due_date x
        ∧ Task.estimated_hours y = Task.estimated_hours x
        ∧ Task.actual_hours y = Task.actual_hours x
        ∧ Task.tags y = Task.tags x
        ∧ Task.category y = Task.category x
        ∧ Task.user_id y = Task.user_id x
        ∧ Task.project_id y = Task.project_id x
        ∧ Task.parent_task_id y = Task.parent_task_id x
        ∧ (Task.is_completed x = true → Task.is_completed y = true).
Proof.
  intros Hrun k.
  destruct (mark_completed_marked now _ _ _ _ Hrun) as (Hadv & _).
  destruct (Hadv k) as [E|(x' & Hx' & Hy')].
  - split; [by rewrite E|]. intros x y Hx Hy.
    assert (y = x) as -> by congruence. by split_and!.
  - split; [by rewrite Hx', Hy'|]. intros x y Hx Hy.
    assert (x' = x) as -> by congruence.
    assert (y = Task.complete_self now x) as -> by congruence.
    rewrite complete_self_fields. by split_and!.
Qed.

Lemma mark_completed_frame_witness :
  (alter (Task.complete_self 100) 3 Sample.tasks !! 3 = None
     ↔ Sample.tasks !! 3 = None)
    ∧ ∀ x y, Sample.tasks !! 3 = Some x →
        alter (Task.complete_self 100) 3 Sample.tasks !! 3 = Some y →
        Task.title y = Task.title x
        ∧ Task.description y = Task.description x
        ∧ Task.priority y = Task.priority x
        ∧ Task.created_at y = Task.created_at x
        ∧ Task.due_date y = Task.due_date x
        ∧ Task.estimated_hours y = Task.estimated_hours x
        ∧ Task.actual_hours y = Task.actual_hours x
        ∧ Task.tags y = Task.tags x
        ∧ Task.category y = Task.category x
        ∧ Task.user_id y = Task.user_id x
        ∧ Task.project_id y = Task.project_id x
        ∧ Task.parent_task_id y = Task.parent_task_id x
        ∧ (Task.is_completed x = true → Task.is_completed y = true).
Proof.
  refine (mark_completed_frame 100 10 3 Sample.tasks _ _ 3).
  vm_compute. reflexivity.
Defined.

Lemma for_each_unchanged {A S : Type} (body : A → S → Py.exn + S)
    (l : list A) (s : S) :
  (∀ a, a ∈ l → body a s = inr s) → Task.for_each body l s = inr s.
Proof.
  induction l as [|a l IH]; intros Hbody; simpl; [done|].
  rewrite Hbody by (by left). apply IH. intros a' Ha'. apply Hbody. by right.
Qed.

(** Once [mark_completed] has returned, calling it again on the same task
    (at any later instant, with any recursion limit above zero) rewrites
    that task alone: the second call stamps the task and visits no
    subtask. *)
Theorem mark_completed_again (now now' : Z) (depth depth' : nat) (self : Z)
    (tasks tasks' : gmap Z Task.t) :
  Task.mark_completed depth now self tasks = inr tasks' →
  Task.mark_completed (S depth') now' self tasks'
  = inr (alter (Task.complete_self now') self tasks').
Proof.
  intros Hrun.
  destruct (mark_completed_marked now _ _ _ _ Hrun) as (_ & _ & Hcl & _).
  assert (Spec.subtasks_done tasks' self) as Hdone by (apply Hcl; by left).
  simpl. apply for_each_unchanged. intros kv Hkv.
  apply elem_of_subtasks in Hkv as [Hkv Hp].
  unfold Task.visit_subtask. rewrite Hkv.
  destruct (decide (kv.1 = self)) as [E|Hne].
  - rewrite E, lookup_alter_eq in Hkv.
    destruct (tasks' !! self) as [x|]; [|done]. simpl in Hkv.
    injection Hkv as <-. by rewrite complete_self_done.
  - rewrite lookup_alter_ne in Hkv by done.
    by rewrite (Hdone _ _ Hkv Hp).
Qed.

Lemma mark_completed_again_witness :
  Task.mark_completed 1 200 1
    (alter (Task.complete_self 100) 4
       (alter (Task.complete_self 100) 1 Sample.tasks))
  = inr (alter (Task.complete_self 200) 1
           (alter (Task.complete_self 100) 4
              (alter (Task.complete_self 100) 1 Sample.tasks))).
Proof.
  apply (mark_completed_again 100 200 10 0 1 Sample.tasks).
  vm_compute. reflexivity.
Defined.

(** After [mark_completed] neither the task nor any of its direct
    subtasks is overdue, whatever their due dates. *)
Theorem mark_completed_clears_overdue (now later : Z) (depth : nat)
    (self : Z) (tasks tasks' : gmap Z Task.t) (k : Z) (y : Task.t) :
  Task.mark_completed depth now self tasks = inr tasks' →
  tasks' !! k = Some y →
  k = self ∨ Task.parent_task_id y = Some self →
  Task.is_overdue later y ≠ Some true.
Proof.
  intros Hrun Hy Hk.
  destruct (mark_completed_marked now _ _ _ _ Hrun) as (Hadv & Hself & Hcl & _).
  assert (Task.is_completed y = true) as Hc.
  { destruct Hk as [->|Hp].
    - destruct (advanced_parent now _ _ _ _ Hadv Hy) as (x & Hx & _).
      rewrite (Hself _ Hx) in Hy. injection Hy as <-.
      apply complete_self_done.
    - by apply (Hcl self (or_introl eq_refl) k y). }
  unfold Task.is_overdue. rewrite Hc.
  destruct (Task.due_date y) as [d|]; [|done]. by destruct (d <? later).
Qed.

Lemma mark_completed_clears_overdue_witness :
  Task.is_overdue 99 (Task.with_due_date (Some 5) Sample.release) = Some true
  ∧ Task.is_overdue 1000
      (Task.complete_self 100 (Task.with_due_date (Some 5) Sample.release))
    ≠ Some true.
Proof.
  split; [reflexivity|].
  apply (mark_completed_clears_overdue 100 1000 10 1
           (<[1 := Task.with_due_date (Some 5) Sample.release]> Sample.tasks)
           (alter (Task.complete_self 100) 4
              (alter (Task.complete_self 100) 1
                 (<[1 := Task.with_due_date (Some 5) Sample.release]>
                    Sample.tasks)))
           1).
  - vm_compute. reflexivity.
  - vm_compute. reflexivity.
  - by left.
Defined.

(** ** Statistics *)

Lemma length_filter_all {A : Type} (P : A → Prop) `{∀ a, Decision (P a)}
    (l : list A) :
  length (filter P l) = length l ↔ Forall P l.
Proof.
  induction l as [|a l IH]; [by split|].
  rewrite filter_cons. pose proof (length_filter P l) as Hle.
  destruct (decide (P a)) as [Ha|Ha]; simpl.
  - rewrite Forall_cons. split.
    + intros [= E]. split; [done|]. by apply IH.
    + intros [_ Hl]. f_equal. by apply IH.
  - split; [lia|]. intros Hall. by apply Forall_cons in Hall as [? _].
Qed.

Lemma length_filter_disjoint {A : Type} (P Q R : A → Prop)
    `{∀ a, Decision (P a)} `{∀ a, Decision (Q a)} `{∀ a, Decision (R a)}
    (l : list A) :
  (∀ a, P a → R a) → (∀ a, Q a → R a) → (∀ a, P a → Q a → False) →
  (length (filter P l) + length (filter Q l) ≤ length (filter R l))%nat.
Proof.
  intros HP HQ HPQ. induction l as [|a l IH]; [done|].
  rewrite !filter_cons.
  destruct (decide (P a)) as [Pa|Pa], (decide (Q a)) as [Qa|Qa],
    (decide (R a)) as [Ra|Ra]; simpl; try lia;
    solve [ by destruct (HPQ a) | by destruct Ra; auto ].
Qed.

Lemma length_filter_split {A : Type} (P Q : A → bool) (l : list A) :
  length (filter (fun a => P a = true) l)
  = (length (filter (fun a => P a && Q a = true) l)
     + length (filter (fun a => P a && negb (Q a) = true) l))%nat.
Proof.
  induction l as [|a l IH]; [done|].
  rewrite !filter_cons.
  destruct (P a), (Q a); simpl; rewrite ?decide_True, ?decide_False by done;
    simpl; lia.
Qed.

(** For every project [get_task_stats] returns, the counts add up
    (completed + pending = total, none negative), and [is_completed]
    holds exactly when there is a task and none is pending. *)
Theorem project_task_stats_consistent
    (round_float : spec_float → Z → spec_float) (all : gmap Z Task.t)
    (self : Z) :
  ∃ stats,
    Project.get_task_stats round_float all self = inr stats
    ∧ Project.total_tasks stats
      = Project.completed_tasks stats + Project.pending_tasks stats
    ∧ 0 ≤ Project.completed_tasks stats
    ∧ 0 ≤ Project.pending_tasks stats
    ∧ (Project.is_completed all self = true
       ↔ 0 < Project.total_tasks stats ∧ Project.pending_tasks stats = 0).
Proof.
  unfold Project.get_task_stats, Project.is_completed, Py.truediv.
  set (l := Project.tasks all self).
  pose proof (length_filter (fun kv : Z * Task.t =>
                Task.is_completed kv.2 = true) l) as Hle.
  set (c := length (filter (fun kv : Z * Task.t =>
                Task.is_completed kv.2 = true) l)) in *.
  assert (Project.is_completed all self = true
          ↔ 0 < Z.of_nat (length l)
            ∧ Z.of_nat (length l) - Z.of_nat c = 0) as Hiff.
  { unfold Project.is_completed. fold l. fold c.
    case_decide as E; [split; [done|lia]|].
    rewrite bool_decide_eq_true. lia. }
  destruct (Z.ltb_spec 0 (Z.of_nat (length l))) as [Hpos|Hzero].
  - rewrite decide_False by lia. eexists. split; [done|]. simpl.
    split_and!; [lia..|apply Hiff].
  - eexists. split; [done|]. simpl. split_and!; [lia..|apply Hiff].
Qed.

(** A project is overdue exactly when it has an end date in the past and
    either no task at all or a task that is not complete: an empty
    project past its end date counts as overdue. *)
Theorem project_overdue_iff (now : Z) (end_date : option Z)
    (all : gmap Z Task.t) (self : Z) :
  Project.is_overdue now end_date all self = Some true
  ↔ ∃ d, end_date = Some d ∧ d < now
         ∧ (Project.tasks all self = []
            ∨ ∃ kv, kv ∈ Project.tasks all self
                    ∧ Task.is_completed kv.2 = false).
Proof.
  assert (Project.is_completed all self = false
          ↔ Project.tasks all self = []
            ∨ ∃ kv, kv ∈ Project.tasks all self
                    ∧ Task.is_completed kv.2 = false) as Hdone.
  { unfold Project.is_completed. set (l := Project.tasks all self).
    case_decide as E.
    - split; [|done]. intros _. left. destruct l; [done|simpl in E; lia].
    - rewrite bool_decide_eq_false, Nat2Z.inj_iff.
      split.
      + intros Hne. right.
        assert (¬ Forall (fun kv : Z * Task.t =>
                  Task.is_completed kv.2 = true) l) as Hnot.
        { intros Hall. apply Hne. symmetry. by apply length_filter_all. }
        apply not_Forall_Exists in Hnot; [|apply _].
        apply Exists_exists in Hnot as (kv & Hkv & Hc). exists kv.
        split; [done|]. simpl in Hc. by destruct (Task.is_completed kv.2).
      + intros [Hnil|(kv & Hkv & Hc)] Heq.
        * rewrite Hnil in E. done.
        * symmetry in Heq. apply length_filter_all in Heq.
          rewrite Forall_forall in Heq. specialize (Heq kv Hkv). congruence. }
  unfold Project.is_overdue. destruct end_date as [d|].
  - destruct (Z.ltb_spec d now) as [Hlt|Hge].
    + split.
      * intros [= Hn]. exists d. split_and!; [done..|].
        apply Hdone. by destruct (Project.is_completed all self).
      * intros (d' & [= <-] & _ & H). apply Hdone in H. by rewrite H.
    + split; [done|]. intros (d' & [= <-] & ? & _). lia.
  - split; [done|]. by intros (d' & ? & _).
Qed.

(** For every user [dashboard_stats] returns, the counts add up
    (completed + pending = total), and the overdue tasks and the tasks
    due within the week are distinct pending tasks: together they never
    exceed the pending count. *)
Theorem dashboard_stats_consistent
    (round_float : spec_float → Z → spec_float) (now current_user : Z)
    (all : gmap Z Task.t) :
  ∃ d,
    TasksView.dashboard_stats round_float now current_user all = inr d
    ∧ TasksView.total_tasks d
      = TasksView.completed_tasks d + TasksView.pending_tasks d
    ∧ 0 ≤ TasksView.completed_tasks d
    ∧ 0 ≤ TasksView.overdue_tasks d
    ∧ 0 ≤ TasksView.due_this_week d
    ∧ TasksView.overdue_tasks d + TasksView.due_this_week d
      ≤ TasksView.pending_tasks d.
Proof.
  unfold TasksView.dashboard_stats, Py.truediv, TasksView.count.
  set (l := map_to_list all).
  set (mine := fun x : Task.t => bool_decide (Task.user_id x = current_user)).
  pose proof (length_filter_split (fun kv : Z * Task.t => mine kv.2)
                (fun kv => Task.is_completed kv.2) l) as Hsplit.
  simpl in Hsplit.
  pose proof (length_filter_disjoint
    (fun kv : Z * Task.t =>
       mine kv.2
       && match Task.due_date kv.2 with Some d => d <? now | None => false end
       && negb (Task.is_completed kv.2) = true)
    (fun kv : Z * Task.t =>
       mine kv.2
       && match Task.due_date kv.2 with
          | Some d => (now <=? d) && (d <=? now + 7 * Task.day)
          | None => false
          end
       && negb (Task.is_completed kv.2) = true)
    (fun kv : Z * Task.t => mine kv.2 && negb (Task.is_completed kv.2) = true)
    l) as Hdis.
  simpl in Hdis.
  assert (∀ a b c : bool, a && b && c = true → a && c = true) as Hdrop
    by (by intros [] [] []).
  specialize (Hdis (fun kv => Hdrop _ _ _) (fun kv => Hdrop _ _ _)).
  assert (∀ kv : Z * Task.t,
    mine kv.2
    && match Task.due_date kv.2 with Some d => d <? now | None => false end
    && negb (Task.is_completed kv.2) = true →
    mine kv.2
    && match Task.due_date kv.2 with
       | Some d => (now <=? d) && (d <=? now + 7 * Task.day)
       | None => false
       end
    && negb (Task.is_completed kv.2) = true → False) as Hexcl.
  { intros kv H1 H2. destruct (Task.due_date kv.2) as [d|].
    - apply andb_true_iff in H1 as [H1 _]. apply andb_true_iff in H1 as [_ H1].
      apply andb_true_iff in H2 as [H2 _]. apply andb_true_iff in H2 as [_ H2].
      apply andb_true_iff in H2 as [H2 _]. lia.
    - by rewrite andb_false_r in H1. }
  specialize (Hdis Hexcl).
  subst mine. cbv beta in *.
  match goal with
  | |- context [0 <? ?n] => destruct (Z.ltb_spec 0 n) as [Hpos|Hzero]
  end.
  - rewrite decide_False by lia. eexists. split; [done|]. simpl.
    split_and!; lia.
  - eexists. split; [done|]. simpl. split_and!; lia.
Qed.

(** * Further properties of the handlers *)

Ltac run_handler :=
  unfold Orm.query, Orm.commit, Orm.delete_task, Orm.delete_comment,
    Orm.delete_attachment, TasksView.setattr;
  unfold Orm.roundtrip, Orm.rollback, Orm.try_except, Orm.ret, Orm.raise,
    Orm.update, Orm.call, Http.lift, Orm.persisted, Orm.begin, Orm.bind;
  simpl.

(** The lookup that opens a handler, on the fresh session of a request. *)
Lemma first_query {A B : Type} (fault : nat → bool) (q : Orm.Store → A)
    (k : A → Orm.orm B) (s : Orm.Store) :
  Orm.bind (Orm.query fault q) k (Orm.begin s)
  = if fault 0%nat
    then (inl Py.DatabaseError, Orm.mkSession s s 1)
    else k (q s) (Orm.mkSession s s 1).
Proof. run_handler. by destruct (fault 0%nat). Qed.

(** ** Ownership *)

(** A request that names a task the requesting user does not own (a task
    of somebody else, or no task) changes nothing in the database,
    whichever handler receives it and whether or not a statement fails;
    when the lookup itself succeeds the answer is 404. *)
Theorem foreign_task_is_not_found (fault : nat → bool)
    (current_user id : Z) (s : Orm.Store) :
  TasksView.owned_task current_user id s = None →
  (∀ now data fromisoformat,
     let r :=
       ApiView.api_update_task fault fromisoformat now current_user id data
         (Orm.begin s) in
     Orm.persisted r = s
     ∧ (fault 0%nat = false
        → r.1 = inr (Http.api_response Http.no_data 404 false)))
  ∧ (∀ now,
       let r :=
         ApiView.api_delete_task fault now current_user id (Orm.begin s) in
       Orm.persisted r = s
       ∧ (fault 0%nat = false
          → r.1 = inr (Http.api_response Http.no_data 404 false)))
  ∧ (∀ lower args,
       let r :=
         ApiView.api_get_task fault lower current_user id args (Orm.begin s) in
       Orm.persisted r = s
       ∧ (fault 0%nat = false
          → r.1 = inr (Http.api_response Http.no_data 404 false)))
  ∧ (∀ now,
       let r := TasksView.delete_task fault now current_user id (Orm.begin s) in
       Orm.persisted r = s ∧ (fault 0%nat = false → r.1 = inr (Http.abort 404)))
  ∧ (∀ depth now is_json,
       let r :=
         TasksView.toggle_complete fault depth now current_user id is_json
           (Orm.begin s) in
       Orm.persisted r = s
       ∧ (fault 0%nat = false → r.1 = inr (TasksView.toggle_abort 404)))
  ∧ (∀ now form,
       let r :=
         TasksView.add_comment fault now current_user id form (Orm.begin s) in
       Orm.persisted r = s ∧ (fault 0%nat = false → r.1 = inr (Http.abort 404)))
  ∧ (∀ float_of_str int_of_str strptime_ymd now m form,
       let r :=
         TasksView.edit_task fault float_of_str int_of_str strptime_ymd now
           current_user id m form (Orm.begin s) in
       Orm.persisted r = s ∧ (fault 0%nat = false → r.1 = inr (Http.abort 404))).
Proof.
  intros Hforeign. split_and!; intros; subst r.
  - unfold ApiView.api_update_task. rewrite first_query.
    destruct (fault 0%nat); [done|]. by rewrite Hforeign.
  - unfold ApiView.api_delete_task. rewrite first_query.
    destruct (fault 0%nat); [done|]. by rewrite Hforeign.
  - unfold ApiView.api_get_task. rewrite first_query.
    destruct (fault 0%nat); [done|]. by rewrite Hforeign.
  - unfold TasksView.delete_task. rewrite first_query.
    destruct (fault 0%nat); [done|]. by rewrite Hforeign.
  - unfold TasksView.toggle_complete. rewrite first_query.
    destruct (fault 0%nat); [done|]. by rewrite Hforeign.
  - unfold TasksView.add_comment. rewrite first_query.
    destruct (fault 0%nat); [done|]. by rewrite Hforeign.
  - unfold TasksView.edit_task. rewrite first_query.
    destruct (fault 0%nat); [done|]. by rewrite Hforeign.
Qed.

Lemma foreign_task_is_not_found_witness :
  let r :=
    TasksView.delete_task (fun _ => false) 100 2 1 (Orm.begin Sample.store) in
  Orm.persisted r = Sample.store
  ∧ ((fun _ : nat => false) 0%nat = false → r.1 = inr (Http.abort 404)).
Proof.
  refine (proj1 (proj2 (proj2 (proj2
            (foreign_task_is_not_found (fun _ => false) 2 1 Sample.store _))))
            100).
  reflexivity.
Defined.

(** ** Toggling completion *)

(** [toggle_complete] stores all of the toggle or nothing: whatever fails
    (a statement, or the recursion limit inside [mark_completed]), the
    database afterwards is either what it was, or what it was with the
    tasks rewritten by the whole of [mark_incomplete] (for a complete
    task) or of [mark_completed] (for an incomplete one); comments and
    attachments are never touched. *)
Theorem toggle_complete_all_or_nothing (fault : nat → bool) (depth : nat)
    (now current_user id : Z) (is_json : bool) (s : Orm.Store) :
  let r :=
    TasksView.toggle_complete fault depth now current_user id is_json
      (Orm.begin s) in
  Orm.persisted r = s
  ∨ ∃ x ts,
      TasksView.owned_task current_user id s = Some x
      ∧ (if Task.is_completed x
         then ts = alter (Task.mark_incomplete now) id (Orm.tasks s)
         else Task.mark_completed depth now id (Orm.tasks s) = inr ts)
      ∧ Orm.persisted r
        = Orm.mkStore ts (Orm.task_comments s) (Orm.task_attachments s).
Proof.
  intros r. subst r. unfold TasksView.toggle_complete. rewrite first_query.
  destruct (fault 0%nat); [by left|].
  destruct (TasksView.owned_task current_user id s) as [x|] eqn:Ho; [|by left].
  run_handler. destruct (Task.is_completed x) eqn:Hc; simpl.
  - destruct (fault 1%nat); simpl; [by left|]. right.
    exists x, (alter (Task.mark_incomplete now) id (Orm.tasks s)).
    rewrite Hc. split_and!; [done..|].
    destruct (fault 2%nat); simpl; [done|].
    by destruct (alter (Task.mark_incomplete now) id (Orm.tasks s) !! id).
  - destruct (fault 1%nat); simpl; [by left|].
    destruct (Task.mark_completed depth now id (Orm.tasks s)) as [e|ts] eqn:Hm;
      simpl; [by left|].
    destruct (fault 2%nat); simpl; [by left|]. right.
    exists x, ts. rewrite Hc. split_and!; [done..|].
    destruct (fault 3%nat); simpl; [done|]. by destruct (ts !! id).
Qed.

(** What [toggle_complete] stores when no statement fails. *)
Lemma toggle_complete_run (depth : nat) (now current_user id : Z)
    (is_json : bool) (s : Orm.Store) (x : Task.t) :
  TasksView.owned_task current_user id s = Some x →
  Orm.persisted
    (TasksView.toggle_complete (fun _ => false) depth now current_user id
       is_json (Orm.begin s))
  = match (if Task.is_completed x
           then inr (alter (Task.mark_incomplete now) id (Orm.tasks s))
           else Task.mark_completed depth now id (Orm.tasks s)) with
    | inr ts => Orm.mkStore ts (Orm.task_comments s) (Orm.task_attachments s)
    | inl _ => s
    end.
Proof.
  intros Ho. unfold TasksView.toggle_complete. rewrite first_query, Ho.
  run_handler. destruct (Task.is_completed x); simpl.
  - by destruct (alter (Task.mark_incomplete now) id (Orm.tasks s) !! id).
  - destruct (Task.mark_completed depth now id (Orm.tasks s)) as [e|ts];
      simpl; [done|]. by destruct (ts !! id).
Qed.

Lemma owned_task_lookup (current_user id : Z) (s : Orm.Store) (x : Task.t) :
  TasksView.owned_task current_user id s = Some x
  ↔ Orm.tasks s !! id = Some x ∧ Task.user_id x = current_user.
Proof.
  unfold TasksView.owned_task. destruct (Orm.tasks s !! id) as [y|].
  - case_decide as Hy.
    + split; [by intros [= ->]|by intros [[= ->] _]].
    + split; [done|]. intros [[= ->] Hu]. done.
  - split; [done|by intros [? _]].
Qed.

(** Toggling an incomplete task twice does not undo the first toggle: the
    task itself is incomplete again (status TODO, no completion
    timestamp), but every direct subtask the first toggle completed is
    still complete. *)
Theorem toggle_twice_keeps_subtasks_complete (depth depth' : nat)
    (now now' current_user id : Z) (is_json is_json' : bool)
    (s : Orm.Store) (x : Task.t) :
  Orm.tasks s !! id = Some x →
  Task.user_id x = current_user →
  Task.is_completed x = false →
  (size (Spec.incomplete (Orm.tasks s)) < depth)%nat →
  let s1 :=
    Orm.persisted
      (TasksView.toggle_complete (fun _ => false) depth now current_user id
         is_json (Orm.begin s)) in
  let s2 :=
    Orm.persisted
      (TasksView.toggle_complete (fun _ => false) depth' now' current_user id
         is_json' (Orm.begin s1)) in
  (∃ y, Orm.tasks s2 !! id = Some y
        ∧ Task.is_completed y = false ∧ Task.status y = TODO
        ∧ Task.completed_at y = None)
  ∧ (∀ k z, Orm.tasks s2 !! k = Some z → Task.parent_task_id z = Some id →
            k ≠ id → Task.is_completed z = true).
Proof.
  intros Hx Hu Hc Hsize s1 s2.
  destruct (mark_completed_returns now depth id (Orm.tasks s)) as [ts Hrun].
  { pose proof (size_incomplete_advanced now _ _
                  (advanced_alter now (Orm.tasks s) id)). lia. }
  destruct (mark_completed_marked now _ _ _ _ Hrun) as (_ & Hself & Hcl & _).
  assert (s1 = Orm.mkStore ts (Orm.task_comments s) (Orm.task_attachments s))
    as Hs1.
  { unfold s1. rewrite (toggle_complete_run _ _ _ _ _ _ x)
      by (by apply owned_task_lookup).
    by rewrite Hc, Hrun. }
  assert (Orm.tasks s2 = alter (Task.mark_incomplete now') id ts) as Hs2.
  { unfold s2.
    rewrite (toggle_complete_run _ _ _ _ _ _ (Task.complete_self now x)).
    - rewrite complete_self_done. by rewrite Hs1.
    - apply owned_task_lookup. rewrite Hs1. simpl.
      split; [by apply Hself|]. rewrite <- Hu. by destruct x as [? ? ? ? []]. }
  rewrite Hs2. split.
  - exists (Task.mark_incomplete now' (Task.complete_self now x)).
    rewrite lookup_alter_eq, (Hself _ Hx). split; [done|].
    by rewrite mark_incomplete_fields.
  - intros k z Hz Hp Hne. rewrite lookup_alter_ne in Hz by done.
    by apply (Hcl id (or_introl eq_refl) k z).
Qed.

Lemma toggle_twice_keeps_subtasks_complete_witness :
  let s1 :=
    Orm.persisted
      (TasksView.toggle_complete (fun _ => false) 10 100 1 1 true
         (Orm.begin Sample.store)) in
  let s2 :=
    Orm.persisted
      (TasksView.toggle_complete (fun _ => false) 10 200 1 1 true
         (Orm.begin s1)) in
  (∃ y, Orm.tasks s2 !! 1 = Some y
        ∧ Task.is_completed y = false ∧ Task.status y = TODO
        ∧ Task.completed_at y = None)
  ∧ (∀ k z, Orm.tasks s2 !! k = Some z → Task.parent_task_id z = Some 1 →
            k ≠ 1 → Task.is_completed z = true).
Proof.
  apply (toggle_twice_keeps_subtasks_complete 10 10 100 200 1 1 true true
           Sample.store Sample.release).
  - reflexivity.
  - reflexivity.
  - reflexivity.
  - vm_compute. lia.
Defined.

(** ** Comments *)

Lemma next_comment_id_fresh (m : gmap Z TaskComment.t) :
  m !! Orm.next_comment_id m = None.
Proof.
  assert (∀ k c, m !! k = Some c → k < Orm.next_comment_id m) as Habove.
  { unfold Orm.next_comment_id.
    apply (map_fold_weak_ind
      (fun r (m : gmap Z TaskComment.t) =>
         ∀ k c, m !! k = Some c → k < 1 + r)).
    - intros k c Hk. by rewrite lookup_empty in Hk.
    - intros i y m' r Hi IH k c Hk.
      destruct (decide (k = i)) as [->|Hne]; [lia|].
      rewrite lookup_insert_ne in Hk by done. specialize (IH k c Hk). lia. }
  destruct (m !! Orm.next_comment_id m) as [c|] eqn:E; [|done].
  apply Habove in E. lia.
Qed.

(** [add_comment] stores nothing, or exactly one new comment: the new
    row sits under a key that was free, carries the trimmed text, the
    task and the requesting user, and is stored only for a task the user
    owns and a text that is not blank; tasks, attachments and the other
    comments are as they were. *)
Theorem add_comment_outcome (fault : nat → bool) (now current_user id : Z)
    (form : gmap string (list N)) (s : Orm.Store) :
  let r := TasksView.add_comment fault now current_user id form (Orm.begin s) in
  let content := Py.strip (TasksView.form_get form "content" []) in
  Orm.persisted r = s
  ∨ (is_Some (TasksView.owned_task current_user id s)
     ∧ content ≠ []
     ∧ ∃ k,
         Orm.task_comments s !! k = None
         ∧ Orm.persisted r
           = Orm.mkStore (Orm.tasks s)
               (<[k := TaskComment.mk content now now id current_user]>
                  (Orm.task_comments s))
               (Orm.task_attachments s)).
Proof.
  intros r content. subst r. unfold TasksView.add_comment.
  rewrite first_query. destruct (fault 0%nat); [by left|].
  destruct (TasksView.owned_task current_user id s) as [x|] eqn:Ho; [|by left].
  fold content. destruct content as [|c t] eqn:Ec; [by left|].
  unfold Orm.add_comment. run_handler.
  destruct (fault 1%nat); simpl; [by left|]. right.
  split_and!; [by eexists|done|].
  exists (Orm.next_comment_id (Orm.task_comments s)).
  split; [apply next_comment_id_fresh|done].
Qed.

(** A comment added to a task goes away with the task: after
    [add_comment] and then [delete_task] on the same task (no statement
    failing), the new comment had been stored, the deletion answers with
    success, and no comment refers to the task any more. *)
Theorem comment_added_then_deleted_with_task (now later current_user id : Z)
    (form : gmap string (list N)) (s : Orm.Store) (x : Task.t) :
  Orm.tasks s !! id = Some x →
  Task.user_id x = current_user →
  Py.strip (TasksView.form_get form "content" []) ≠ [] →
  let s1 :=
    Orm.persisted
      (TasksView.add_comment (fun _ => false) now current_user id form
         (Orm.begin s)) in
  let r :=
    TasksView.delete_task (fun _ => false) later current_user id
      (Orm.begin s1) in
  (∃ k c, Orm.task_comments s !! k = None
          ∧ Orm.task_comments s1 !! k = Some c
          ∧ TaskComment.task_id c = id
          ∧ TaskComment.content c
            = Py.strip (TasksView.form_get form "content" []))
  ∧ r.1 = inr (Http.redirect "tasks.list_tasks" None Http.success)
  ∧ (∀ k c, Orm.task_comments (Orm.persisted r) !! k = Some c →
            TaskComment.task_id c ≠ id).
Proof.
  intros Hx Hu Hcontent s1 r.
  assert (TasksView.owned_task current_user id s = Some x) as Ho
    by (by apply owned_task_lookup).
  assert (s1 = Orm.mkStore (Orm.tasks s)
                 (<[Orm.next_comment_id (Orm.task_comments s) :=
                      TaskComment.mk
                        (Py.strip (TasksView.form_get form "content" []))
                        now now id current_user]> (Orm.task_comments s))
                 (Orm.task_attachments s)) as Hs1.
  { unfold s1, TasksView.add_comment. rewrite first_query, Ho.
    destruct (Py.strip (TasksView.form_get form "content" [])); [done|].
    unfold Orm.add_comment. by run_handler. }
  split_and!.
  - eexists _, _. split; [apply next_comment_id_fresh|].
    rewrite Hs1. simpl. by rewrite lookup_insert_eq.
  - destruct (delete_task_outcome (fun _ => false) later s1 id current_user)
      as [(_ & Hr & _)|(_ & _ & [Hf|Hn])]; [done|by apply never_failed in Hf|].
    assert (TasksView.owned_task current_user id s1 = Some x) as Ho1.
    { apply owned_task_lookup. by rewrite Hs1. }
    congruence.
  - destruct (delete_task_outcome (fun _ => false) later s1 id current_user)
      as [(_ & _ & Hp & _)|(_ & _ & [Hf|Hn])].
    + fold r in Hp. rewrite Hp.
      apply (delete_task_row_complete later id s1).
    + by apply never_failed in Hf.
    + assert (TasksView.owned_task current_user id s1 = Some x) as Ho1.
      { apply owned_task_lookup. by rewrite Hs1. }
      congruence.
Qed.

Lemma comment_added_then_deleted_with_task_witness :
  let s1 :=
    Orm.persisted
      (TasksView.add_comment (fun _ => false) 100 1 1
         {[ "content" := Py.lit " hi " ]} (Orm.begin Sample.store)) in
  let r := TasksView.delete_task (fun _ => false) 200 1 1 (Orm.begin s1) in
  (∃ k c, Orm.task_comments Sample.store !! k = None
          ∧ Orm.task_comments s1 !! k = Some c
          ∧ TaskComment.task_id c = 1
          ∧ TaskComment.content c
            = Py.strip
                (TasksView.form_get {[ "content" := Py.lit " hi " ]}
                   "content" []))
  ∧ r.1 = inr (Http.redirect "tasks.list_tasks" None Http.success)
  ∧ (∀ k c, Orm.task_comments (Orm.persisted r) !! k = Some c →
            TaskComment.task_id c ≠ 1).
Proof.
  apply (comment_added_then_deleted_with_task 100 200 1 1
           {[ "content" := Py.lit " hi " ]} Sample.store Sample.release).
  - reflexivity.
  - reflexivity.
  - vm_compute. discriminate.
Defined.

(** ** Editing *)

Lemma alter_as_insert {A : Type} (f : A → A) (m : gmap Z A) (i : Z) (x : A) :
  m !! i = Some x → alter f i m = <[i := f x]> m.
Proof.
  intros Hx. apply map_eq. intros j. destruct (decide (j = i)) as [->|Hne].
  - by rewrite lookup_alter_eq, lookup_insert_eq, Hx.
  - by rewrite lookup_alter_ne, lookup_insert_ne.
Qed.

Lemma set_tags_as_with_tags (l : option (list (list N))) :
  ∃ tg, Task.set_tags l = Task.with_tags tg.
Proof. destruct l as [[|? ?]|]; by eexists. Qed.

(** One step of a handler: an attribute write, a conversion. *)
Lemma bind_setattr {B : Type} (id : Z) (f : Task.t → Task.t)
    (k : unit → Orm.orm B) (c : Orm.Store) (ts : gmap Z Task.t)
    (cs : gmap Z TaskComment.t) (ats : gmap Z TaskAttachment.t) (n : nat) :
  Orm.bind (TasksView.setattr id f) k (Orm.mkSession c (Orm.mkStore ts cs ats) n)
  = k tt (Orm.mkSession c (Orm.mkStore (alter f id ts) cs ats) n).
Proof. reflexivity. Qed.

Lemma bind_lift {A B : Type} (r : Py.exn + A) (k : A → Orm.orm B)
    (σ : Orm.Session) :
  Orm.bind (Http.lift r) k σ
  = match r with inl e => (inl e, σ) | inr a => k a σ end.
Proof. unfold Orm.bind, Http.lift. by destruct r. Qed.

Lemma bind_try_except {A B : Type} (body : Orm.orm A)
    (handler : Py.exn → Orm.orm A) (k : A → Orm.orm B) (σ : Orm.Session) :
  Orm.bind (Orm.try_except body handler) k σ
  = match body σ with
    | (inl e, σ') => Orm.bind (handler e) k σ'
    | (inr a, σ') => k a σ'
    end.
Proof. unfold Orm.bind, Orm.try_except. by destruct (body σ) as [[e|a] σ']. Qed.

Lemma bind_assoc {A B C : Type} (m : Orm.orm A) (f : A → Orm.orm B)
    (k : B → Orm.orm C) (σ : Orm.Session) :
  Orm.bind (Orm.bind m f) k σ = Orm.bind m (fun a => Orm.bind (f a) k) σ.
Proof. unfold Orm.bind. by destruct (m σ) as [[e|a] σ']. Qed.

Lemma bind_ret {A B : Type} (a : A) (k : A → Orm.orm B) (σ : Orm.Session) :
  Orm.bind (Orm.ret a) k σ = k a σ.
Proof. reflexivity. Qed.

(** [edit_task] stores the whole edit or nothing.  A stored edit is on a
    task of the requesting user, carries the trimmed title of the form,
    which is not blank, the status of the form and the instant of the
    request as update timestamp; it leaves the completion flag, the
    completion timestamp, the creation timestamp, the owner and the
    parent of the task as they were (so the form can store the status
    DONE on a task whose flag stays false), and touches no other task, no
    comment and no attachment. *)
Theorem edit_task_outcome (fault : nat → bool)
    (float_of_str : list N → option spec_float)
    (int_of_str strptime_ymd : list N → option Z) (now current_user id : Z)
    (m : Http.method) (form : gmap string (list N)) (s : Orm.Store) :
  let r :=
    TasksView.edit_task fault float_of_str int_of_str strptime_ymd now
      current_user id m form (Orm.begin s) in
  Orm.persisted r = s
  ∨ ∃ x y,
      Orm.tasks s !! id = Some x
      ∧ Task.user_id x = current_user
      ∧ m = Http.POST
      ∧ Orm.persisted r
        = Orm.mkStore (<[id := y]> (Orm.tasks s)) (Orm.task_comments s)
            (Orm.task_attachments s)
      ∧ Task.title y = Py.strip (TasksView.form_get form "title" [])
      ∧ Task.title y ≠ []
      ∧ TaskStatus_of_value (TasksView.form_get form "status" (Py.lit "todo"))
        = inr (Task.status y)
      ∧ Task.updated_at y = now
      ∧ Task.is_completed y = Task.is_completed x
      ∧ Task.completed_at y = Task.completed_at x
      ∧ Task.created_at y = Task.created_at x
      ∧ Task.user_id y = Task.user_id x
      ∧ Task.parent_task_id y = Task.parent_task_id x.
Proof.
  intros r. subst r. unfold TasksView.edit_task. rewrite first_query.
  destruct (fault 0%nat); [by left|].
  destruct (TasksView.owned_task current_user id s) as [x|] eqn:Ho; [|by left].
  apply owned_task_lookup in Ho as [Hx Hu].
  destruct m.
  { unfold TasksView.edit_form. run_handler. by destruct (fault 1%nat); left. }
  destruct s as [ts cs ats]. simpl in Hx.
  do 2 (rewrite bind_setattr; cbv beta).
  rewrite bind_lift.
  destruct (TaskPriority_of_value _) as [e|p] eqn:Ep; [by left|].
  rewrite bind_setattr; cbv beta. rewrite bind_lift.
  destruct (TaskStatus_of_value _) as [e|st] eqn:Est; [by left|].
  do 6 (rewrite bind_setattr; cbv beta).
  destruct (set_tags_as_with_tags
              (Some
                 (Py.strip <$>
                  filter (λ tag : list N, Py.truthy (Py.strip tag) = true)
                    (Py.split Py.comma
                       (Py.strip (TasksView.form_get form "tags" []))))))
    as [tg ->].
  assert (∃ tg',
    (if Py.truthy (Py.strip (TasksView.form_get form "tags" []))
     then TasksView.setattr id (Task.with_tags tg)
     else TasksView.setattr id (Task.with_tags (Some [])))
    = TasksView.setattr id (Task.with_tags tg')) as [tg' ->]
    by (destruct (Py.truthy _); by eexists).
  rewrite bind_setattr; cbv beta.
  rewrite (alter_as_insert _ _ _ x Hx), !alter_insert_eq.
  destruct (Py.strip (TasksView.form_get form "title" [])) as [|c t] eqn:Et;
    [by left|].
  cbn [Py.truthy negb]. rewrite bind_try_except.
  rewrite bind_setattr; cbv beta. rewrite alter_insert_eq.
  match goal with |- context [<[id := ?z]> ts] => set (y := z) end.
  set (v := <[id := y]> ts).
  unfold TasksView.edit_form. run_handler.
  destruct (fault 1%nat); simpl.
  { destruct (fault 2%nat); simpl; by left. }
  right. exists x, y.
  destruct (fault 2%nat); simpl; [destruct (fault 3%nat); simpl|];
    by split_and!.
Qed.

(** ** Values outside the enumerations *)

Lemma TaskPriority_of_value_unknown (v : list N) :
  (∀ p, v ≠ TaskPriority_value p) → TaskPriority_of_value v = inl Py.ValueError.
Proof.
  intros Hv. unfold TaskPriority_of_value.
  repeat case_decide; try done.
  - by destruct (Hv LOW).
  - by destruct (Hv MEDIUM).
  - by destruct (Hv HIGH).
  - by destruct (Hv URGENT).
Qed.

Lemma TaskStatus_of_value_unknown (v : list N) :
  (∀ st, v ≠ TaskStatus_value st) → TaskStatus_of_value v = inl Py.ValueError.
Proof.
  intros Hv. unfold TaskStatus_of_value.
  repeat case_decide; try done.
  - by destruct (Hv TODO).
  - by destruct (Hv IN_PROGRESS).
  - by destruct (Hv REVIEW).
  - by destruct (Hv DONE).
Qed.

(** A form whose priority is none of the four values is answered
    differently by the two forms.  [create_task] converts it inside its
    [try] block: the create page comes back with an error.  [edit_task]
    converts it before its [try] block: the [ValueError] leaves the
    handler.  Neither stores anything. *)
Theorem unknown_priority_on_the_forms
    (float_of_str : list N → option spec_float)
    (int_of_str strptime_ymd : list N → option Z) (now current_user id : Z)
    (form : gmap string (list N)) (s : Orm.Store) :
  (∀ p, TasksView.form_get form "priority" (Py.lit "medium")
        ≠ TaskPriority_value p) →
  Py.strip (TasksView.form_get form "title" []) ≠ [] →
  TasksView.form_get form "due_date" [] = []
  ∨ is_Some (strptime_ymd (TasksView.form_get form "due_date" [])) →
  is_Some (TasksView.owned_task current_user id s) →
  let created :=
    TasksView.create_task (fun _ => false) float_of_str int_of_str
      strptime_ymd now current_user Http.POST form (Orm.begin s) in
  let edited :=
    TasksView.edit_task (fun _ => false) float_of_str int_of_str strptime_ymd
      now current_user id Http.POST form (Orm.begin s) in
  created.1 = inr (Http.render_template "tasks/create.html" (Some Http.error))
  ∧ Orm.persisted created = s
  ∧ edited.1 = inl Py.ValueError
  ∧ Orm.persisted edited = s.
Proof.
  intros Hp Htitle Hdue [x Ho] created edited.
  apply TaskPriority_of_value_unknown in Hp.
  assert (created
          = (inr (Http.render_template "tasks/create.html" (Some Http.error)),
             Orm.mkSession s s 2)) as ->.
  { unfold created, TasksView.create_task. rewrite Hp.
    destruct (Py.strip (TasksView.form_get form "title" [])) as [|c t]; [done|].
    cbn [Py.truthy negb].
    assert (∃ due,
      (if Py.truthy (TasksView.form_get form "due_date" [])
       then match strptime_ymd (TasksView.form_get form "due_date" []) with
            | Some d => inr (Some d)
            | None => inl Py.ValueError
            end
       else inr None) = inr due) as [due ->].
    { destruct Hdue as [->|[d ->]]; [by eexists|].
      destruct (Py.truthy _); by eexists. }
    rewrite bind_try_except, bind_lift. unfold TasksView.create_form.
    by run_handler. }
  assert (edited = (inl Py.ValueError,
                    Orm.mkSession s
                      (Orm.mkStore
                         (alter
                            (Task.with_description
                               (Some (Py.strip
                                        (TasksView.form_get form "description"
                                           []))))
                            id
                            (alter
                               (Task.with_title
                                  (Py.strip
                                     (TasksView.form_get form "title" [])))
                               id (Orm.tasks s)))
                         (Orm.task_comments s) (Orm.task_attachments s)) 1))
    as ->; [|done].
  unfold edited, TasksView.edit_task. rewrite first_query, Ho.
  destruct s as [ts cs ats].
  do 2 (rewrite bind_setattr; cbv beta). by rewrite bind_lift, Hp.
Qed.

Lemma unknown_priority_on_the_forms_witness :
  let form : gmap string (list N) :=
    {[ "title" := Py.lit "Ship"; "priority" := Py.lit "critical" ]} in
  let created :=
    TasksView.create_task (fun _ => false) (fun _ => None) (fun _ => None)
      (fun _ => None) 100 1 Http.POST form (Orm.begin Sample.store) in
  let edited :=
    TasksView.edit_task (fun _ => false) (fun _ => None) (fun _ => None)
      (fun _ => None) 100 1 1 Http.POST form (Orm.begin Sample.store) in
  created.1 = inr (Http.render_template "tasks/create.html" (Some Http.error))
  ∧ Orm.persisted created = Sample.store
  ∧ edited.1 = inl Py.ValueError
  ∧ Orm.persisted edited = Sample.store.
Proof.
  apply (unknown_priority_on_the_forms (fun _ => None) (fun _ => None)
           (fun _ => None) 100 1 1
           {[ "title" := Py.lit "Ship"; "priority" := Py.lit "critical" ]}
           Sample.store).
  - intros []; vm_compute; discriminate.
  - vm_compute. discriminate.
  - left. vm_compute. reflexivity.
  - vm_compute. by eexists.
Defined.

(** On the API a priority or a status outside the enumeration is a
    client error: [api_update_task] answers 400 and stores nothing, also
    none of the fields of the same request that were assigned before the
    conversion failed. *)
Theorem api_update_task_rejects_unknown_values (fault : nat → bool)
    (fromisoformat : list N → option Z) (now current_user task_id : Z)
    (data : Http.task_json) (s : Orm.Store) :
  fault 0%nat = false →
  is_Some (TasksView.owned_task current_user task_id s) →
  (∃ v, Http.json_priority data = Some v ∧ ∀ p, v ≠ TaskPriority_value p)
  ∨ (∃ v, Http.json_status data = Some v ∧ ∀ st, v ≠ TaskStatus_value st) →
  let r :=
    ApiView.api_update_task fault fromisoformat now current_user task_id data
      (Orm.begin s) in
  r.1 = inr (Http.api_response Http.no_data 400 false)
  ∧ Orm.persisted r = s.
Proof.
  intros Hf [x Ho] Hbad r. subst r.
  unfold ApiView.api_update_task. rewrite first_query, Hf, Ho.
  assert (ApiView.no_keys data = false) as ->.
  { destruct data as [[?|] [?|] [?|] [?|]]; try done.
    simpl in Hbad. by destruct Hbad as [(? & ? & _)|(? & ? & _)]. }
  destruct s as [ts cs ats]. unfold Orm.try_except.
  destruct data as [ti de pr st ic eh ah ca pi pa ta du].
  cbn [Http.json_title Http.json_description Http.json_priority
       Http.json_status Http.json_is_completed Http.json_estimated_hours
       Http.json_actual_hours Http.json_category Http.json_project_id
       Http.json_parent_task_id Http.json_tags Http.json_due_date] in *.
  assert (∀ B (k : unit → Orm.orm B) c0 ts0 n,
    ∃ ts1,
      Orm.bind
        (ApiView.when_present ti (fun v =>
           TasksView.setattr task_id (Task.with_title v))) k
        (Orm.mkSession c0 (Orm.mkStore ts0 cs ats) n)
      = k tt (Orm.mkSession c0 (Orm.mkStore ts1 cs ats) n)) as Hti.
  { intros. destruct ti; simpl; [rewrite bind_setattr|]; by eexists. }
  assert (∀ B (k : unit → Orm.orm B) c0 ts0 n,
    ∃ ts1,
      Orm.bind
        (ApiView.when_present de (fun v =>
           TasksView.setattr task_id (Task.with_description (Some v)))) k
        (Orm.mkSession c0 (Orm.mkStore ts0 cs ats) n)
      = k tt (Orm.mkSession c0 (Orm.mkStore ts1 cs ats) n)) as Hde.
  { intros. destruct de; simpl; [rewrite bind_setattr|]; by eexists. }
  edestruct Hti as [ts1 ->]. cbv beta.
  edestruct Hde as [ts2 ->]. cbv beta.
  destruct Hbad as [(v & -> & Hv)|(v & -> & Hv)].
  - apply TaskPriority_of_value_unknown in Hv.
    cbn [ApiView.when_present]. by rewrite bind_assoc, bind_lift, Hv.
  - apply TaskStatus_of_value_unknown in Hv.
    destruct pr as [w|]; cbn [ApiView.when_present].
    + rewrite bind_assoc, bind_lift.
      destruct (TaskPriority_of_value w) as [e|p] eqn:Ew.
      { unfold TaskPriority_of_value in Ew.
        by repeat case_decide; simplify_eq. }
      rewrite bind_setattr. by rewrite bind_assoc, bind_lift, Hv.
    + rewrite bind_ret. by rewrite bind_assoc, bind_lift, Hv.
Qed.

(** ** Updates through the API *)

Section Editing.

Import Orm Http.
Local Open Scope orm_scope.

Variable fault : nat → bool.
Variable id : Z.
Variable s : Store.
Variable epost : Py.exn → Session → Prop.

Hypothesis epost_unchanged : ∀ e σ, committed σ = s → epost e σ.

Implicit Types (R Q : Task.t → Prop).

Lemma setattr_editing R Q (f : Task.t → Task.t) :
  (∀ y, R y → Q (f y)) →
  triple (Spec.editing id s R) (TasksView.setattr id f)
    (fun _ => Spec.editing id s Q) epost.
Proof.
  intros Hf σ (Hc & y & Hy & Hv). unfold TasksView.setattr, update. simpl.
  split; [done|]. exists (f y). split; [by apply Hf|].
  rewrite Hv. simpl. by rewrite alter_insert_eq.
Qed.

Lemma convert_setattr_editing {A : Type} R (r : Py.exn + A)
    (f : A → Task.t → Task.t) :
  (∀ a y, R y → R (f a y)) →
  triple (Spec.editing id s R)
    (let* a := lift r in TasksView.setattr id (f a))
    (fun _ => Spec.editing id s R) epost.
Proof.
  intros Hf. apply (triple_bind _ (fun _ => Spec.editing id s R)).
  - intros σ H. unfold lift. destruct r as [e|a].
    + apply epost_unchanged, H.
    + exact H.
  - intros a. simpl. apply setattr_editing. apply Hf.
Qed.

Lemma when_present_editing {A : Type} R (v : option A) (body : A → orm unit) :
  (∀ a, triple (Spec.editing id s R) (body a)
          (fun _ => Spec.editing id s R) epost) →
  triple (Spec.editing id s R) (ApiView.when_present v body)
    (fun _ => Spec.editing id s R) epost.
Proof. intros Hb. destruct v as [a|]; simpl; [apply Hb|by intros σ H]. Qed.

Lemma commit_editing R :
  triple (Spec.editing id s R) (commit fault)
    (fun _ => Spec.edit_stored id s R) epost.
Proof.
  intros σ (Hc & y & Hy & Hv). unfold commit, roundtrip, bind. simpl.
  destruct (fault (roundtrips σ)); [by apply epost_unchanged|].
  by exists y.
Qed.

End Editing.

Lemma assign_is_completed_frame (now : Z) (v : bool) (y : Task.t) :
  Task.created_at (Task.assign_is_completed now v y) = Task.created_at y
  ∧ Task.user_id (Task.assign_is_completed now v y) = Task.user_id y
  ∧ Task.parent_task_id (Task.assign_is_completed now v y)
    = Task.parent_task_id y.
Proof. by destruct y as [? ? ? ? []], v. Qed.

(** [api_update_task] stores the whole update or nothing, whichever
    statement or conversion fails.  A stored update is on a task of the
    requesting user and carries the instant of the request as update
    timestamp; no body moves the task to another owner or another parent
    or changes its creation timestamp, and no other task, no comment and
    no attachment is touched. *)
Theorem api_update_task_frame (fault : nat → bool)
    (fromisoformat : list N → option Z) (now current_user task_id : Z)
    (data : Http.task_json) (s : Orm.Store) :
  let r :=
    ApiView.api_update_task fault fromisoformat now current_user task_id data
      (Orm.begin s) in
  Orm.persisted r = s
  ∨ ∃ x y,
      Orm.tasks s !! task_id = Some x
      ∧ Task.user_id x = current_user
      ∧ Orm.persisted r
        = Orm.mkStore (<[task_id := y]> (Orm.tasks s)) (Orm.task_comments s)
            (Orm.task_attachments s)
      ∧ Task.updated_at y = now
      ∧ Task.created_at y = Task.created_at x
      ∧ Task.user_id y = Task.user_id x
      ∧ Task.parent_task_id y = Task.parent_task_id x.
Proof.
  intros r. subst r. unfold ApiView.api_update_task. rewrite first_query.
  destruct (fault 0%nat); [by left|].
  destruct (TasksView.owned_task current_user task_id s) as [x|] eqn:Ho;
    [|by left].
  apply owned_task_lookup in Ho as [Hx Hu].
  destruct (ApiView.no_keys data); [by left|].
  set (R := fun y : Task.t =>
              Task.created_at y = Task.created_at x
              ∧ Task.user_id y = Task.user_id x
              ∧ Task.parent_task_id y = Task.parent_task_id x).
  set (Q := fun y : Task.t => Task.updated_at y = now ∧ R y).
  set (E := fun σ : Orm.Session =>
              Orm.committed σ = s ∨ Spec.edit_stored task_id s Q σ).
  match goal with
  | |- context [Orm.try_except ?b ?h ?σ] =>
      assert (Orm.triple (Spec.editing task_id s R) (Orm.try_except b h)
                (fun _ => E) (fun _ => E)) as Htriple
  end.
  { apply triple_try with (fun _ => E).
    - assert (∀ (e : Py.exn) σ, Orm.committed σ = s → E σ) as HE
        by (intros; by left).
      eapply triple_bind.
      { apply when_present_editing. intros ?.
        apply setattr_editing. intros y Hy. exact Hy. }
      intros ?. eapply triple_bind.
      { apply when_present_editing. intros ?.
        apply setattr_editing. intros y Hy. exact Hy. }
      intros ?. eapply triple_bind.
      { apply when_present_editing. intros ?.
        apply (convert_setattr_editing task_id s _ HE R _ Task.with_priority).
        intros p y Hy. exact Hy. }
      intros ?. eapply triple_bind.
      { apply when_present_editing. intros ?.
        apply (convert_setattr_editing task_id s _ HE R _ Task.with_status).
        intros p y Hy. exact Hy. }
      intros ?. eapply triple_bind.
      { apply when_present_editing. intros v.
        apply setattr_editing. intros y (H1 & H2 & H3).
        destruct (assign_is_completed_frame now v y) as (E1 & E2 & E3).
        unfold R. by rewrite E1, E2, E3. }
      intros ?. eapply triple_bind.
      { apply when_present_editing. intros ?.
        apply (convert_setattr_editing task_id s _ HE R _
                 Task.with_estimated_hours).
        intros p y Hy. exact Hy. }
      intros ?. eapply triple_bind.
      { apply when_present_editing. intros ?.
        apply (convert_setattr_editing task_id s _ HE R _
                 Task.with_actual_hours).
        intros p y Hy. exact Hy. }
      intros ?. eapply triple_bind.
      { apply when_present_editing. intros ?.
        apply setattr_editing. intros y Hy. exact Hy. }
      intros ?. eapply triple_bind.
      { apply when_present_editing. intros ?.
        apply setattr_editing. intros y Hy. exact Hy. }
      intros ?. eapply triple_bind.
      { apply when_present_editing. intros tl.
        destruct (set_tags_as_with_tags (Some tl)) as [tg ->].
        apply setattr_editing. intros y Hy. exact Hy. }
      intros ?. eapply triple_bind.
      { apply when_present_editing. intros dd. destruct (Py.truthy dd).
        - apply (convert_setattr_editing task_id s _ HE R _
                   (fun d => Task.with_due_date (Some d))).
          intros p y Hy. exact Hy.
        - apply setattr_editing. intros y Hy. exact Hy. }
      intros ?. eapply triple_bind.
      { apply (setattr_editing task_id s _ R Q). intros y Hy. by split. }
      intros ?. eapply triple_bind.
      { apply (commit_editing fault task_id s _ HE). }
      intros ?. eapply (triple_bind _ (fun _ => Spec.edit_stored task_id s Q)).
      { intros σ H. unfold Orm.query, Orm.roundtrip, Orm.bind. simpl.
        destruct (fault (Orm.roundtrips σ)); [by right|done]. }
      intros [d|]; intros σ H; simpl; by right.
    - intros e σ H. destruct e; simpl; exact H. }
  assert (Spec.editing task_id s R (Orm.mkSession s s 1)) as Hstart.
  { split; [done|]. exists x. split; [done|]. simpl.
    rewrite insert_id by done. by destruct s. }
  specialize (Htriple _ Hstart). unfold Orm.persisted.
  destruct (Orm.try_except _ _ _) as [[e|a] σ']; simpl;
    (destruct Htriple as [?|(y & (Hy & H1 & H2 & H3) & Hc)];
       [by left|right; by exists x, y]).
Qed.

Lemma api_update_task_rejects_unknown_values_witness :
  let r :=
    ApiView.api_update_task (fun _ => false) (fun _ => None) 100 1 1
      (Http.mk_task_json (Some (Py.lit "Ship")) None (Some (Py.lit "critical"))
         None None None None None None None None None)
      (Orm.begin Sample.store) in
  r.1 = inr (Http.api_response Http.no_data 400 false)
  ∧ Orm.persisted r = Sample.store.
Proof.
  apply (api_update_task_rejects_unknown_values (fun _ => false)
           (fun _ => None) 100 1 1
           (Http.mk_task_json (Some (Py.lit "Ship")) None
              (Some (Py.lit "critical")) None None None None None None None
              None None)
           Sample.store).
  - reflexivity.
  - vm_compute. by eexists.
  - left. exists (Py.lit "critical"). split; [reflexivity|].
    intros []; vm_compute; discriminate.
Defined.

(** ** The task list of the API *)

Global Instance newer_transitive : Transitive ApiView.newer.
Proof. intros a b c. unfold ApiView.newer. lia. Qed.

Global Instance newer_total : Total ApiView.newer.
Proof. intros a b. unfold ApiView.newer. lia. Qed.

Lemma sublist_strongly_sorted {A : Type} (R : relation A) (l1 l2 : list A) :
  l1 `sublist_of` l2 → StronglySorted R l2 → StronglySorted R l1.
Proof.
  induction 1 as [|x l1 l2 Hsub IH|x l1 l2 Hsub IH]; intros Hs.
  - constructor.
  - apply StronglySorted_inv in Hs as [Hs Hx]. constructor; [by apply IH|].
    rewrite Forall_forall in *. intros y Hy. apply Hx.
    by apply (elem_of_sublist l1).
  - apply StronglySorted_inv in Hs as [Hs _]. by apply IH.
Qed.

Lemma sublist_fmap_fst {A B : Type} (l1 l2 : list (A * B)) :
  l1 `sublist_of` l2 → l1.*1 `sublist_of` l2.*1.
Proof. induction 1; simpl; by constructor. Qed.

Lemma paginate_sublist {A : Type} (page per_page : Z) (rows : list A) :
  ApiView.paginate page per_page rows `sublist_of` rows.
Proof.
  unfold ApiView.paginate. etrans; [apply sublist_take|apply sublist_drop].
Qed.

(** [api_get_tasks] reads and never writes.  The entries of its [tasks]
    array are tasks of the requesting user as they are stored, newest
    first, none of them twice; with the filter [status=completed] (or
    [pending]) every entry is complete (or incomplete).  None of this
    holds of the subtasks nested under an entry when the request asks for
    them: they are exactly the stored tasks whose parent is the entry,
    whoever owns them and whatever the filter is; without that request
    nothing is nested. *)
Theorem api_get_tasks_lists_own_tasks (fault : nat → bool)
    (int_of_str : list N → option Z) (lower : list N → list N)
    (current_user : Z) (args : gmap string (list N)) (s : Orm.Store) :
  let r :=
    ApiView.api_get_tasks fault int_of_str lower current_user args
      (Orm.begin s) in
  Orm.persisted r = s
  ∧ ∀ l p status ok,
      r.1 = inr (Http.api_response (Http.tasks_data l p) status ok) →
      Forall (fun d => Orm.tasks s !! Task.dict_id d = Some (Task.dict_row d)
                       ∧ Task.user_id (Task.dict_row d) = current_user) l
      ∧ StronglySorted
          (fun d1 d2 => Task.created_at (Task.dict_row d2)
                        ≤ Task.created_at (Task.dict_row d1)) l
      ∧ NoDup (Task.dict_id <$> l)
      ∧ (args !! "status" = Some (Py.lit "completed") →
         Forall (fun d => Task.is_completed (Task.dict_row d) = true) l)
      ∧ (args !! "status" = Some (Py.lit "pending") →
         Forall (fun d => Task.is_completed (Task.dict_row d) = false) l)
      ∧ Forall
          (fun d =>
             Task.dict_subtasks d
             = if bool_decide
                    (lower (TasksView.form_get args "include_subtasks"
                              (Py.lit "false")) = Py.lit "true")
               then Some (Task.subtasks (Orm.tasks s) (Task.dict_id d))
               else None) l.
Proof.
  intros r. subst r. unfold ApiView.api_get_tasks. rewrite first_query.
  set (sel := ApiView.selected current_user (args !! "status")
                (args !! "priority") _).
  set (rows := ApiView.newest_first _).
  set (items := ApiView.paginate _ _ rows).
  set (inc := bool_decide _).
  assert (items `sublist_of` rows) as Hitems by apply paginate_sublist.
  assert (rows ≡ₚ filter (fun kv : Z * Task.t => sel kv.2 = true)
                    (map_to_list (Orm.tasks s))) as Hrows
    by apply merge_sort_Permutation.
  assert (∀ kv, kv ∈ items →
                Orm.tasks s !! kv.1 = Some kv.2 ∧ sel kv.2 = true) as Hin.
  { intros kv Hkv. apply (elem_of_sublist _ _ _ Hkv) in Hitems.
    rewrite Hrows in Hitems. apply list_elem_of_filter in Hitems as [Hs Hm].
    split; [|done]. destruct kv as [k y]. by apply elem_of_map_to_list. }
  destruct (fault 0%nat); [done|]. run_handler.
  destruct (fault 1%nat); simpl; [done|]. split; [done|].
  intros l p status ok [= <- _ _ _]. split_and!.
  - apply Forall_fmap, Forall_forall. intros kv Hkv. simpl.
    destruct (Hin kv Hkv) as [Hl Hs]. split; [done|].
    unfold sel, ApiView.selected in Hs.
    rewrite !andb_true_iff in Hs. destruct Hs as [[[Hs _] _] _].
    by apply bool_decide_eq_true in Hs.
  - apply (StronglySorted_fmap _ ApiView.newer); [by intros ? ?|].
    apply (sublist_strongly_sorted _ _ rows Hitems).
    apply StronglySorted_merge_sort; apply _.
  - rewrite <- list_fmap_compose.
    change (Task.dict_id ∘ Task.to_dict (Orm.tasks s) inc <$> items)
      with (items.*1).
    apply (sublist_NoDup _ (rows.*1)); [|by apply sublist_fmap_fst].
    rewrite Hrows.
    apply (sublist_NoDup _ ((map_to_list (Orm.tasks s)).*1));
      [apply NoDup_fst_map_to_list|].
    apply sublist_fmap_fst, sublist_filter.
  - intros Hst. apply Forall_fmap, Forall_forall. intros kv Hkv. simpl.
    destruct (Hin kv Hkv) as [_ Hs]. unfold sel, ApiView.selected in Hs.
    rewrite Hst in Hs. rewrite !andb_true_iff in Hs.
    destruct Hs as [[[_ Hs] _] _]. by rewrite decide_True in Hs.
  - intros Hst. apply Forall_fmap, Forall_forall. intros kv Hkv. simpl.
    destruct (Hin kv Hkv) as [_ Hs]. unfold sel, ApiView.selected in Hs.
    rewrite Hst in Hs. rewrite !andb_true_iff in Hs.
    destruct Hs as [[[_ Hs] _] _].
    rewrite decide_False, decide_True in Hs by done.
    by apply negb_true_iff in Hs.
  - apply Forall_fmap, Forall_forall. intros kv Hkv. simpl.
    unfold inc. by case_bool_decide.
Qed.

(** ** Deletion *)

Lemma delete_task_row_frame (now id : Z) (s : Orm.Store) :
  (∀ k x, k ≠ id → Orm.tasks s !! k = Some x →
          Orm.tasks (Orm.delete_task_row now id s) !! k
          = Some (Orm.detach now id x))
  ∧ (∀ k, Orm.tasks s !! k = None →
          Orm.tasks (Orm.delete_task_row now id s) !! k = None)
  ∧ (∀ k c, TaskComment.task_id c ≠ id →
            Orm.task_comments (Orm.delete_task_row now id s) !! k = Some c
            ↔ Orm.task_comments s !! k = Some c)
  ∧ (∀ k a, TaskAttachment.task_id a ≠ id →
            Orm.task_attachments (Orm.delete_task_row now id s) !! k = Some a
            ↔ Orm.task_attachments s !! k = Some a).
Proof.
  unfold Orm.delete_task_row. simpl. split_and!.
  - intros k x Hne Hx. by rewrite lookup_delete_ne, lookup_fmap, Hx.
  - intros k Hk. destruct (decide (k = id)) as [->|Hne].
    + apply lookup_delete_eq.
    + by rewrite lookup_delete_ne, lookup_fmap, Hk.
  - intros k c Hc. rewrite map_lookup_filter_Some.
    split; [by intros [? _]|by intros ?; split].
  - intros k a Ha. rewrite map_lookup_filter_Some.
    split; [by intros [? _]|by intros ?; split].
Qed.

Lemma own_parent_lookup (id : Z) (s : Orm.Store) (x : Task.t) :
  Orm.tasks s !! id = Some x →
  Orm.own_parent id s ↔ Task.parent_task_id x = Some id.
Proof.
  intros Hx. unfold Orm.own_parent. split.
  - intros (y & Hy & Hp). congruence.
  - intros Hp. by exists x.
Qed.

(** When the user deletes one of their tasks and no statement fails, the
    web handler answers with success and leaves the task gone, each of
    its subtasks kept and detached (null parent, update timestamp set to
    the instant of the deletion), and no task, comment or attachment that
    refers to the deleted id.  The API handler does the same for a task
    that is not its own parent; for a task that is its own parent it
    answers 500 and changes nothing. *)
Theorem delete_cascade_complete (now current_user id : Z) (s : Orm.Store)
    (x : Task.t) :
  Orm.tasks s !! id = Some x →
  Task.user_id x = current_user →
  let web :=
    TasksView.delete_task (fun _ => false) now current_user id (Orm.begin s) in
  let api :=
    ApiView.api_delete_task (fun _ => false) now current_user id
      (Orm.begin s) in
  (web.1 = inr (Http.redirect "tasks.list_tasks" None Http.success)
   ∧ Spec.cascade_complete now id s (Orm.persisted web))
  ∧ (Task.parent_task_id x ≠ Some id →
     api.1 = inr (Http.api_response Http.no_data 200 true)
     ∧ Spec.cascade_complete now id s (Orm.persisted api))
  ∧ (Task.parent_task_id x = Some id →
     api.1 = inr (Http.api_response Http.no_data 500 false)
     ∧ Orm.persisted api = s).
Proof.
  intros Hx Hu web api.
  assert (TasksView.owned_task current_user id s = Some x) as Ho
    by (by apply owned_task_lookup).
  split; [|split].
  - destruct (delete_task_outcome (fun _ => false) now s id current_user)
      as [(_ & Hr & Hp & _)|(_ & _ & [Hf|Hn])].
    + fold web in Hr, Hp. rewrite Hp. split; [done|].
      apply delete_task_row_complete.
    + by apply never_failed in Hf.
    + congruence.
  - intros Hpx.
    destruct (api_delete_task_outcome (fun _ => false) now s id current_user)
      as [(_ & _ & Hr & Hp & _)|(_ & _ & [Hf|[Hn|[Hown _]]])].
    + fold api in Hr, Hp. rewrite Hp. split; [done|].
      apply delete_task_row_complete.
    + by apply never_failed in Hf.
    + congruence.
    + by apply (own_parent_lookup id s x Hx) in Hown.
  - intros Hpx.
    destruct (api_delete_task_outcome (fun _ => false) now s id current_user)
      as [(_ & Hown & _)|(Hp & _ & [Hf|[Hn|[_ Hr]]])].
    + destruct Hown. by apply (own_parent_lookup id s x Hx).
    + by apply never_failed in Hf.
    + congruence.
    + split; [|done]. apply Hr. intros n _. done.
Qed.

Lemma delete_cascade_complete_witness :
  let web :=
    TasksView.delete_task (fun _ => false) 100 1 1 (Orm.begin Sample.store) in
  let api :=
    ApiView.api_delete_task (fun _ => false) 100 1 1 (Orm.begin Sample.store) in
  (web.1 = inr (Http.redirect "tasks.list_tasks" None Http.success)
   ∧ Spec.cascade_complete 100 1 Sample.store (Orm.persisted web))
  ∧ (Task.parent_task_id Sample.release ≠ Some 1 →
     api.1 = inr (Http.api_response Http.no_data 200 true)
     ∧ Spec.cascade_complete 100 1 Sample.store (Orm.persisted api))
  ∧ (Task.parent_task_id Sample.release = Some 1 →
     api.1 = inr (Http.api_response Http.no_data 500 false)
     ∧ Orm.persisted api = Sample.store).
Proof.
  apply (delete_cascade_complete 100 1 1 Sample.store Sample.release);
    reflexivity.
Defined.

(** The two ways of deleting a task leave the same database when no
    statement fails and the task is not its own parent: the web handler,
    which detaches the subtasks and deletes comments and attachments one
    by one, and the API handler, which leaves the cascade to the
    relationships of the model. *)
Theorem delete_handlers_agree (now current_user id : Z) (s : Orm.Store) :
  ¬ Orm.own_parent id s →
  Orm.persisted
    (TasksView.delete_task (fun _ => false) now current_user id (Orm.begin s))
  = Orm.persisted
      (ApiView.api_delete_task (fun _ => false) now current_user id
         (Orm.begin s)).
Proof.
  intros Hown.
  destruct (delete_task_outcome (fun _ => false) now s id current_user)
    as [(Ho & _ & -> & _)|(-> & _ & [Hf|Hn])];
    destruct (api_delete_task_outcome (fun _ => false) now s id current_user)
      as [(Ho' & _ & _ & -> & _)|(-> & _ & [Hf'|[Hn'|[Hown' _]]])];
    try done; try (by apply never_failed in Hf);
    try (by apply never_failed in Hf').
  - rewrite Hn' in Ho. by destruct Ho.
  - rewrite Hn in Ho'. by destruct Ho'.
Qed.

Lemma delete_handlers_agree_witness :
  Orm.persisted
    (TasksView.delete_task (fun _ => false) 100 1 1 (Orm.begin Sample.store))
  = Orm.persisted
      (ApiView.api_delete_task (fun _ => false) 100 1 1
         (Orm.begin Sample.store)).
Proof.
  apply (delete_handlers_agree 100 1 1 Sample.store).
  apply (bool_decide_unpack (¬ Orm.own_parent 1 Sample.store)).
  vm_compute. exact I.
Defined.

(** A deletion removes one task and nothing else, whichever handler runs
    it and whatever fails: every other task is still there afterwards,
    the same, or detached if it was a subtask of the deleted task (null
    parent and the instant of the deletion as update timestamp: the
    subtasks are kept, not deleted); no task appears, and the comments
    and attachments of other tasks are exactly those there were. *)
Theorem delete_keeps_everything_else (fault : nat → bool)
    (now current_user id : Z) (s : Orm.Store) :
  ∀ s',
    s' = Orm.persisted
           (TasksView.delete_task fault now current_user id (Orm.begin s))
    ∨ s' = Orm.persisted
             (ApiView.api_delete_task fault now current_user id (Orm.begin s)) →
    (∀ k x, k ≠ id → Orm.tasks s !! k = Some x →
            Orm.tasks s' !! k = Some x
            ∨ (Task.parent_task_id x = Some id
               ∧ Orm.tasks s' !! k = Some (Orm.detach_row now x)))
    ∧ (∀ k, Orm.tasks s !! k = None → Orm.tasks s' !! k = None)
    ∧ (∀ k c, TaskComment.task_id c ≠ id →
              Orm.task_comments s' !! k = Some c
              ↔ Orm.task_comments s !! k = Some c)
    ∧ (∀ k a, TaskAttachment.task_id a ≠ id →
              Orm.task_attachments s' !! k = Some a
              ↔ Orm.task_attachments s !! k = Some a).
Proof.
  intros s' Hs'.
  assert (s' = s ∨ s' = Orm.delete_task_row now id s) as [->| ->].
  { destruct Hs' as [-> | ->].
    - destruct (delete_task_outcome fault now s id current_user)
        as [(_ & _ & -> & _)|(-> & _)]; auto.
    - destruct (api_delete_task_outcome fault now s id current_user)
        as [(_ & _ & _ & -> & _)|(-> & _)]; auto. }
  - split_and!; [by left|done..].
  - destruct (delete_task_row_frame now id s) as (Ht & Hn & Hc & Ha).
    split_and!; [|done..]. intros k x Hne Hx. rewrite (Ht k x Hne Hx).
    unfold Orm.detach. case_decide; [by right|by left].
Qed.

Lemma delete_keeps_everything_else_witness :
  let s' :=
    Orm.persisted
      (TasksView.delete_task (fun _ => false) 100 1 1
         (Orm.begin Sample.store)) in
  (∀ k x, k ≠ 1 → Orm.tasks Sample.store !! k = Some x →
          Orm.tasks s' !! k = Some x
          ∨ (Task.parent_task_id x = Some 1
             ∧ Orm.tasks s' !! k = Some (Orm.detach_row 100 x)))
  ∧ (∀ k, Orm.tasks Sample.store !! k = None → Orm.tasks s' !! k = None)
  ∧ (∀ k c, TaskComment.task_id c ≠ 1 →
            Orm.task_comments s' !! k = Some c
            ↔ Orm.task_comments Sample.store !! k = Some c)
  ∧ (∀ k a, TaskAttachment.task_id a ≠ 1 →
            Orm.task_attachments s' !! k = Some a
            ↔ Orm.task_attachments Sample.store !! k = Some a).
Proof.
  apply (delete_keeps_everything_else (fun _ => false) 100 1 1 Sample.store).
  left. reflexivity.
Defined.

Lemma owned_task_deleted (now current_user id : Z) (s : Orm.Store) :
  TasksView.owned_task current_user id (Orm.delete_task_row now id s) = None.
Proof.
  unfold TasksView.owned_task, Orm.delete_task_row. simpl.
  by rewrite lookup_delete_eq.
Qed.

(** A deleted task is gone for the handlers that follow: once
    [api_delete_task] has answered 200, reading the task, updating it,
    deleting it again and toggling it all answer 404, and none of them
    changes the database. *)
Theorem deleted_task_is_not_found (fault : nat → bool)
    (now current_user id : Z) (s : Orm.Store) :
  let deleted :=
    ApiView.api_delete_task fault now current_user id (Orm.begin s) in
  let s1 := Orm.persisted deleted in
  deleted.1 = inr (Http.api_response Http.no_data 200 true) →
  (∀ lower args,
     let r :=
       ApiView.api_get_task (fun _ => false) lower current_user id args
         (Orm.begin s1) in
     r.1 = inr (Http.api_response Http.no_data 404 false)
     ∧ Orm.persisted r = s1)
  ∧ (∀ fromisoformat later data,
       let r :=
         ApiView.api_update_task (fun _ => false) fromisoformat later
           current_user id data (Orm.begin s1) in
       r.1 = inr (Http.api_response Http.no_data 404 false)
       ∧ Orm.persisted r = s1)
  ∧ (∀ later,
       let r :=
         ApiView.api_delete_task (fun _ => false) later current_user id
           (Orm.begin s1) in
       r.1 = inr (Http.api_response Http.no_data 404 false)
       ∧ Orm.persisted r = s1)
  ∧ (∀ depth later is_json,
       let r :=
         TasksView.toggle_complete (fun _ => false) depth later current_user
           id is_json (Orm.begin s1) in
       r.1 = inr (TasksView.toggle_abort 404) ∧ Orm.persisted r = s1).
Proof.
  intros deleted s1 Hdeleted.
  destruct (api_delete_task_outcome fault now s id current_user)
    as [(_ & _ & _ & Hp & _)|(_ & Hr & _)]; [|done].
  fold deleted in Hp. fold s1 in Hp.
  pose proof (owned_task_deleted now current_user id s) as Hgone.
  rewrite <- Hp in Hgone.
  split_and!; intros; subst r.
  - unfold ApiView.api_get_task. by rewrite first_query, Hgone.
  - unfold ApiView.api_update_task. by rewrite first_query, Hgone.
  - unfold ApiView.api_delete_task. by rewrite first_query, Hgone.
  - unfold TasksView.toggle_complete. by rewrite first_query, Hgone.
Qed.

Lemma deleted_task_is_not_found_witness :
  let deleted :=
    ApiView.api_delete_task (fun _ => false) 100 1 1 (Orm.begin Sample.store) in
  let r :=
    ApiView.api_delete_task (fun _ => false) 200 1 1
      (Orm.begin (Orm.persisted deleted)) in
  deleted.1 = inr (Http.api_response Http.no_data 200 true)
  ∧ r.1 = inr (Http.api_response Http.no_data 404 false)
  ∧ Orm.persisted r = Orm.persisted deleted.
Proof.
  split; [vm_compute; reflexivity|].
  refine (proj1 (proj2 (proj2
            (deleted_task_is_not_found (fun _ => false) 100 1 1 Sample.store
               _))) 200).
  vm_compute. reflexivity.
Defined.

(** ** Creation, whatever fails *)

(** [create_task] stores one new task or nothing, and answers with the
    redirect to the new task only when the task is stored.  The new task
    sits under a key that was free; it belongs to the requesting user,
    carries the trimmed title of the form, which is not blank, and starts
    incomplete, with status TODO, no completion timestamp and the instant
    of the request as creation timestamp.  The tasks there were, the
    comments and the attachments are untouched.  With the task stored the
    answer is the redirect to it, or, when reading its key back after the
    commit fails, the create page with an error (or the error of the
    queries for that page). *)
Theorem create_task_outcome (fault : nat → bool)
    (float_of_str : list N → option spec_float)
    (int_of_str strptime_ymd : list N → option Z) (now current_user : Z)
    (m : Http.method) (form : gmap string (list N)) (s : Orm.Store) :
  let r :=
    TasksView.create_task fault float_of_str int_of_str strptime_ymd now
      current_user m form (Orm.begin s) in
  (Orm.persisted r = s
   ∧ ∀ k, r.1 ≠ inr (Http.redirect "tasks.view_task" (Some k) Http.success))
  ∨ ∃ k x,
      m = Http.POST
      ∧ Orm.tasks s !! k = None
      ∧ Orm.persisted r
        = Orm.mkStore (<[k := x]> (Orm.tasks s)) (Orm.task_comments s)
            (Orm.task_attachments s)
      ∧ (r.1 = inr (Http.redirect "tasks.view_task" (Some k) Http.success)
         ∨ r.1 = inr (Http.render_template "tasks/create.html"
                        (Some Http.error))
         ∨ r.1 = inl Py.DatabaseError)
      ∧ Task.user_id x = current_user
      ∧ Task.title x = Py.strip (TasksView.form_get form "title" [])
      ∧ Task.title x ≠ []
      ∧ Task.is_completed x = false
      ∧ Task.status x = TODO
      ∧ Task.completed_at x = None
      ∧ Task.created_at x = now.
Proof.
  intros r. subst r. unfold TasksView.create_task. destruct m.
  { unfold TasksView.create_form. run_handler.
    destruct (fault 0%nat); simpl; [by left|].
    destruct (fault 1%nat); simpl; by left. }
  destruct (Py.strip (TasksView.form_get form "title" [])) as [|c t] eqn:Et;
    [by left|].
  cbn [Py.truthy negb].
  match goal with
  | |- context [match ?d with inl _ => _ | inr _ => _ end] =>
      destruct d as [e|due]; [by left|]
  end.
  rewrite bind_try_except, bind_lift.
  destruct (TaskPriority_of_value _) as [e|p].
  { unfold TasksView.create_form. run_handler.
    destruct (fault 0%nat); simpl; [by left|].
    destruct (fault 1%nat); simpl; by left. }
  destruct (set_tags_as_with_tags
              (Some
                 (Py.strip <$>
                  filter (λ tag : list N, Py.truthy (Py.strip tag) = true)
                    (Py.split Py.comma
                       (Py.strip (TasksView.form_get form "tags" []))))))
    as [tg ->].
  match goal with
  | |- context [Orm.add_task ?z] => set (x := z)
  end.
  unfold TasksView.create_form, Orm.add_task. run_handler.
  destruct (fault 0%nat); simpl.
  { destruct (fault 1%nat); simpl; [by left|].
    destruct (fault 2%nat); simpl; by left. }
  right. exists (Orm.next_id (Orm.tasks s)), x.
  assert (Task.user_id x = current_user
          ∧ Task.title x = c :: t
          ∧ Task.title x ≠ []
          ∧ Task.is_completed x = false
          ∧ Task.status x = TODO
          ∧ Task.completed_at x = None
          ∧ Task.created_at x = now) as Hx
    by (subst x; by destruct (Py.truthy _)).
  clearbody x.
  split; [done|]. split; [apply next_id_fresh|].
  destruct (fault 1%nat); simpl.
  - destruct (fault 2%nat); simpl; [by auto|].
    destruct (fault 3%nat); simpl; by auto.
  - by auto.
Qed.

Lemma api_except_unchanged (e : Py.exn) (σ : Orm.Session) :
  Orm.persisted (ApiView.api_except e σ) = Orm.committed σ.
Proof. by destruct e. Qed.

Lemma api_except_not_created (e : Py.exn) (σ : Orm.Session) (d : Http.data) :
  (ApiView.api_except e σ).1 ≠ inr (Http.api_response d 201 true).
Proof. by destruct e. Qed.

(** The runs of [api_create_task]: nothing stored and no 201, or the task
    the handler built stored under the next key. *)
Lemma api_create_task_cases (fault : nat → bool)
    (fromisoformat : list N → option Z) (now current_user : Z)
    (is_json : bool) (data : Http.task_json) (s : Orm.Store) :
  let r :=
    ApiView.api_create_task fault fromisoformat now current_user is_json data
      (Orm.begin s) in
  let k := Orm.next_id (Orm.tasks s) in
  (Orm.persisted r = s ∧ ∀ d, r.1 ≠ inr (Http.api_response d 201 true))
  ∨ ∃ x,
      is_json = true
      ∧ Orm.persisted r
        = Orm.mkStore (<[k := x]> (Orm.tasks s)) (Orm.task_comments s)
            (Orm.task_attachments s)
      ∧ (r.1 = inr (Http.api_response
                      (Http.task_data (Task.mk_dict k x None)) 201 true)
         ∨ r.1 = inr (Http.api_response Http.no_data 500 false))
      ∧ Task.user_id x = current_user
      ∧ Http.json_title data = Some (Task.title x)
      ∧ Task.title x ≠ []
      ∧ Task.is_completed x = false
      ∧ Task.status x = TODO
      ∧ Task.completed_at x = None
      ∧ Task.created_at x = now.
Proof.
  intros r k. subst r k.
  unfold ApiView.api_create_task, ApiView.validate_json_title.
  destruct is_json; [|by left]. cbn [negb].
  destruct (Http.json_title data) as [[|c tl]|] eqn:Etitle; [by left| |by left].
  set (G := fun y : Task.t =>
              Task.user_id y = current_user
              ∧ Task.title y = c :: tl
              ∧ Task.is_completed y = false
              ∧ Task.status y = TODO
              ∧ Task.completed_at y = None
              ∧ Task.created_at y = now).
  unfold Orm.try_except.
  assert (∃ rd,
    match Http.json_due_date data with
    | Some ((_ :: _) as d) =>
        Orm.bind (Http.lift (ApiView.parse_due_date fromisoformat d))
          (fun d => Orm.ret (Some d))
    | _ => Orm.ret None
    end = Http.lift rd) as [rd ->].
  { destruct (Http.json_due_date data) as [[|c' d']|]; [by eexists| |by eexists].
    destruct (ApiView.parse_due_date fromisoformat (c' :: d')); by eexists. }
  rewrite bind_lift. destruct rd as [e|due].
  { left. split; [apply api_except_unchanged|apply api_except_not_created]. }
  rewrite bind_lift.
  destruct (TaskPriority_of_value _) as [e|p].
  { left. split; [apply api_except_unchanged|apply api_except_not_created]. }
  set (x0 := Task.init now _ _ current_user p due).
  assert (G x0) as Hx0 by done.
  assert (∃ rt,
    match Http.json_estimated_hours data with
    | Some h =>
        if Http.num_truthy h
        then Orm.bind (Http.lift (Http.float h))
               (fun f => Orm.ret (Task.with_estimated_hours f x0))
        else Orm.ret x0
    | None => Orm.ret x0
    end = Http.lift rt ∧ ∀ y, rt = inr y → G y) as (rt & -> & Hrt).
  { destruct (Http.json_estimated_hours data) as [h|];
      [|exists (inr x0); split; [done|by intros ? [= <-]]].
    destruct (Http.num_truthy h);
      [|exists (inr x0); split; [done|by intros ? [= <-]]].
    destruct (Http.float h) as [e|f].
    - exists (inl e). by split.
    - exists (inr (Task.with_estimated_hours f x0)).
      split; [done|by intros ? [= <-]]. }
  rewrite bind_lift. destruct rt as [e|x1].
  { left. split; [apply api_except_unchanged|apply api_except_not_created]. }
  specialize (Hrt x1 eq_refl). clearbody x0.
  match goal with
  | |- context [Orm.add_task ?z] => set (x := z)
  end.
  assert (G x) as (G1 & G2 & G3 & G4 & G5 & G6).
  { subst x.
    destruct (Http.json_tags data) as [[|? ?]|],
      (TasksView.or_None (Http.json_parent_task_id data)),
      (TasksView.or_None (Http.json_project_id data)),
      (Http.json_category data) as [[|? ?]|]; exact Hrt. }
  clearbody x. unfold Orm.add_task, Task.to_dict. run_handler.
  destruct (fault 0%nat); simpl; [by left|].
  right. exists x. split; [done|].
  destruct (fault 1%nat); simpl.
  - split_and!; try done; try (by right); by rewrite G2.
  - split_and!; try done; try (by left); by rewrite G2.
Qed.

(** [api_create_task] stores one new task or nothing, and answers 201
    only when the task is stored.  The new task sits under a key that was
    free, belongs to the requesting user, carries the title of the body as
    it was sent, which is not empty, and starts incomplete, with status
    TODO, no completion timestamp and the instant of the request as
    creation timestamp; the tasks there were, the comments and the
    attachments are untouched.  The answer is then 201 with the task, or
    500 when reading the task back after the commit failed. *)
Theorem api_create_task_outcome (fault : nat → bool)
    (fromisoformat : list N → option Z) (now current_user : Z)
    (is_json : bool) (data : Http.task_json) (s : Orm.Store) :
  let r :=
    ApiView.api_create_task fault fromisoformat now current_user is_json data
      (Orm.begin s) in
  (Orm.persisted r = s ∧ ∀ d, r.1 ≠ inr (Http.api_response d 201 true))
  ∨ ∃ k x,
      is_json = true
      ∧ Orm.tasks s !! k = None
      ∧ Orm.persisted r
        = Orm.mkStore (<[k := x]> (Orm.tasks s)) (Orm.task_comments s)
            (Orm.task_attachments s)
      ∧ (r.1 = inr (Http.api_response
                      (Http.task_data (Task.mk_dict k x None)) 201 true)
         ∨ r.1 = inr (Http.api_response Http.no_data 500 false))
      ∧ Task.user_id x = current_user
      ∧ Http.json_title data = Some (Task.title x)
      ∧ Task.title x ≠ []
      ∧ Task.is_completed x = false
      ∧ Task.status x = TODO
      ∧ Task.completed_at x = None
      ∧ Task.created_at x = now.
Proof.
  intros r.
  destruct (api_create_task_cases fault fromisoformat now current_user is_json
              data s) as [Hnothing|(x & Hjson & Hstored & Hanswer & Hx)].
  - by left.
  - right. exists (Orm.next_id (Orm.tasks s)), x.
    split; [done|]. split; [apply next_id_fresh|].
    split; [exact Hstored|]. split; [exact Hanswer|exact Hx].
Qed.

(** A task created through the API can be read back: after a 201 answer,
    [api_get_task] on the key of the answer, by the same user, answers
    200 with the task under that key, and with the columns of the 201
    answer.  (The entries of the two answers that are computed from the
    clock or from other rows are not part of [Task.dict] and are not
    compared.) *)
Theorem created_task_is_read_back (fault : nat → bool)
    (fromisoformat : list N → option Z) (lower : list N → list N)
    (now current_user : Z) (data : Http.task_json)
    (args : gmap string (list N)) (s : Orm.Store) (d : Task.dict) :
  let created :=
    ApiView.api_create_task fault fromisoformat now current_user true data
      (Orm.begin s) in
  created.1 = inr (Http.api_response (Http.task_data d) 201 true) →
  args !! "include_subtasks" = None →
  lower (Py.lit "false") ≠ Py.lit "true" →
  ∃ d',
    (ApiView.api_get_task (fun _ => false) lower current_user (Task.dict_id d)
       args (Orm.begin (Orm.persisted created))).1
    = inr (Http.api_response (Http.task_data d') 200 true)
    ∧ Task.dict_id d' = Task.dict_id d
    ∧ Task.dict_row d' = Task.dict_row d
    ∧ Orm.tasks (Orm.persisted created) !! Task.dict_id d
      = Some (Task.dict_row d).
Proof.
  intros created Hcreated Hargs Hlower.
  destruct (api_create_task_cases fault fromisoformat now current_user true
              data s)
    as [[_ Hno]|(x & _ & Hp & [Hr|Hr] & Hu & _)].
  - by destruct (Hno (Http.task_data d)).
  - fold created in Hr, Hp. rewrite Hcreated in Hr. injection Hr as ->.
    simpl. unfold ApiView.api_get_task. rewrite first_query. simpl.
    assert (TasksView.owned_task current_user (Orm.next_id (Orm.tasks s))
              (Orm.persisted created) = Some x) as ->.
    { apply owned_task_lookup. rewrite Hp. simpl.
      by rewrite lookup_insert_eq. }
    unfold TasksView.form_get. rewrite Hargs.
    rewrite bool_decide_eq_false_2 by done.
    run_handler. eexists. split; [reflexivity|]. simpl.
    split_and!; [done..|]. unfold Orm.persisted in Hp. rewrite Hp. simpl.
    by rewrite lookup_insert_eq.
  - fold created in Hr. rewrite Hcreated in Hr. discriminate.
Qed.

Lemma created_task_is_read_back_witness :
  ∃ d,
    let created :=
      ApiView.api_create_task (fun _ => false) (fun _ => None) 100 2 true
        Sample.subtask_json (Orm.begin Sample.store) in
    created.1 = inr (Http.api_response (Http.task_data d) 201 true)
    ∧ ∃ d',
        (ApiView.api_get_task (fun _ => false) (fun w => w) 2
           (Task.dict_id d) ∅ (Orm.begin (Orm.persisted created))).1
        = inr (Http.api_response (Http.task_data d') 200 true)
        ∧ Task.dict_id d' = Task.dict_id d
        ∧ Task.dict_row d' = Task.dict_row d
        ∧ Orm.tasks (Orm.persisted created) !! Task.dict_id d
          = Some (Task.dict_row d).
Proof.
  eexists. split.
  - vm_compute. reflexivity.
  - apply (created_task_is_read_back (fun _ => false) (fun _ => None)
             (fun w => w) 100 2 Sample.subtask_json ∅ Sample.store).
    + vm_compute. reflexivity.
    + reflexivity.
    + vm_compute. discriminate.
Defined.

Lemma api_get_tasks_lists_own_tasks_witness :
  ∃ l p,
    (ApiView.api_get_tasks (fun _ => false) Sample.int_of_str (fun w => w) 1 ∅
       (Orm.begin Sample.store)).1
    = inr (Http.api_response (Http.tasks_data l p) 200 true)
    ∧ Forall (fun d => Orm.tasks Sample.store !! Task.dict_id d
                       = Some (Task.dict_row d)
                       ∧ Task.user_id (Task.dict_row d) = 1) l
    ∧ StronglySorted
        (fun d1 d2 => Task.created_at (Task.dict_row d2)
                      ≤ Task.created_at (Task.dict_row d1)) l
    ∧ NoDup (Task.dict_id <$> l).
Proof.
  pose proof (proj2 (api_get_tasks_lists_own_tasks (fun _ => false)
                       Sample.int_of_str (fun w => w) 1 ∅ Sample.store)) as H.
  eexists _, _. split; [vm_compute; reflexivity|].
  edestruct H as (H1 & H2 & H3 & _); [vm_compute; reflexivity|].
  exact (conj H1 (conj H2 H3)).
Defined.

(** ** What the toggle answers *)

(** The JSON answer of [toggle_complete] tells the new state: on a task
    of the requesting user, when no statement fails and the recursion
    limit is not reached, the answer carries the negation of the flag the
    task had, with the label "Done" for a task that was incomplete and
    "To Do" for a task that was complete, whatever status the task had
    before. *)
Theorem toggle_complete_answer (depth : nat) (now current_user id : Z)
    (s : Orm.Store) (x : Task.t) :
  Orm.tasks s !! id = Some x →
  Task.user_id x = current_user →
  (size (Spec.incomplete (Orm.tasks s)) < depth)%nat →
  (TasksView.toggle_complete (fun _ => false) depth now current_user id true
     (Orm.begin s)).1
  = inr (TasksView.toggled (negb (Task.is_completed x))
           (if Task.is_completed x then Py.lit "To Do" else Py.lit "Done")).
Proof.
  intros Hx Hu Hsize.
  assert (TasksView.owned_task current_user id s = Some x) as Ho
    by (by apply owned_task_lookup).
  unfold TasksView.toggle_complete. rewrite first_query, Ho.
  run_handler. destruct (Task.is_completed x) eqn:Hc; simpl.
  - rewrite lookup_alter_eq, Hx. simpl.
    by rewrite mark_incomplete_fields.
  - destruct (mark_completed_returns now depth id (Orm.tasks s)) as [ts Hrun].
    { pose proof (size_incomplete_advanced now _ _
                    (advanced_alter now (Orm.tasks s) id)). lia. }
    destruct (mark_completed_marked now _ _ _ _ Hrun) as (_ & Hself & _).
    rewrite Hrun. simpl. rewrite (Hself _ Hx). simpl.
    by rewrite complete_self_fields.
Qed.

Lemma toggle_complete_answer_witness :
  (TasksView.toggle_complete (fun _ => false) 10 100 1 1 true
     (Orm.begin Sample.store)).1
  = inr (TasksView.toggled (negb (Task.is_completed Sample.release))
           (if Task.is_completed Sample.release
            then Py.lit "To Do" else Py.lit "Done")).
Proof.
  apply (toggle_complete_answer 10 100 1 1 Sample.store Sample.release).
  - reflexivity.
  - reflexivity.
  - vm_compute. lia.
Defined.
